(** * CosmoSIS post-processing: the theory-plot driver

    A shallow embedding of [cosmosis/postprocessing/cosmology_theory_plots.py]:
    the text loaders ([load_file], [load_values], [try_numeric]), the plot
    classes with their [plot] routines, the self-registering metaclass and
    the [main] driver, together with the properties established about them.

    Conventions of the embedding.
    - Python [str] is [string]; its characters are code points below 256.
    - Python [float] and the entries of NumPy arrays are binary64 values,
      [spec_float] with precision 53 and maximal exponent 1024.
    - The sample directory is a read-only map from path strings to file
      contents.  Image files written by [savefig] are kept in a separate
      map: the inputs all end in [.txt], which is not an image format.
    - Exceptions are values of [exn]; statements that can raise live in the
      monad [M] that threads the interpreter-visible state [world]. *)

From Stdlib Require Import ZArith Lia Bool Ascii String List DecimalString.
From Stdlib Require Import SpecFloat.
From stdpp Require Import base option list gmap strings fin_maps.

Local Open Scope string_scope.
Local Open Scope Z_scope.

(** ** Characters and strings *)

Module Str.

Definition code (c : ascii) : Z := Z.of_nat (nat_of_ascii c).

(** [str.isspace] restricted to code points below 256. *)
Definition is_space (c : ascii) : bool :=
  let n := code c in
  ((9 <=? n) && (n <=? 13)) || ((28 <=? n) && (n <=? 32))
  || (n =? 133) || (n =? 160).

Definition is_digit (c : ascii) : bool :=
  let n := code c in (48 <=? n) && (n <=? 57).

Definition digit_val (c : ascii) : Z := code c - 48.

Definition lower (c : ascii) : ascii :=
  let n := code c in
  if (65 <=? n) && (n <=? 90) then ascii_of_nat (Z.to_nat (n + 32)) else c.

Fixpoint lower_str (s : string) : string :=
  match s with
  | EmptyString => EmptyString
  | String c s' => String (lower c) (lower_str s')
  end.

Definition upper (c : ascii) : ascii :=
  let n := code c in
  if (97 <=? n) && (n <=? 122) then ascii_of_nat (Z.to_nat (n - 32)) else c.

(** [s.upper()] on ASCII letters *)
Fixpoint upper_str (s : string) : string :=
  match s with
  | EmptyString => EmptyString
  | String c s' => String (upper c) (upper_str s')
  end.

Fixpoint lstrip (s : string) : string :=
  match s with
  | EmptyString => EmptyString
  | String c s' => if is_space c then lstrip s' else s
  end.

Fixpoint rstrip (s : string) : string :=
  match s with
  | EmptyString => EmptyString
  | String c s' =>
      match rstrip s' with
      | EmptyString => if is_space c then EmptyString else String c EmptyString
      | t => String c t
      end
  end.

(** [s.strip()] *)
Definition strip (s : string) : string := rstrip (lstrip s).

(** [s.split(sep)] for a one-character separator. *)
Fixpoint split (sep : ascii) (s : string) : list string :=
  match s with
  | EmptyString => [EmptyString]
  | String c s' =>
      if Ascii.eqb c sep then EmptyString :: split sep s'
      else match split sep s' with
           | h :: t => String c h :: t
           | [] => [String c EmptyString]
           end
  end.

(** [s.split()]: the maximal runs of non-whitespace characters. *)
Fixpoint words_go (cur : option string) (s : string) : list string :=
  match s with
  | EmptyString => match cur with Some w => [String.rev w] | None => [] end
  | String c s' =>
      if is_space c
      then match cur with
           | Some w => String.rev w :: words_go None s'
           | None => words_go None s'
           end
      else words_go (Some (String c (default EmptyString cur))) s'
  end.

Definition words (s : string) : list string := words_go None s.

Fixpoint count (c : ascii) (s : string) : nat :=
  match s with
  | EmptyString => 0%nat
  | String d s' => ((if Ascii.eqb d c then 1 else 0) + count c s')%nat
  end.

(** [s[:-n]] *)
Definition drop_last (n : nat) (s : string) : string :=
  String.substring 0 (String.length s - n) s.

(** [str(n)] and the [{0}] of [str.format] for a non-negative integer. *)
Definition of_nat (n : nat) : string := NilEmpty.string_of_uint (Nat.to_uint n).

Definition LF : ascii := ascii_of_nat 10.
Definition CR : ascii := ascii_of_nat 13.

(** The lines yielded by iterating over a file opened in text mode:
    universal newlines, every line but possibly the last ends in LF. *)
Fixpoint readlines (s : string) : list string :=
  match s with
  | EmptyString => []
  | String c s' =>
      if Ascii.eqb c LF then String LF EmptyString :: readlines s'
      else if Ascii.eqb c CR then
        match s' with
        | String d _ =>
            if Ascii.eqb d LF then readlines s'
            else String LF EmptyString :: readlines s'
        | EmptyString => [String LF EmptyString]
        end
      else match readlines s' with
           | l :: ls =>
               match s' with
               | EmptyString => [String c EmptyString]
               | String d _ => String c l :: ls
               end
           | [] => [String c EmptyString]
           end
  end.

End Str.

(** ** Binary64 numbers *)

Module F64.

Definition prec : Z := 53.
Definition emax : Z := 1024.

Definition zero : spec_float := S754_zero false.

Definition of_Z (n : Z) : spec_float := binary_normalize prec emax n 0 false.

Definition add : spec_float -> spec_float -> spec_float := SFadd prec emax.
Definition mul : spec_float -> spec_float -> spec_float := SFmul prec emax.
Definition div : spec_float -> spec_float -> spec_float := SFdiv prec emax.

(** [x < y] and [x <= y]; both are false when an operand is NaN. *)
Definition ltb : spec_float -> spec_float -> bool := SFltb.
Definition leb : spec_float -> spec_float -> bool := SFleb.

Definition is_nan (x : spec_float) : bool :=
  match x with S754_nan => true | _ => false end.

(** The binary64 number nearest to [m * 10^e10] (ties to even), with the
    sign [neg]: the value of a decimal numeral whose digits spell [m]. *)
Definition of_decimal (neg : bool) (m : Z) (e10 : Z) : spec_float :=
  match m with
  | Z0 => S754_zero neg
  | Zpos _ =>
      let num := if 0 <=? e10 then m * 10 ^ e10 else m in
      let den := if 0 <=? e10 then 1 else 10 ^ (- e10) in
      let e := Z.log2 num - Z.log2 den - 55 in
      let n' := if e <? 0 then num * 2 ^ (- e) else num in
      let d' := if e <? 0 then den else den * 2 ^ e in
      let q := n' / d' in
      let r := n' mod d' in
      let loc := if r =? 0 then loc_Exact
                 else loc_Inexact (Z.compare (2 * r) d') in
      binary_round_aux prec emax neg q e loc
  | Zneg _ => S754_nan
  end.

End F64.

(** ** The built-ins [int] and [float] on strings *)

Module Py.

(** An optional sign: [(negative, rest)]. *)
Definition parse_sign (s : string) : bool * string :=
  match s with
  | String c s' =>
      if Ascii.eqb c "-" then (true, s')
      else if Ascii.eqb c "+" then (false, s')
      else (false, s)
  | EmptyString => (false, s)
  end.

(** After a digit: further digits, each optionally preceded by a single
    underscore.  Returns the accumulated value, the number of digits
    read and the unread rest. *)
Fixpoint scan_digits (s : string) (acc : Z) (cnt : Z) : Z * Z * string :=
  match s with
  | String c s' =>
      if Str.is_digit c
      then scan_digits s' (10 * acc + Str.digit_val c) (cnt + 1)
      else if Ascii.eqb c "_" then
        match s' with
        | String d s'' =>
            if Str.is_digit d
            then scan_digits s'' (10 * acc + Str.digit_val d) (cnt + 1)
            else (acc, cnt, s)
        | EmptyString => (acc, cnt, s)
        end
      else (acc, cnt, s)
  | EmptyString => (acc, cnt, s)
  end.

(** [digitpart ::= digit (["_"] digit)*], continuing the numeral [acc]. *)
Definition digitpart (acc : Z) (s : string) : option (Z * Z * string) :=
  match s with
  | String c s' =>
      if Str.is_digit c
      then Some (scan_digits s' (10 * acc + Str.digit_val c) 1)
      else None
  | EmptyString => None
  end.

(** The blanks [int] and [float] skip at both ends of their argument: the
    white space of C and the spaces beyond ASCII, but not the separators 28
    to 31, which [str.strip] removes. *)
Definition is_blank (c : ascii) : bool :=
  let n := Str.code c in
  ((9 <=? n) && (n <=? 13)) || (n =? 32) || (n =? 133) || (n =? 160).

Fixpoint skip_left (s : string) : string :=
  match s with
  | EmptyString => EmptyString
  | String c s' => if is_blank c then skip_left s' else s
  end.

Fixpoint skip_right (s : string) : string :=
  match s with
  | EmptyString => EmptyString
  | String c s' =>
      match skip_right s' with
      | EmptyString => if is_blank c then EmptyString else String c EmptyString
      | t => String c t
      end
  end.

Definition skip_blanks (s : string) : string := skip_right (skip_left s).

(** [int(s)] with the default base 10; [None] stands for [ValueError]. *)
Definition int (s : string) : option Z :=
  let '(neg, s1) := parse_sign (skip_blanks s) in
  match digitpart 0 s1 with
  | Some (v, _, EmptyString) => Some (if neg then - v else v)
  | _ => None
  end.

(** The exponent part and the end of a decimal numeral with digits [m],
    [nfrac] of which stand after the point. *)
Definition float_exponent (neg : bool) (m nfrac : Z) (s : string)
  : option spec_float :=
  match s with
  | EmptyString => Some (F64.of_decimal neg m (- nfrac))
  | String c s1 =>
      if Ascii.eqb (Str.lower c) "e" then
        let '(eneg, s2) := parse_sign s1 in
        match digitpart 0 s2 with
        | Some (ev, _, EmptyString) =>
            Some (F64.of_decimal neg m ((if eneg then - ev else ev) - nfrac))
        | _ => None
        end
      else None
  end.

(** [inf], [infinity] and [nan] in any letter case. *)
Definition float_special (neg : bool) (s : string) : option spec_float :=
  let l := Str.lower_str s in
  if String.eqb l "inf" || String.eqb l "infinity" then Some (S754_infinity neg)
  else if String.eqb l "nan" then Some S754_nan
  else None.

(** [float(s)]; [None] stands for [ValueError]. *)
Definition float (s : string) : option spec_float :=
  let '(neg, s1) := parse_sign (skip_blanks s) in
  match digitpart 0 s1 with
  | Some (ip, _, r) =>
      match r with
      | String c r1 =>
          if Ascii.eqb c "." then
            match digitpart ip r1 with
            | Some (m, nfrac, r2) => float_exponent neg m nfrac r2
            | None => float_exponent neg ip 0 r1
            end
          else float_exponent neg ip 0 r
      | EmptyString => float_exponent neg ip 0 r
      end
  | None =>
      match s1 with
      | String c r1 =>
          if Ascii.eqb c "." then
            match digitpart 0 r1 with
            | Some (m, nfrac, r2) => float_exponent neg m nfrac r2
            | None => None
            end
          else float_special neg s1
      | EmptyString => None
      end
  end.

(** A float literal of the source text. *)
Definition lit (s : string) : spec_float := default S754_nan (float s).

End Py.

(** ** Exceptions and results *)

Inductive exn :=
  | IOError (msg : string)
  | FileNotFoundError (path : string)
  | IsADirectoryError (path : string)
  | ValueError (msg : string)
  | TypeError (msg : string)
  | IndexError (msg : string)
  | AttributeError (msg : string).

(** [isinstance(e, IOError)]: [IOError] is [OSError], of which
    [FileNotFoundError] and [IsADirectoryError] are subclasses. *)
Definition is_IOError (e : exn) : bool :=
  match e with
  | IOError _ | FileNotFoundError _ | IsADirectoryError _ => true
  | _ => false
  end.

(** [str(e)] *)
Definition exn_str (e : exn) : string :=
  match e with
  | IOError msg | ValueError msg | TypeError msg
  | IndexError msg | AttributeError msg => msg
  | FileNotFoundError p => "[Errno 2] No such file or directory: '" +:+ p +:+ "'"
  | IsADirectoryError p => "[Errno 21] Is a directory: '" +:+ p +:+ "'"
  end.

Inductive result (A : Type) :=
  | Ok (a : A)
  | Raise (e : exn).
Arguments Ok {A} a.
Arguments Raise {A} e.

Definition is_Ok {A} (r : result A) : bool :=
  match r with Ok _ => true | Raise _ => false end.

Definition rbind {A B} (r : result A) (k : A -> result B) : result B :=
  match r with Ok a => k a | Raise e => Raise e end.

Notation "'let?' x := r 'in' k" := (rbind r (fun x => k))
  (at level 10, x name, r at level 100, k at level 200).

Fixpoint rmapM {A B} (f : A -> result B) (l : list A) : result (list B) :=
  match l with
  | [] => Ok []
  | a :: l' => let? b := f a in let? bs := rmapM f l' in Ok (b :: bs)
  end.

(** ** The sample directory *)

Record FS := {
  files : gmap string string;   (* regular files and their text *)
  dirs  : gset string           (* directories *)
}.

(** [os.path.exists(path)] *)
Definition path_exists (fs : FS) (path : string) : bool :=
  bool_decide (is_Some (files fs !! path)) || bool_decide (path ∈ dirs fs).

(** [os.path.join(a, b)] *)
Definition path_join (a b : string) : string :=
  match b with
  | String "/" _ => b
  | _ =>
      match String.rev a with
      | EmptyString => b
      | String "/" _ => a +:+ b
      | _ => a +:+ "/" +:+ b
      end
  end.

(** [open(path)] followed by reading the text. *)
Definition open_read (fs : FS) (path : string) : result string :=
  match files fs !! path with
  | Some text => Ok text
  | None =>
      if bool_decide (path ∈ dirs fs) then Raise (IsADirectoryError path)
      else Raise (FileNotFoundError path)
  end.

(** ** NumPy arrays of at most two dimensions *)

Inductive ndarray :=
  | Arr0 (x : spec_float)
  | Arr1 (xs : list spec_float)
  | Arr2 (rows : list (list spec_float)).

Module Np.

(** The conversion of one field: as by [float], without the underscores
    that [float] allows between digits. *)
Definition field (w : string) : option spec_float :=
  if (Str.count "_" w =? 0)%nat then Py.float w else None.

(** One line of a table: the text before [#], split at whitespace, each
    field converted. *)
Definition parse_row (line : string) : result (list spec_float) :=
  rmapM (fun w => match field w with
                  | Some x => Ok x
                  | None => Raise (ValueError
                      ("could not convert string to float: '" +:+ w +:+ "'"))
                  end)
        (Str.words (hd EmptyString (Str.split "#" line))).

(** The rows of the table, blank lines skipped, all of one width. *)
Fixpoint parse_rows (lines : list string) : result (list (list spec_float)) :=
  match lines with
  | [] => Ok []
  | line :: lines' =>
      let? row := parse_row line in
      let? rows := parse_rows lines' in
      match row, rows with
      | [], _ => Ok rows
      | _, [] => Ok [row]
      | _, r :: _ =>
          if (length row =? length r)%nat then Ok (row :: rows)
          else Raise (ValueError "Wrong number of columns")
      end
  end.

(** [np.squeeze] of a table holding [rows]. *)
Definition squeeze (rows : list (list spec_float)) : ndarray :=
  match rows with
  | [] => Arr1 []
  | [[x]] => Arr0 x
  | [row] => Arr1 row
  | _ =>
      match rmapM (fun r => match r with [x] => Ok x | _ => Raise (ValueError "") end)
                  rows with
      | Ok col => Arr1 col
      | Raise _ => Arr2 rows
      end
  end.

(** [np.loadtxt(filename)] *)
Definition loadtxt (fs : FS) (filename : string) : result ndarray :=
  let? text := open_read fs filename in
  let? rows := parse_rows (Str.readlines text) in
  Ok (squeeze rows).

End Np.

Module NpOps.

Definition map1 (f : spec_float -> spec_float) (a : ndarray) : ndarray :=
  match a with
  | Arr0 x => Arr0 (f x)
  | Arr1 xs => Arr1 (map f xs)
  | Arr2 rows => Arr2 (map (map f) rows)
  end.

(** All the entries, row by row. *)
Definition flat (a : ndarray) : list spec_float :=
  match a with
  | Arr0 x => [x]
  | Arr1 xs => xs
  | Arr2 rows => concat rows
  end.

Definition ndim (a : ndarray) : nat :=
  match a with Arr0 _ => 0 | Arr1 _ => 1 | Arr2 _ => 2 end%nat.

Definition to2d (a : ndarray) : list (list spec_float) :=
  match a with Arr0 x => [[x]] | Arr1 xs => [xs] | Arr2 rows => rows end.

Definition of2d (nd : nat) (rows : list (list spec_float)) : ndarray :=
  match nd with
  | O => Arr0 (hd S754_nan (hd [] rows))
  | S O => Arr1 (hd [] rows)
  | _ => Arr2 rows
  end.

(** [a.shape] of a two-dimensional array *)
Definition shape2 (rows : list (list spec_float)) : nat * nat :=
  (length rows, length (hd [] rows)).

(** The common length of two axes under broadcasting. *)
Definition bdim (n m : nat) : option nat :=
  if (n =? m)%nat then Some n
  else if (n =? 1)%nat then Some m
  else if (m =? 1)%nat then Some n
  else None.

Definition bget {A} (d : A) (n : nat) (l : list A) (i : nat) : A :=
  nth (if (n =? 1)%nat then O else i) l d.

(** An element-wise binary operator with broadcasting. *)
Definition broadcast (f : spec_float -> spec_float -> spec_float)
    (a b : ndarray) : result ndarray :=
  let ra := to2d a in
  let rb := to2d b in
  let '(na, ma) := shape2 ra in
  let '(nb, mb) := shape2 rb in
  match bdim na nb, bdim ma mb with
  | Some n, Some m =>
      Ok (of2d (Nat.max (ndim a) (ndim b))
            (map (fun i =>
               map (fun j => f (bget S754_nan ma (bget [] na ra i) j)
                               (bget S754_nan mb (bget [] nb rb i) j))
                   (seq 0 m))
               (seq 0 n)))
  | _, _ => Raise (ValueError "operands could not be broadcast together")
  end.

(** [(a < 0).all()] *)
Definition all_lt0 (a : ndarray) : bool :=
  forallb (fun x => F64.ltb x F64.zero) (flat a).

(** [bool(r)] for a one-dimensional Boolean array [r] *)
Definition truth (r : list bool) : result bool :=
  match r with
  | [] => Ok false
  | [b] => Ok b
  | _ => Raise (ValueError
           "The truth value of an array with more than one element is ambiguous. Use a.any() or a.all()")
  end.

Fixpoint all_rows (rows : list (list bool)) : result bool :=
  match rows with
  | [] => Ok true
  | r :: rows' =>
      let? b := truth r in
      if b then all_rows rows' else Ok false
  end.

(** The built-in [all(a <= 0)], which iterates over the first axis. *)
Definition builtin_all_le0 (a : ndarray) : result bool :=
  match a with
  | Arr0 _ => Raise (TypeError "iteration over a 0-d array")
  | Arr1 xs => Ok (forallb (fun x => F64.leb x F64.zero) xs)
  | Arr2 rows => all_rows (map (map (fun x => F64.leb x F64.zero)) rows)
  end.

(** [a *= -1] *)
Definition imul_neg1 (a : ndarray) : ndarray :=
  map1 (fun x => F64.mul x (F64.of_Z (-1))) a.

Definition atleast_1d (a : ndarray) : ndarray :=
  match a with Arr0 x => Arr1 [x] | _ => a end.

Definition atleast_2d (a : ndarray) : ndarray := Arr2 (to2d a).

(** [len(a)] *)
Definition len (a : ndarray) : result nat :=
  match a with
  | Arr0 _ => Raise (TypeError "len() of unsized object")
  | Arr1 xs => Ok (length xs)
  | Arr2 rows => Ok (length rows)
  end.

Fixpoint transpose_rows (ncols : nat) (rows : list (list spec_float))
  : list (list spec_float) :=
  match ncols with
  | O => []
  | S n => map (hd S754_nan) rows :: transpose_rows n (map (@tl _) rows)
  end.

(** [a.T] *)
Definition transpose (a : ndarray) : ndarray :=
  match a with
  | Arr2 rows => Arr2 (transpose_rows (snd (shape2 rows)) rows)
  | _ => a
  end.

(** [a[:,0]] *)
Definition column0 (a : ndarray) : result ndarray :=
  match a with
  | Arr2 rows =>
      if (snd (shape2 rows) =? 0)%nat
      then Raise (IndexError "index 0 is out of bounds for axis 1 with size 0")
      else Ok (Arr1 (map (hd S754_nan) rows))
  | Arr1 _ => Raise (IndexError "too many indices for array: array is 1-dimensional, but 2 were indexed")
  | Arr0 _ => Raise (IndexError "too many indices for array: array is 0-dimensional, but 2 were indexed")
  end.

Definition min2 (x y : spec_float) : spec_float :=
  if F64.is_nan x then x
  else if F64.is_nan y then y
  else if F64.ltb y x then y else x.

(** [a.min()] *)
Definition amin (a : ndarray) : result spec_float :=
  match flat a with
  | [] => Raise (ValueError
            "zero-size array to reduction operation minimum which has no identity")
  | x :: xs => Ok (fold_left min2 xs x)
  end.

End NpOps.

(** ** The plotting library

    A figure is a stack of axes, the current axes on top; every drawing
    call is recorded on the axes it applies to.  The calls themselves are
    taken not to raise. *)

Inductive line_kind := Linear | LogLog.

Inductive artist :=
  | Line (kind : line_kind) (x y : ndarray) (label : option string)
  | Grid
  | Legend (loc : option string)
  | XLabel (s : string)
  | YLabel (s : string)
  | XLim (lo hi : spec_float)
  | YLim (lo hi : spec_float)
  | XTickLabels (labels : list string)
  | YTickLabels (labels : list string)
  | TickParams (length : option spec_float) (which : option string)
               (labelsize : option spec_float)
  | Text (x y : spec_float) (s : string) (fontsize : spec_float) (color : string).

Definition rect : Type := spec_float * spec_float * spec_float * spec_float.

Record axes := {
  ax_rect : option rect;          (* [None]: the default axes made by [gca] *)
  ax_artists : list artist        (* in drawing order *)
}.

Record figure := { fig_axes : list axes (* most recent first *) }.

Record pylab_state := {
  figs : gmap nat figure;         (* by figure number *)
  cur : option nat                (* number of the current figure *)
}.

(** ** The state of a run *)

Record world := {
  pylab : pylab_state;
  outputs : gmap string figure;   (* image files written by [savefig] *)
  stdout : list string;           (* printed lines, oldest first *)
  made_dirs : gset string         (* directories made by [utils.mkdir] *)
}.

Definition M (A : Type) : Type := world -> result A * world.

Definition ret {A} (a : A) : M A := fun w => (Ok a, w).
Definition raise {A} (e : exn) : M A := fun w => (Raise e, w).
Definition bind {A B} (c : M A) (k : A -> M B) : M B :=
  fun w => match c w with
           | (Ok a, w') => k a w'
           | (Raise e, w') => (Raise e, w')
           end.
Definition lift {A} (r : result A) : M A := fun w => (r, w).
Definition modify (f : world -> world) : M unit := fun w => (Ok tt, f w).

Notation "'do' x <- c ; k" := (bind c (fun x => k))
  (at level 10, x name, c at level 100, k at level 200).
Notation "'run' c ; k" := (bind c (fun _ => k))
  (at level 10, c at level 100, k at level 200).

(** [for x in l: body x] *)
Fixpoint for_each {A} (l : list A) (body : A -> M unit) : M unit :=
  match l with
  | [] => ret tt
  | x :: l' => run body x; for_each l' body
  end.

(** [try: c  except IOError as err: handler err] *)
Definition try_except_IOError {A} (c : M A) (handler : exn -> M A) : M A :=
  fun w => match c w with
           | (Raise e, w') => if is_IOError e then handler e w' else (Raise e, w')
           | ok => ok
           end.

(** [print(s)] *)
Definition print (s : string) : M unit :=
  modify (fun w => {| pylab := pylab w; outputs := outputs w;
                      stdout := stdout w ++ [s]; made_dirs := made_dirs w |}).

Module Pylab.

Definition set_pylab (p : pylab_state) (w : world) : world :=
  {| pylab := p; outputs := outputs w; stdout := stdout w;
     made_dirs := made_dirs w |}.

Definition empty_figure : figure := {| fig_axes := [] |}.

(** The number given to a new figure. *)
Definition next_num (p : pylab_state) : nat :=
  S (max_list (elements (dom (figs p)))).

(** [pylab.figure()]: a new figure, made current; returns its number. *)
Definition figure_new : M nat :=
  fun w => let p := pylab w in
           let n := next_num p in
           (Ok n, set_pylab {| figs := <[n := empty_figure]> (figs p);
                               cur := Some n |} w).

(** [pylab.figure(num)]: make figure [num] current, creating it if needed. *)
Definition figure_num (n : nat) : M unit :=
  modify (fun w =>
    let p := pylab w in
    set_pylab {| figs := match figs p !! n with
                         | Some _ => figs p
                         | None => <[n := empty_figure]> (figs p)
                         end;
                 cur := Some n |} w).

(** [pylab.gcf()] *)
Definition gcf : M nat :=
  fun w => match cur (pylab w) with
           | Some n => (Ok n, w)
           | None => figure_new w
           end.

Definition get_figure (p : pylab_state) (n : nat) : figure :=
  default empty_figure (figs p !! n).

Definition put_figure (n : nat) (f : figure) : M unit :=
  modify (fun w => set_pylab {| figs := <[n := f]> (figs (pylab w));
                                cur := cur (pylab w) |} w).

(** [fig.add_axes(rect)] on figure [n]; the new axes become current. *)
Definition add_axes (n : nat) (r : rect) : M unit :=
  fun w => let f := get_figure (pylab w) n in
           put_figure n {| fig_axes := {| ax_rect := Some r; ax_artists := [] |}
                                       :: fig_axes f |} w.

(** Draw on [pylab.gca()], the current axes of the current figure, which
    are created if the figure has none. *)
Definition draw (a : artist) : M unit :=
  do n <- gcf;
  fun w => let f := get_figure (pylab w) n in
           match fig_axes f with
           | ax :: rest =>
               put_figure n {| fig_axes :=
                 {| ax_rect := ax_rect ax;
                    ax_artists := ax_artists ax ++ [a] |} :: rest |} w
           | [] =>
               put_figure n {| fig_axes :=
                 [ {| ax_rect := None; ax_artists := [a] |} ] |} w
           end.

(** [pylab.savefig(path)] *)
Definition savefig (path : string) : M unit :=
  do n <- gcf;
  modify (fun w => {| pylab := pylab w;
                      outputs := <[path := get_figure (pylab w) n]> (outputs w);
                      stdout := stdout w; made_dirs := made_dirs w |}).

End Pylab.

(** Modelled from the spec: [utils.mkdir] of [cosmosis.runtime.utils], which
    makes the output directory "created once, idempotently, before any
    rendering". *)
Definition utils_mkdir (path : string) : M unit :=
  modify (fun w => {| pylab := pylab w; outputs := outputs w; stdout := stdout w;
                      made_dirs := {[ path ]} ∪ made_dirs w |}).

Definition world0 : world :=
  {| pylab := {| figs := ∅; cur := None |}; outputs := ∅; stdout := [];
     made_dirs := ∅ |}.

(** ** The plot classes and their registry *)

Inductive cls :=
  | object
  | Plot
  | DistancePlot
  | AngularDiameterDistancePlot
  | LuminosityDistancePlot
  | ComovingDistancePlot
  | HubblePlot
  | DistanceModulusPlot
  | CMBSpectrumPlot
  | TTPlot
  | EEPlot
  | TEPlot
  | BBPlot
  | GrandPlot
  | MatterPowerPlot
  | ShearSpectrumPlot
  | MatterPower2D
  | ShearCorrelationPlusPlot
  | ShearCorrelationMinusPlot
  | GrowthPlot
  | LuminositySlopePlot.

#[global] Instance cls_eq_dec : EqDecision cls.
Proof. solve_decision. Defined.

(** The class statements of the module, in the order they execute. *)
Definition class_statements : list cls :=
  [ Plot; DistancePlot; AngularDiameterDistancePlot; LuminosityDistancePlot;
    ComovingDistancePlot; HubblePlot; DistanceModulusPlot; CMBSpectrumPlot;
    TTPlot; EEPlot; TEPlot; BBPlot; GrandPlot; MatterPowerPlot;
    ShearSpectrumPlot; MatterPower2D; ShearCorrelationPlusPlot;
    ShearCorrelationMinusPlot; GrowthPlot; LuminositySlopePlot ].

Definition cls_index (c : cls) : nat :=
  match c with
  | object => 0
  | _ => S (default 0 (fst <$> list_find (fun d => d = c) class_statements))
  end%nat.

Definition cls_of_index (n : nat) : option cls :=
  match n with
  | O => Some object
  | S i => class_statements !! i
  end.

#[global] Instance cls_countable : Countable cls.
Proof.
  apply (inj_countable cls_index cls_of_index).
  intros c; destruct c; reflexivity.
Defined.

(** [cls.__name__] *)
Definition class_name (c : cls) : string :=
  match c with
  | object => "object"
  | Plot => "Plot"
  | DistancePlot => "DistancePlot"
  | AngularDiameterDistancePlot => "AngularDiameterDistancePlot"
  | LuminosityDistancePlot => "LuminosityDistancePlot"
  | ComovingDistancePlot => "ComovingDistancePlot"
  | HubblePlot => "HubblePlot"
  | DistanceModulusPlot => "DistanceModulusPlot"
  | CMBSpectrumPlot => "CMBSpectrumPlot"
  | TTPlot => "TTPlot"
  | EEPlot => "EEPlot"
  | TEPlot => "TEPlot"
  | BBPlot => "BBPlot"
  | GrandPlot => "GrandPlot"
  | MatterPowerPlot => "MatterPowerPlot"
  | ShearSpectrumPlot => "ShearSpectrumPlot"
  | MatterPower2D => "MatterPower2D"
  | ShearCorrelationPlusPlot => "ShearCorrelationPlusPlot"
  | ShearCorrelationMinusPlot => "ShearCorrelationMinusPlot"
  | GrowthPlot => "GrowthPlot"
  | LuminositySlopePlot => "LuminositySlopePlot"
  end.

(** The bases each class statement hands to the metaclass.  [Plot] is
    declared through [with_metaclass(RegisteredPlot, object)], which calls
    [RegisteredPlot("Plot", (object,), ...)]; the temporary class it goes
    through is made by [type.__new__] and is never registered. *)
Definition bases (c : cls) : list cls :=
  match c with
  | object => []
  | Plot => [object]
  | DistancePlot | CMBSpectrumPlot | GrandPlot | MatterPowerPlot
  | ShearSpectrumPlot | ShearCorrelationPlusPlot | ShearCorrelationMinusPlot
  | GrowthPlot | LuminositySlopePlot => [Plot]
  | AngularDiameterDistancePlot | LuminosityDistancePlot | ComovingDistancePlot
  | HubblePlot | DistanceModulusPlot => [DistancePlot]
  | TTPlot | EEPlot | TEPlot | BBPlot => [CMBSpectrumPlot]
  | MatterPower2D => [ShearSpectrumPlot]
  end.

Module RegisteredPlot.

(** The effect of [RegisteredPlot.__new__(meta, name, bases, class_dict)]
    on [meta.registry], for the new class [c] with bases [bs]:
    [meta.registry.add(cls); meta.registry -= set(bases)]. *)
Definition new (registry : gset cls) (c : cls) (bs : list cls) : gset cls :=
  (registry ∪ {[ c ]}) ∖ list_to_set bs.

(** The registry after the class statements [defs] have run. *)
Definition after (defs : list (cls * list cls)) : gset cls :=
  foldl (fun r d => new r (fst d) (snd d)) ∅ defs.

End RegisteredPlot.

(** [Plot.registry] once the module is loaded. *)
Definition registry : gset cls :=
  RegisteredPlot.after (map (fun c => (c, bases c)) class_statements).

(** ** Class attributes *)

(** The method resolution order: the class, then its bases' orders. *)
Fixpoint mro_from (fuel : nat) (c : cls) : list cls :=
  c :: match fuel with
       | O => []
       | S n => flat_map (mro_from n) (bases c)
       end.

Definition mro (c : cls) : list cls := mro_from 4 c.

(** [self.attr]: the first definition of the attribute along the MRO. *)
Definition getattr {A} (own : cls -> option A) (attr : string) (c : cls)
  : result A :=
  match omap own (mro c) with
  | v :: _ => Ok v
  | [] => Raise (AttributeError
            ("'" +:+ class_name c +:+ "' object has no attribute '" +:+ attr +:+ "'"))
  end.

Definition own_filename (c : cls) : option string :=
  match c with
  | Plot => Some "error"
  | AngularDiameterDistancePlot => Some "angular_distance"
  | LuminosityDistancePlot => Some "luminosity_distance"
  | ComovingDistancePlot => Some "comoving_distance"
  | HubblePlot => Some "hubble"
  | DistanceModulusPlot => Some "distance_modulus"
  | TTPlot => Some "tt"
  | EEPlot => Some "ee"
  | TEPlot => Some "te"
  | BBPlot => Some "bb"
  | GrandPlot => Some "grand"
  | MatterPowerPlot => Some "matter_power"
  | ShearSpectrumPlot => Some "shear_power"
  | MatterPower2D => Some "matter_power_2d"
  | ShearCorrelationPlusPlot => Some "shear_xi_plus"
  | ShearCorrelationMinusPlot => Some "shear_xi_minus"
  | GrowthPlot => Some "growth"
  | LuminositySlopePlot => Some "galaxy_luminosity_slope"
  | _ => None
  end.

Definition own_distance (c : cls) : option string :=
  match c with
  | AngularDiameterDistancePlot => Some "d_a"
  | LuminosityDistancePlot => Some "d_l"
  | ComovingDistancePlot => Some "d_m"
  | HubblePlot => Some "h"
  | DistanceModulusPlot => Some "mu"
  | _ => None
  end.

Definition own_name (c : cls) : option string :=
  match c with
  | AngularDiameterDistancePlot => Some "Angular Diameter Distance $D_A / Mpc$"
  | LuminosityDistancePlot => Some "Luminosity Distance $D_L / Mpc$"
  | ComovingDistancePlot => Some "Comoving Distance $D_L / Mpc$"
  | HubblePlot => Some "Hubble Parameter $H(z) / (km/s/Mpc)$"
  | DistanceModulusPlot => Some "Distance Modulus $\mu$"
  | TTPlot => Some "tt"
  | EEPlot => Some "ee"
  | TEPlot => Some "te"
  | BBPlot => Some "bb"
  | _ => None
  end.

Definition own_scaling (c : cls) : option spec_float :=
  match c with
  | DistancePlot => Some (Py.lit "1.0")
  | HubblePlot => Some (Py.lit "2.99792458e+05")
  | _ => None
  end.

Definition own_ylim (c : cls) : option (spec_float * spec_float) :=
  match c with
  | ShearSpectrumPlot => Some (Py.lit "1e-8", Py.lit "1e-3")
  | MatterPower2D => Some (Py.lit "1e-6", Py.lit "1.0")
  | _ => None
  end.

(** [np.pi] *)
Definition np_pi : spec_float := Py.lit "3.141592653589793".

(** ** Values of [values.txt] *)

Inductive pyval :=
  | PyFloat (x : spec_float)
  | PyInt (n : Z)
  | PyStr (s : string).

(** The command line: [dirname], [-o], [-p], [-t]. *)
Record args := {
  arg_dirname : string;
  arg_output_dir : string;
  arg_prefix : string;
  arg_type : string
}.

(** A [Plot] object. *)
Record instance := {
  self_class : cls;
  self_figure : nat;        (* [self.figure.number] *)
  self_outfile : string;
  self_dirname : string;
  self_quiet : bool
}.

(** "Not making plot: %s (no data in this sample)" % self.__class__.__name__[:-4] *)
Definition not_making_plot (c : cls) : string :=
  "Not making plot: " +:+ Str.drop_last 4 (class_name c)
  +:+ " (no data in this sample)".

(** "No data for plot: %s" % self.__class__.__name__[:-4] *)
Definition no_data_for_plot (c : cls) : string :=
  "No data for plot: " +:+ Str.drop_last 4 (class_name c).

Section Plots.

Variable fs : FS.

(** *** class Plot *)

(** [Plot.__init__(self, dirname, outdir, prefix, suffix, quiet, figure)] *)
Definition Plot_init (c : cls) (dirname outdir prefix suffix : string)
    (quiet : bool) (figure : option nat) : M instance :=
  do fig <- match figure with
            | None => Pylab.figure_new
            | Some n => ret n
            end;
  let prefix := if String.eqb prefix "" then prefix else prefix +:+ "_" in
  do filename <- lift (getattr own_filename "filename" c);
  ret {| self_class := c;
         self_figure := fig;
         self_outfile := outdir +:+ "/" +:+ prefix +:+ filename +:+ "." +:+ suffix;
         self_dirname := dirname;
         self_quiet := quiet |}.

Definition file_path (self : instance) (section name : string) : string :=
  self_dirname self +:+ "/" +:+ section +:+ "/" +:+ name +:+ ".txt".

Definition load_file (self : instance) (section name : string) : result ndarray :=
  let filename := file_path self section name in
  match Np.loadtxt fs filename with
  | Ok a => Ok a
  | Raise _ => Raise (IOError (not_making_plot (self_class self)))
  end.

Definition try_numeric (value : string) : pyval :=
  match Py.float value with
  | Some x => PyFloat x
  | None =>
      match Py.int value with
      | Some n => PyInt n
      | None => PyStr value
      end
  end.

(** The body of the loop of [load_values] over the remaining lines. *)
Fixpoint load_values_lines (lines : list string) (values : gmap string pyval)
  : result (gmap string pyval) :=
  match lines with
  | [] => Ok values
  | line :: lines' =>
      let line := Str.strip line in
      if String.eqb line "" then load_values_lines lines' values
      else
        match Str.split "=" line with
        | [name; value] =>
            load_values_lines lines'
              (<[Str.strip name := try_numeric (Str.strip value)]> values)
        | [_] => Raise (ValueError "not enough values to unpack (expected 2, got 1)")
        | _ => Raise (ValueError "too many values to unpack (expected 2)")
        end
  end.

Definition load_values (self : instance) (section : string)
  : result (gmap string pyval) :=
  let filename := self_dirname self +:+ "/" +:+ section +:+ "/values.txt" in
  let? text := open_read fs filename in
  load_values_lines (Str.readlines text) ∅.

(** [Plot.plot] *)
Definition Plot_plot (self : instance) : M unit :=
  Pylab.figure_num (self_figure self).

(** [Plot.save] *)
Definition save (self : instance) : M unit :=
  run Pylab.figure_num (self_figure self);
  run (if self_quiet self then ret tt
       else print ("Saving  " +:+ self_outfile self));
  Pylab.savefig (self_outfile self).

(** *** class DistancePlot *)

Definition DistancePlot_plot (self : instance) : M unit :=
  let c := self_class self in
  run Plot_plot self;
  do z <- lift (load_file self "distances" "z");
  do distance <- lift (getattr own_distance "distance" c);
  do d <- lift (load_file self "distances" distance);
  do scaling <- lift (getattr own_scaling "scaling" c);
  run Pylab.draw (Line Linear z (NpOps.map1 (fun x => F64.mul x scaling) d) None);
  run Pylab.draw Grid;
  run Pylab.draw (XLabel "Redshift z");
  do name <- lift (getattr own_name "name" c);
  Pylab.draw (YLabel name).

(** *** class CMBSpectrumPlot *)

Definition CMBSpectrumPlot_plot (self : instance) : M unit :=
  let c := self_class self in
  run Plot_plot self;
  do ell <- lift (load_file self "cmb_cl" "ell");
  do name <- lift (getattr own_name "name" c);
  do c_ell <- lift (load_file self "cmb_cl" name);
  run Pylab.draw (Line Linear ell c_ell None);
  run Pylab.draw Grid;
  run Pylab.draw (XLabel "$\ell$");
  do name <- lift (getattr own_name "name" c);
  Pylab.draw (YLabel ("$\ell(\ell+1) C_\ell/2\pi \mathrm{"
                      +:+ Str.upper_str name +:+ "} / uK^2$")).

(** *** class BBPlot *)

Definition BBPlot_plot (self : instance) : M unit :=
  run CMBSpectrumPlot_plot self;
  Pylab.draw (XLim (F64.of_Z 0) (F64.of_Z 400)).

(** *** class GrandPlot *)

Definition GrandPlot_plot (self : instance) : M unit :=
  run Plot_plot self;
  do ell <- lift (load_file self "cmb_cl" "ell");
  run for_each ["tt"; "ee"; "te"; "bb"] (fun name =>
    do c_ell <- lift (load_file self "cmb_cl" name);
    Pylab.draw (Line LogLog ell (NpOps.map1 SFabs c_ell)
                     (Some (Str.upper_str name))));
  run Pylab.draw (Legend None);
  run Pylab.draw Grid;
  run Pylab.draw (XLabel "$\ell$");
  Pylab.draw (YLabel "$\ell(\ell+1) C_\ell/2\pi / uK^2$").

(** *** class MatterPowerPlot *)

(** The sign rule of [MatterPowerPlot.plot_section]:
    [if (p<0).all(): p*=-1]. *)
Definition MatterPower_sign_flip (p : ndarray) : ndarray :=
  if NpOps.all_lt0 p then NpOps.imul_neg1 p else p.

Definition MatterPowerPlot_plot_section (self : instance)
    (section label p_name : string) : M unit :=
  do kh <- lift (load_file self section "k_h");
  do z <- lift (load_file self section "z");
  do p <- lift (load_file self section p_name);
  let p := MatterPower_sign_flip p in
  let z := NpOps.atleast_1d z in
  let kh := NpOps.atleast_1d kh in
  let p := NpOps.atleast_2d p in
  do nk <- lift (NpOps.len kh);
  do nz <- lift (NpOps.len z);
  let p := if bool_decide (NpOps.shape2 (NpOps.to2d p) = (nz, nk))
           then NpOps.transpose p else p in
  do col <- lift (NpOps.column0 p);
  Pylab.draw (Line LogLog kh col (Some label)).

Definition power_files_exist (self : instance) (name : string) : bool :=
  forallb (fun filename =>
             path_exists fs (path_join (path_join (self_dirname self) name)
                                       (filename +:+ ".txt")))
          ["k_h"; "z"; "p_k"].

Definition MatterPowerPlot_plot (self : instance) : M unit :=
  run Plot_plot self;
  let done_any := false in
  do done_any <-
    (if power_files_exist self "matter_power_lin"
     then run MatterPowerPlot_plot_section self "matter_power_lin" "Linear" "p_k";
          ret true
     else ret done_any);
  do done_any <-
    (if power_files_exist self "matter_power_nl"
     then run MatterPowerPlot_plot_section self "matter_power_nl" "Non-Linear" "p_k";
          ret true
     else ret done_any);
  do done_any <-
    (if power_files_exist self "matter_power_gal"
     then run MatterPowerPlot_plot_section self "matter_power_gal" "Galaxy" "p_k";
          ret true
     else ret done_any);
  do done_any <-
    (if power_files_exist self "matter_power_no_bao"
     then run MatterPowerPlot_plot_section self "matter_power_no_bao" "No BAO" "p_k";
          ret true
     else ret done_any);
  do done_any <-
    (if power_files_exist self "intrinsic_alignment_parameters"
     then run MatterPowerPlot_plot_section self "intrinsic_alignment_parameters"
                "Intrinsic-intrinsic" "p_ii";
          ret true
     else ret done_any);
  do done_any <-
    (if power_files_exist self "intrinsic_alignment_parameters"
     then run MatterPowerPlot_plot_section self "intrinsic_alignment_parameters"
                "Shear-intrinsic" "p_gi";
          ret true
     else ret done_any);
  run (if negb done_any
       then raise (IOError (not_making_plot (self_class self)))
       else ret tt);
  run Pylab.draw (XLabel "$k / (Mpc/h)$");
  run Pylab.draw (YLabel "$P(k) / (h^1 Mpc)^3$");
  run Pylab.draw Grid;
  Pylab.draw (Legend None).

(** *** The tomographic plots *)

(** ["bin_{0}_{1}".format(i, j)] *)
Definition bin_name (i j : nat) : string :=
  "bin_" +:+ Str.of_nat i +:+ "_" +:+ Str.of_nat j.

(** The counting loop
    [for i in range(1,100): if os.path.exists(...): nbin += 1 else: break]
    over the remaining values [todo] of [i]. *)
Fixpoint count_bins (present : nat -> bool) (todo : list nat) (nbin : nat) : nat :=
  match todo with
  | [] => nbin
  | i :: todo' => if present i then count_bins present todo' (S nbin) else nbin
  end.

Definition detect_nbin (self : instance) (section : string) : nat :=
  count_bins (fun i => path_exists fs (file_path self section (bin_name i i)))
             (seq 1 99) 0.

(** [sz = 1.0/(nbin+2)] *)
Definition panel_size (nbin : nat) : spec_float :=
  F64.div (Py.lit "1.0") (F64.of_Z (Z.of_nat (nbin + 2))).

(** [rect = (i*sz, j*sz, sz, sz)] *)
Definition panel_rect (nbin i j : nat) : rect :=
  let sz := panel_size nbin in
  (F64.mul (F64.of_Z (Z.of_nat i)) sz, F64.mul (F64.of_Z (Z.of_nat j)) sz, sz, sz).

(** ["(%d,%d)"%(i,j)] *)
Definition pair_text (i j : nat) : string :=
  "(" +:+ Str.of_nat i +:+ "," +:+ Str.of_nat j +:+ ")".

(** The three [tick_params] calls shared by the tomographic panels. *)
Definition panel_tick_params : M unit :=
  run Pylab.draw (TickParams (Some (Py.lit "0.0")) (Some "minor") None);
  run Pylab.draw (TickParams (Some (Py.lit "3.0")) (Some "major") None);
  Pylab.draw (TickParams None None (Some (F64.of_Z 10))).

(** *** class ShearSpectrumPlot *)

(** The sign rule of [ShearSpectrumPlot.plot_section]:
    [if all(cl<=0): cl *= -1]. *)
Definition ShearSpectrum_sign_flip (cl : ndarray) : result ndarray :=
  let? flip := NpOps.builtin_all_le0 cl in
  Ok (if flip then NpOps.imul_neg1 cl else cl).

(** [ell*(ell+1.) * cl/2/np.pi] *)
Definition shear_scaled (ell cl : ndarray) : result ndarray :=
  let? a := NpOps.broadcast F64.mul ell
              (NpOps.map1 (fun x => F64.add x (Py.lit "1.")) ell) in
  let? b := NpOps.broadcast F64.mul a cl in
  Ok (NpOps.map1 (fun x => F64.div (F64.div x (F64.of_Z 2)) np_pi) b).

Definition ShearSpectrumPlot_plot_section (self : instance) (section : string)
  : M unit :=
  let nbin := detect_nbin self section in
  (* [if nbin==0: IOError(...)]: the exception is built and dropped. *)
  let _ := if (nbin =? 0)%nat
           then Some (IOError (no_data_for_plot (self_class self)))
           else None in
  do ell <- lift (load_file self section "ell");
  for_each (seq 1 nbin) (fun i =>
    for_each (seq 1 i) (fun j =>
      run Pylab.add_axes (self_figure self) (panel_rect nbin i j);
      do cl <- lift (load_file self section (bin_name i j));
      do cl <- lift (ShearSpectrum_sign_flip cl);
      do y <- lift (shear_scaled ell cl);
      run Pylab.draw (Line LogLog ell y None);
      do ylim <- lift (getattr own_ylim "ylim" (self_class self));
      run Pylab.draw (YLim (fst ylim) (snd ylim));
      run (if (i =? 1)%nat && (j =? 1)%nat
           then run Pylab.draw (XLabel "$\ell$");
                Pylab.draw (YLabel "$\ell (\ell+1) C_\ell / 2 \pi$")
           else run Pylab.draw (XTickLabels []);
                Pylab.draw (YTickLabels []));
      run panel_tick_params;
      if String.eqb section "shear_cl"
      then do m <- lift (NpOps.amin ell);
           run Pylab.draw (Text (F64.mul (Py.lit "1.5") m) (Py.lit "1.8e-4")
                             (pair_text i j) (F64.of_Z 8) "red");
           Pylab.draw Grid
      else ret tt)).

Definition ShearSpectrumPlot_plot (self : instance) : M unit :=
  run Plot_plot self;
  run ShearSpectrumPlot_plot_section self "shear_cl";
  run (if path_exists fs (self_dirname self +:+ "/shear_cl_gg")
       then ShearSpectrumPlot_plot_section self "shear_cl_gg" else ret tt);
  run (if path_exists fs (self_dirname self +:+ "/shear_cl_gi")
       then ShearSpectrumPlot_plot_section self "shear_cl_gi" else ret tt);
  if path_exists fs (self_dirname self +:+ "/shear_cl_ii")
  then ShearSpectrumPlot_plot_section self "shear_cl_ii" else ret tt.

(** *** class MatterPower2D *)

Definition MatterPower2D_plot (self : instance) : M unit :=
  run Plot_plot self;
  ShearSpectrumPlot_plot_section self "matter_cl".

(** *** classes ShearCorrelationPlusPlot and ShearCorrelationMinusPlot

    The two [plot] methods are the same text up to the section name;
    both label the vertical axis with xi-plus. *)

Definition ShearCorrelation_plot (section : string) (self : instance) : M unit :=
  run Plot_plot self;
  let nbin := detect_nbin self section in
  (* [if nbin==0: IOError(...)]: the exception is built and dropped. *)
  let _ := if (nbin =? 0)%nat
           then Some (IOError (no_data_for_plot (self_class self)))
           else None in
  do theta <- lift (load_file self section "theta");
  for_each (seq 1 nbin) (fun i =>
    for_each (seq 1 i) (fun j =>
      run Pylab.add_axes (self_figure self) (panel_rect nbin i j);
      do xi <- lift (load_file self section (bin_name i j));
      run Pylab.draw (Line LogLog theta xi None);
      run Pylab.draw (XLim (Py.lit "1e-4") (Py.lit "1e-1"));
      run Pylab.draw (YLim (Py.lit "2e-7") (Py.lit "1e-3"));
      run (if (i =? 1)%nat && (j =? 1)%nat
           then run Pylab.draw (XLabel "$\theta$");
                Pylab.draw (YLabel "$\xi_+(\theta)$")
           else run Pylab.draw (XTickLabels []);
                Pylab.draw (YTickLabels []));
      run panel_tick_params;
      run Pylab.draw (Text (Py.lit "1.5e-3") (Py.lit "1.8e-4")
                        (pair_text i j) (F64.of_Z 8) "red");
      Pylab.draw Grid)).

Definition ShearCorrelationPlusPlot_plot : instance -> M unit :=
  ShearCorrelation_plot "shear_xi_plus".

Definition ShearCorrelationMinusPlot_plot : instance -> M unit :=
  ShearCorrelation_plot "shear_xi_minus".

(** *** class GrowthPlot *)

Definition GrowthPlot_plot (self : instance) : M unit :=
  run Plot_plot self;
  let section := "growth_parameters" in
  do z <- lift (load_file self section "z");
  do d_z <- lift (load_file self section "d_z");
  do f_z <- lift (load_file self section "f_z");
  run Pylab.draw (Line Linear z d_z (Some "$d(z)$"));
  run Pylab.draw (Line Linear z f_z (Some "$f(z)$"));
  run Pylab.draw Grid;
  run Pylab.draw (XLabel "Redshift z");
  run Pylab.draw (YLabel "Growth Functions");
  Pylab.draw (Legend (Some "center right")).

(** *** class LuminositySlopePlot *)

Definition LuminositySlopePlot_plot (self : instance) : M unit :=
  run Plot_plot self;
  let section := "galaxy_luminosity_function" in
  do z <- lift (load_file self section "z");
  do alpha <- lift (load_file self section "alpha");
  run Pylab.draw (Line Linear z alpha None);
  run Pylab.draw Grid;
  run Pylab.draw (XLabel "Redshift z");
  Pylab.draw (YLabel "Luminosity Function Slope $\alpha$").

(** *** Dispatch, [make] and [main] *)

(** The [plot] method a class body defines, if it defines one. *)
Definition own_plot (c : cls) : option (instance -> M unit) :=
  match c with
  | Plot => Some Plot_plot
  | DistancePlot => Some DistancePlot_plot
  | CMBSpectrumPlot => Some CMBSpectrumPlot_plot
  | BBPlot => Some BBPlot_plot
  | GrandPlot => Some GrandPlot_plot
  | MatterPowerPlot => Some MatterPowerPlot_plot
  | ShearSpectrumPlot => Some ShearSpectrumPlot_plot
  | MatterPower2D => Some MatterPower2D_plot
  | ShearCorrelationPlusPlot => Some ShearCorrelationPlusPlot_plot
  | ShearCorrelationMinusPlot => Some ShearCorrelationMinusPlot_plot
  | GrowthPlot => Some GrowthPlot_plot
  | LuminositySlopePlot => Some LuminositySlopePlot_plot
  | _ => None
  end.

(** [p.plot()] *)
Definition plot (self : instance) : M unit :=
  do method <- lift (getattr own_plot "plot" (self_class self));
  method self.

(** [Plot.make(cls, dirname, outdir, prefix, suffix)]; [plot_method]
    stands for the method that [p.plot()] dispatches to. *)
Definition make_with (plot_method : instance -> M unit)
    (c : cls) (dirname outdir prefix suffix : string) : M string :=
  do p <- Plot_init c dirname outdir prefix suffix false None;
  run plot_method p;
  run save p;
  lift (getattr own_filename "filename" (self_class p)).

(** The [try] statement of [main] for one class. *)
Definition attempt (plot_method : instance -> M unit) (a : args) (c : cls)
  : M unit :=
  try_except_IOError
    (do _ <- make_with plot_method c (arg_dirname a) (arg_output_dir a)
               (arg_prefix a) (arg_type a);
     ret tt)
    (fun err => print (exn_str err)).

(** [main(args)], the registry being iterated in the order [order]. *)
Definition main_with (plot_method : instance -> M unit)
    (order : list cls) (a : args) : M unit :=
  run utils_mkdir (arg_output_dir a);
  for_each order (attempt plot_method a).

Definition make : cls -> string -> string -> string -> string -> M string :=
  make_with plot.

Definition main : list cls -> args -> M unit := main_with plot.

End Plots.

(** The orders in which a [for] loop may visit the set [s]. *)
Definition iteration_order (s : gset cls) (order : list cls) : Prop :=
  order ≡ₚ elements s.


(** ** Predicates used in the statements *)

(** No value of the mapping is an [int]. *)
Definition no_int (values : gmap string pyval) : Prop :=
  forall key v, values !! key = Some v -> forall n, v <> PyInt n.

(** The coercion of a value as the specification words it: a number when
    [float], else [int], accepts the text, and the text itself otherwise. *)
Definition coerced (s : string) (v : pyval) : Prop :=
  match Py.float s, Py.int s with
  | Some x, _ => v = PyFloat x
  | None, Some n => v = PyInt n
  | None, None => v = PyStr s
  end.

(** The entry a line of [values.txt] stands for: the line, stripped, is
    [a=b] with no further [=], the key is [a] stripped and the value is [b]
    stripped and coerced. *)
Definition line_entry (line : string) (kv : string * pyval) : Prop :=
  exists a b,
    Str.strip line = a +:+ "=" +:+ b
    /\ Str.count "=" a = 0%nat /\ Str.count "=" b = 0%nat
    /\ fst kv = Str.strip a
    /\ coerced (Str.strip b) (snd kv).

(** The lines of a text that are not blank. *)
Definition nonblank_lines (text : string) : list string :=
  filter (fun line => Str.strip line <> EmptyString) (Str.readlines text).

(** [<dirname>/<section>/values.txt] *)
Definition values_path (self : instance) (section : string) : string :=
  self_dirname self +:+ "/" +:+ section +:+ "/values.txt".

(** The binary64 numbers 70 and the one nearest to 0.3. *)
Definition f64_70 : spec_float := S754_finite false 4925812092436480 (-46).
Definition f64_0_3 : spec_float := S754_finite false 5404319552844595 (-54).

(** The computation leaves the written images, the printed lines and the
    made directories as they are: it only reads files and draws. *)
Definition draws_only {A} (c : M A) : Prop :=
  forall w, outputs (snd (c w)) = outputs w
            /\ stdout (snd (c w)) = stdout w
            /\ made_dirs (snd (c w)) = made_dirs w.

(** The path of the image of a plot with base file name [name]. *)
Definition output_path (outdir prefix name suffix : string) : string :=
  if String.eqb prefix ""
  then outdir +:+ "/" +:+ name +:+ "." +:+ suffix
  else outdir +:+ "/" +:+ prefix +:+ "_" +:+ name +:+ "." +:+ suffix.

(** A whitespace-delimited field of a line, comments removed. *)
Definition field_of (line w : string) : Prop :=
  w ∈ Str.words (hd EmptyString (Str.split "#" line)).

(** Every entry is a genuine binary64 number. *)
Definition valid_array (a : ndarray) : Prop :=
  Forall (fun x => valid_binary F64.prec F64.emax x = true) (NpOps.flat a).

Definition all_negative (a : ndarray) : Prop :=
  Forall (fun x => F64.ltb x F64.zero = true) (NpOps.flat a).

Definition all_nonpositive (a : ndarray) : Prop :=
  Forall (fun x => F64.leb x F64.zero = true) (NpOps.flat a).

Definition all_positive (a : ndarray) : Prop :=
  Forall (fun x => F64.ltb F64.zero x = true) (NpOps.flat a).

(** The bases of every class statement are classes made by an earlier
    statement, or not made by these statements at all. *)
Fixpoint bases_defined_before (defs : list (cls * list cls)) : Prop :=
  match defs with
  | [] => True
  | d :: rest =>
      (forall b, b ∈ snd d -> b ∉ map fst (d :: rest))
      /\ bases_defined_before rest
  end.

(** A class made by the module that no class of the module derives from. *)
Definition leaf (c : cls) : Prop :=
  c ∈ class_statements /\ forall d, d ∈ class_statements -> c ∉ bases d.

(** The pairs [(i, j)] the two panel loops visit, in the order of the
    visits. *)
Definition tri_pairs (n : nat) : list (nat * nat) :=
  flat_map (fun i => map (fun j => (i, j)) (seq 1 i)) (seq 1 n).

Definition is_axis_label (a : artist) : bool :=
  match a with XLabel _ | YLabel _ => true | _ => false end.

Definition is_tick_labels (a : artist) : bool :=
  match a with XTickLabels _ | YTickLabels _ => true | _ => false end.

(** Both axes of the panel are labelled and its tick labels are left alone. *)
Definition labelled (ax : axes) : Prop :=
  (exists s, XLabel s ∈ ax_artists ax)
  /\ (exists s, YLabel s ∈ ax_artists ax)
  /\ forall a, a ∈ ax_artists ax -> is_tick_labels a = false.

(** The panel has no axis label and the tick labels of both axes removed. *)
Definition unlabelled (ax : axes) : Prop :=
  XTickLabels [] ∈ ax_artists ax
  /\ YTickLabels [] ∈ ax_artists ax
  /\ forall a, a ∈ ax_artists ax -> is_axis_label a = false.

(** [ax] is the panel of the pair [ij] in a layout for [nbin] bins: it has
    the rectangle of the pair, and axis labels exactly when the pair is
    [(1, 1)]. *)
Definition panel_of (nbin : nat) (ax : axes) (ij : nat * nat) : Prop :=
  ax_rect ax = Some (panel_rect nbin (fst ij) (snd ij))
  /\ if (fst ij =? 1)%nat && (snd ij =? 1)%nat then labelled ax else unlabelled ax.

(** Figure [n] is the current figure and [l] are its axes. *)
Definition drawing_on (n : nat) (l : list axes) (w : world) : Prop :=
  cur (pylab w) = Some n /\ fig_axes (Pylab.get_figure (pylab w) n) = l.

(** The body of the inner loop of [ShearSpectrumPlot.plot_section], for the
    pair [(i, j)], [nbin] bins and the loaded [ell]. *)
Definition shear_panel (fs : FS) (self : instance) (section : string)
    (nbin : nat) (ell : ndarray) (i j : nat) : M unit :=
  run Pylab.add_axes (self_figure self) (panel_rect nbin i j);
  do cl <- lift (load_file fs self section (bin_name i j));
  do cl <- lift (ShearSpectrum_sign_flip cl);
  do y <- lift (shear_scaled ell cl);
  run Pylab.draw (Line LogLog ell y None);
  do ylim <- lift (getattr own_ylim "ylim" (self_class self));
  run Pylab.draw (YLim (fst ylim) (snd ylim));
  run (if (i =? 1)%nat && (j =? 1)%nat
       then run Pylab.draw (XLabel "$\ell$");
            Pylab.draw (YLabel "$\ell (\ell+1) C_\ell / 2 \pi$")
       else run Pylab.draw (XTickLabels []);
            Pylab.draw (YTickLabels []));
  run panel_tick_params;
  if String.eqb section "shear_cl"
  then do m <- lift (NpOps.amin ell);
       run Pylab.draw (Text (F64.mul (Py.lit "1.5") m) (Py.lit "1.8e-4")
                         (pair_text i j) (F64.of_Z 8) "red");
       Pylab.draw Grid
  else ret tt.

(** ** Sample inputs *)

(** A line break in a sample file. *)
Definition nl : string := String Str.LF EmptyString.

(** A section whose [values.txt] holds one integer-looking entry. *)
Definition fs_count : FS :=
  {| files := {[ "run/cosmo/values.txt" := "n = 12" ]};
     dirs := {[ "run"; "run/cosmo" ]} |}.

(** A plot object reading the sample directory [run]. *)
Definition self_run : instance :=
  {| self_class := TTPlot; self_figure := 1; self_outfile := "./tt.png";
     self_dirname := "run"; self_quiet := false |}.

(** The [values.txt] of the specification's first example. *)
Definition text_H0 : string := "H0 = 70.0" +:+ nl +:+ "omega_m=0.3".

Definition fs_H0 : FS :=
  {| files := {[ "run/cosmo/values.txt" := text_H0 ]};
     dirs := {[ "run"; "run/cosmo" ]} |}.

(** A sample directory with the distance tables of one plot. *)
Definition fs_distances : FS :=
  {| files := {[ "run/distances/z.txt" := "0.0" +:+ nl +:+ "0.5" +:+ nl +:+ "1.0" +:+ nl;
                 "run/distances/d_a.txt" := "0.0" +:+ nl +:+ "1250.5" +:+ nl +:+ "1650.25" +:+ nl ]};
     dirs := {[ "run"; "run/distances" ]} |}.

(** A sample directory whose [matter_cl] section has a two-dimensional
    table where a one-dimensional spectrum is expected. *)
Definition fs_table : FS :=
  {| files := {[ "run/matter_cl/ell.txt" := "10" +:+ nl +:+ "20" +:+ nl;
                 "run/matter_cl/bin_1_1.txt" := "1 2" +:+ nl +:+ "3 4" +:+ nl ]};
     dirs := {[ "run"; "run/matter_cl" ]} |}.

(** An empty sample directory. *)
Definition fs_empty : FS := {| files := ∅; dirs := {[ "run" ]} |}.

(** [cosmology_theory_plots.py run -o out -p pre] *)
Definition args_run : args :=
  {| arg_dirname := "run"; arg_output_dir := "out"; arg_prefix := "pre";
     arg_type := "png" |}.

(** A sample directory whose [cmb_cl/ell.txt] holds a word that is not a
    number, and that has no [cmb_cl/tt.txt]. *)
Definition fs_garbled : FS :=
  {| files := {[ "run/cmb_cl/ell.txt" := "2" +:+ nl +:+ "3 # third" +:+ nl +:+ "four" +:+ nl ]};
     dirs := {[ "run"; "run/cmb_cl" ]} |}.

(** A sample directory whose [shear_xi_plus] section has the shared
    [theta] table and no [bin_i_j] table. *)
Definition fs_theta_only : FS :=
  {| files := {[ "run/shear_xi_plus/theta.txt" := "0.001" +:+ nl +:+ "0.01" +:+ nl ]};
     dirs := {[ "run"; "run/shear_xi_plus" ]} |}.

(** The binary64 numbers 0, -1 and 1. *)
Definition f64_0 : spec_float := S754_zero false.
Definition f64_m1 : spec_float := S754_finite true 4503599627370496 (-52).
Definition f64_1 : spec_float := S754_finite false 4503599627370496 (-52).

(** A sample directory with a [shear_cl] section of two tomographic bins. *)
Definition fs_shear : FS :=
  {| files := {[ "run/shear_cl/ell.txt" := "10" +:+ nl +:+ "100" +:+ nl;
                 "run/shear_cl/bin_1_1.txt" := "1e-5" +:+ nl +:+ "2e-6" +:+ nl;
                 "run/shear_cl/bin_2_1.txt" := "-1e-5" +:+ nl +:+ "-2e-6" +:+ nl;
                 "run/shear_cl/bin_2_2.txt" := "3e-5" +:+ nl +:+ "4e-6" +:+ nl ]};
     dirs := {[ "run"; "run/shear_cl" ]} |}.

(** A [ShearSpectrumPlot] object on figure 1 of the sample directory. *)
Definition self_shear : instance :=
  {| self_class := ShearSpectrumPlot; self_figure := 1;
     self_outfile := "out/shear_power.png"; self_dirname := "run";
     self_quiet := false |}.

(** The state in which figure 1 is current and empty. *)
Definition world1 : world := snd (Pylab.figure_num 1 world0).

(** ** Predicates of the further properties *)

(** Every key of the mapping is stripped and holds no [=]. *)
Definition clean_keys (values : gmap string pyval) : Prop :=
  forall key, is_Some (values !! key) ->
    Str.strip key = key /\ Str.count "=" key = 0%nat.

(** A [values.txt] of blank lines only. *)
Definition fs_blank : FS :=
  {| files := {[ "run/cosmo/values.txt" := nl +:+ "   " +:+ nl +:+ " " ]};
     dirs := {[ "run"; "run/cosmo" ]} |}.

(** The axes of a figure after one drawing call: the call lands on the
    current axes, which are made first if the figure has none. *)
Definition axes_after_draw (a : artist) (l : list axes) : list axes :=
  match l with
  | ax :: rest =>
      {| ax_rect := ax_rect ax; ax_artists := ax_artists ax ++ [a] |} :: rest
  | [] => [ {| ax_rect := None; ax_artists := [a] |} ]
  end.

(** A [matter_power_lin] section whose table has two redshifts (rows) and
    three wave numbers (columns), all values negative. *)
Definition fs_power : FS :=
  {| files := {[ "run/matter_power_lin/k_h.txt" := "0.1" +:+ nl +:+ "0.2" +:+ nl +:+ "0.3" +:+ nl;
                 "run/matter_power_lin/z.txt" := "0.0" +:+ nl +:+ "1.0" +:+ nl;
                 "run/matter_power_lin/p_k.txt" :=
                   "-10 -20 -30" +:+ nl +:+ "-1 -2 -3" +:+ nl ]};
     dirs := {[ "run"; "run/matter_power_lin" ]} |}.

(** A [MatterPowerPlot] object on figure 1 of the sample directory. *)
Definition self_power : instance :=
  {| self_class := MatterPowerPlot; self_figure := 1;
     self_outfile := "out/matter_power.png"; self_dirname := "run";
     self_quiet := false |}.

(** The path of the table [name] of [section] under the sample directory
    [dirname], as [file_path] builds it. *)
Definition table_path (dirname section name : string) : string :=
  dirname +:+ "/" +:+ section +:+ "/" +:+ name +:+ ".txt".

(** The tables the [plot] method of a class loads before its first drawing
    call, as pairs of section and name.  [MatterPowerPlot] loads the tables
    of a section only after finding its three files and has none. *)
Definition first_tables (c : cls) : list (string * string) :=
  match c with
  | AngularDiameterDistancePlot => [("distances", "z"); ("distances", "d_a")]
  | LuminosityDistancePlot => [("distances", "z"); ("distances", "d_l")]
  | ComovingDistancePlot => [("distances", "z"); ("distances", "d_m")]
  | HubblePlot => [("distances", "z"); ("distances", "h")]
  | DistanceModulusPlot => [("distances", "z"); ("distances", "mu")]
  | TTPlot => [("cmb_cl", "ell"); ("cmb_cl", "tt")]
  | EEPlot => [("cmb_cl", "ell"); ("cmb_cl", "ee")]
  | TEPlot => [("cmb_cl", "ell"); ("cmb_cl", "te")]
  | BBPlot => [("cmb_cl", "ell"); ("cmb_cl", "bb")]
  | GrandPlot => [("cmb_cl", "ell"); ("cmb_cl", "tt")]
  | ShearSpectrumPlot => [("shear_cl", "ell")]
  | MatterPower2D => [("matter_cl", "ell")]
  | ShearCorrelationPlusPlot => [("shear_xi_plus", "theta")]
  | ShearCorrelationMinusPlot => [("shear_xi_minus", "theta")]
  | GrowthPlot => [("growth_parameters", "z"); ("growth_parameters", "d_z");
                   ("growth_parameters", "f_z")]
  | LuminositySlopePlot => [("galaxy_luminosity_function", "z");
                            ("galaxy_luminosity_function", "alpha")]
  | _ => []
  end.

(** The sections [MatterPowerPlot.plot] looks for. *)
Definition power_sections : list string :=
  [ "matter_power_lin"; "matter_power_nl"; "matter_power_gal";
    "matter_power_no_bao"; "intrinsic_alignment_parameters" ].

(** The body of the inner loop of [ShearCorrelationPlusPlot.plot] and
    [ShearCorrelationMinusPlot.plot], for the pair [(i, j)], [nbin] bins and
    the loaded [theta]. *)
Definition xi_panel (fs : FS) (self : instance) (section : string)
    (nbin : nat) (theta : ndarray) (i j : nat) : M unit :=
  run Pylab.add_axes (self_figure self) (panel_rect nbin i j);
  do xi <- lift (load_file fs self section (bin_name i j));
  run Pylab.draw (Line LogLog theta xi None);
  run Pylab.draw (XLim (Py.lit "1e-4") (Py.lit "1e-1"));
  run Pylab.draw (YLim (Py.lit "2e-7") (Py.lit "1e-3"));
  run (if (i =? 1)%nat && (j =? 1)%nat
       then run Pylab.draw (XLabel "$\theta$");
            Pylab.draw (YLabel "$\xi_+(\theta)$")
       else run Pylab.draw (XTickLabels []);
            Pylab.draw (YTickLabels []));
  run panel_tick_params;
  run Pylab.draw (Text (Py.lit "1.5e-3") (Py.lit "1.8e-4")
                    (pair_text i j) (F64.of_Z 8) "red");
  Pylab.draw Grid.

(** [ax] is the panel of the pair [ij] in a correlation plot of [nbin]
    bins: the panel of the layout, with the curve of [xi] against [theta]
    drawn first, the pair written on it in red, and, on the labelled panel,
    the vertical label of xi-plus. *)
Definition xi_panel_of (nbin : nat) (theta : ndarray) (xi : nat -> nat -> ndarray)
    (ax : axes) (ij : nat * nat) : Prop :=
  panel_of nbin ax ij
  /\ head (ax_artists ax) = Some (Line LogLog theta (xi (fst ij) (snd ij)) None)
  /\ Text (Py.lit "1.5e-3") (Py.lit "1.8e-4") (pair_text (fst ij) (snd ij))
          (F64.of_Z 8) "red" ∈ ax_artists ax
  /\ (ij = (1, 1)%nat -> YLabel "$\xi_+(\theta)$" ∈ ax_artists ax).

(** A sample directory with a [shear_xi_minus] section of two tomographic
    bins. *)
Definition fs_xi : FS :=
  {| files := {[ "run/shear_xi_minus/theta.txt" := "0.001" +:+ nl +:+ "0.01" +:+ nl;
                 "run/shear_xi_minus/bin_1_1.txt" := "1e-5" +:+ nl +:+ "2e-6" +:+ nl;
                 "run/shear_xi_minus/bin_2_1.txt" := "3e-5" +:+ nl +:+ "4e-6" +:+ nl;
                 "run/shear_xi_minus/bin_2_2.txt" := "5e-5" +:+ nl +:+ "6e-6" +:+ nl ]};
     dirs := {[ "run"; "run/shear_xi_minus" ]} |}.

(** A [ShearCorrelationMinusPlot] object on figure 1 of the sample
    directory. *)
Definition self_xi : instance :=
  {| self_class := ShearCorrelationMinusPlot; self_figure := 1;
     self_outfile := "out/shear_xi_minus.png"; self_dirname := "run";
     self_quiet := false |}.

(** The tables of the three pairs of the sample directory [fs_xi]. *)
Definition xi_sample (i j : nat) : ndarray :=
  match i, j with
  | 1, 1 => Arr1 [Py.lit "1e-5"; Py.lit "2e-6"]
  | 2, 1 => Arr1 [Py.lit "3e-5"; Py.lit "4e-6"]
  | _, _ => Arr1 [Py.lit "5e-5"; Py.lit "6e-6"]
  end%nat.

(** The axes of a figure after the drawing calls [calls], made in order. *)
Definition axes_after_draws (calls : list artist) (l : list axes) : list axes :=
  fold_left (fun l a => axes_after_draw a l) calls l.

(** An [AngularDiameterDistancePlot] object on figure 1 of the sample
    directory. *)
Definition self_distance : instance :=
  {| self_class := AngularDiameterDistancePlot; self_figure := 1;
     self_outfile := "out/angular_distance.png"; self_dirname := "run";
     self_quiet := false |}.

(** ** Paths and sample directories of the runs *)

(** The last character of a string. *)
Fixpoint last_char (s : string) : option ascii :=
  match s with
  | EmptyString => None
  | String c s' => match last_char s' with
                   | Some d => Some d
                   | None => Some c
                   end
  end.

(** [path] names a [values.txt] file. *)
Definition is_values_path (path : string) : Prop :=
  exists dir, path = dir +:+ "/values.txt".

(** Two sample directories that differ at most in their [values.txt]
    files. *)
Definition same_tables (fs fs' : FS) : Prop :=
  dirs fs = dirs fs'
  /\ forall path, ~ is_values_path path -> files fs !! path = files fs' !! path.

(** A sample directory with a malformed [values.txt] beside the tables of
    one distance plot. *)
Definition fs_malformed_run : FS :=
  {| files := {[ "run/cosmo/values.txt" := "H0 = 70.0" +:+ nl +:+ "oops" +:+ nl;
                 "run/distances/z.txt" := "0.0" +:+ nl +:+ "0.5" +:+ nl +:+ "1.0" +:+ nl;
                 "run/distances/d_a.txt" := "0.0" +:+ nl +:+ "1250.5" +:+ nl +:+ "1650.25" +:+ nl ]};
     dirs := {[ "run"; "run/cosmo"; "run/distances" ]} |}.

(** The same directory with the line repaired. *)
Definition fs_repaired_run : FS :=
  {| files := <[ "run/cosmo/values.txt" := "H0 = 70.0" +:+ nl +:+ "oops = 1" +:+ nl ]>
                (files fs_malformed_run);
     dirs := dirs fs_malformed_run |}.

(** ** The rectangles of the layout *)

#[global] Instance spec_float_eq_dec : EqDecision spec_float.
Proof. solve_decision. Defined.

(** The left edges [k*sz] of the columns of a layout for [nbin] bins. *)
Definition panel_edges (nbin : nat) : list spec_float :=
  map (fun k => F64.mul (F64.of_Z (Z.of_nat k)) (panel_size nbin)) (seq 1 nbin).

(** [ax] lies where the loops put the panel of the pair [ij]: at the
    rectangle [(i*sz, j*sz, sz, sz)] with [sz = 1.0/(nbin+2)]. *)
Definition placed (nbin : nat) (ax : axes) (ij : nat * nat) : Prop :=
  let sz := F64.div (Py.lit "1.0") (F64.of_Z (Z.of_nat (nbin + 2))) in
  ax_rect ax = Some (F64.mul (F64.of_Z (Z.of_nat (fst ij))) sz,
                     F64.mul (F64.of_Z (Z.of_nat (snd ij))) sz, sz, sz).

(** A [shear_cl] section of two bins whose tables hold one number each. *)
Definition fs_scalar : FS :=
  {| files := {[ "run/shear_cl/ell.txt" := "10" +:+ nl;
                 "run/shear_cl/bin_1_1.txt" := "1e-5" +:+ nl;
                 "run/shear_cl/bin_2_1.txt" := "2e-5" +:+ nl;
                 "run/shear_cl/bin_2_2.txt" := "3e-5" +:+ nl ]};
     dirs := {[ "run"; "run/shear_cl" ]} |}.
(** * Properties *)

Local Open Scope list_scope.

(** ** Strings *)

Section StringFacts.

Lemma split_length (c : ascii) (s : string) :
  length (Str.split c s) = S (Str.count c s).
Proof.
  induction s as [|d s IH]; simpl; [reflexivity|].
  destruct (Ascii.eqb d c); simpl.
  - now rewrite IH.
  - destruct (Str.split c s) as [|h t]; simpl in *; congruence.
Qed.

Lemma split_one (c : ascii) (s b : string) :
  Str.split c s = [b] -> s = b.
Proof.
  revert b; induction s as [|d s IH]; simpl; intros b H.
  - congruence.
  - pose proof (split_length c s) as L.
    destruct (Ascii.eqb d c).
    + destruct (Str.split c s); simpl in *; congruence.
    + destruct (Str.split c s) as [|h t]; [simpl in L; congruence|].
      injection H as <- ->. f_equal. now apply IH.
Qed.

Lemma split_two (c : ascii) (s a b : string) :
  Str.split c s = [a; b] -> s = a +:+ String c b.
Proof.
  revert a; induction s as [|d s IH]; simpl; intros a H; [discriminate|].
  destruct (Ascii.eqb_spec d c) as [->|Hne].
  - injection H as <- H. apply split_one in H. now subst.
  - pose proof (split_length c s) as L.
    destruct (Str.split c s) as [|h t] eqn:E; [simpl in L; congruence|].
    injection H as <- ->. now rewrite (IH h eq_refl) at 1.
Qed.

Lemma append_assoc (s t u : string) : (s +:+ t) +:+ u = s +:+ (t +:+ u).
Proof.
  induction s as [|c s IH]; [reflexivity|].
  change (String c ((s +:+ t) +:+ u) = String c (s +:+ t +:+ u)). now rewrite IH.
Qed.

Lemma length_append (s t : string) :
  String.length (s +:+ t) = (String.length s + String.length t)%nat.
Proof.
  induction s as [|c s IH]; [reflexivity|].
  change (S (String.length (s +:+ t)) = S (String.length s + String.length t)).
  now rewrite IH.
Qed.

Lemma count_app (c : ascii) (s t : string) :
  Str.count c (s +:+ t) = (Str.count c s + Str.count c t)%nat.
Proof. induction s as [|d s IH]; simpl; [reflexivity|]. rewrite IH. lia. Qed.

Lemma count_lstrip (c : ascii) (s : string) :
  Str.is_space c = false -> Str.count c (Str.lstrip s) = Str.count c s.
Proof.
  intros Hc. induction s as [|d s IH]; simpl; [reflexivity|].
  destruct (Str.is_space d) eqn:Hd; simpl; [|reflexivity].
  rewrite IH. destruct (Ascii.eqb_spec d c) as [->|]; [congruence|reflexivity].
Qed.

Lemma count_rstrip (c : ascii) (s : string) :
  Str.is_space c = false -> Str.count c (Str.rstrip s) = Str.count c s.
Proof.
  intros Hc. induction s as [|d s IH]; simpl; [reflexivity|].
  destruct (Str.rstrip s) as [|e t] eqn:E.
  - simpl in IH. destruct (Str.is_space d) eqn:Hd; simpl; rewrite <- IH.
    + destruct (Ascii.eqb_spec d c) as [->|]; [congruence|reflexivity].
    + reflexivity.
  - simpl in *. now rewrite IH.
Qed.

Lemma count_strip (c : ascii) (s : string) :
  Str.is_space c = false -> Str.count c (Str.strip s) = Str.count c s.
Proof.
  intros Hc. unfold Str.strip. now rewrite count_rstrip, count_lstrip.
Qed.

End StringFacts.

(** ** [try_numeric] and [load_values] *)

Section Values.

Lemma int_accepted_by_float (s : string) (n : Z) :
  Py.int s = Some n -> is_Some (Py.float s).
Proof.
  unfold Py.int, Py.float.
  destruct (Py.parse_sign (Py.skip_blanks s)) as [neg s1].
  destruct (Py.digitpart 0 s1) as [[[v cnt] r]|]; [|discriminate].
  destruct r; [|discriminate].
  intros _. simpl. eauto.
Qed.

Lemma try_numeric_cases (s : string) :
  (exists x, Py.float s = Some x /\ try_numeric s = PyFloat x)
  \/ (Py.float s = None /\ Py.int s = None /\ try_numeric s = PyStr s).
Proof.
  unfold try_numeric.
  destruct (Py.float s) as [x|] eqn:F; [left; eauto|right].
  destruct (Py.int s) as [n|] eqn:I; [|easy].
  apply int_accepted_by_float in I. rewrite F in I. now destruct I.
Qed.

Lemma try_numeric_not_int (s : string) (n : Z) : try_numeric s <> PyInt n.
Proof.
  destruct (try_numeric_cases s) as [(x & _ & ->)|(_ & _ & ->)]; discriminate.
Qed.

Lemma load_values_lines_no_int (lines : list string) :
  forall values out,
    no_int values -> load_values_lines lines values = Ok out -> no_int out.
Proof.
  induction lines as [|line lines IH]; simpl; intros values out Hv H.
  - now injection H as <-.
  - destruct (String.eqb (Str.strip line) ""); [now apply (IH values)|].
    destruct (Str.split "=" (Str.strip line)) as [|a [|b [|? ?]]];
      try discriminate.
    apply (IH _ _) in H; [assumption|].
    intros key v Hk n. apply lookup_insert_Some in Hk as [[_ <-]|[_ Hk]].
    + apply try_numeric_not_int.
    + now apply (Hv key).
Qed.

Lemma load_values_no_int fs self section values :
  load_values fs self section = Ok values -> no_int values.
Proof.
  unfold load_values. destruct (open_read fs _) as [text|e]; simpl; [|discriminate].
  apply load_values_lines_no_int. intros key v Hk. now rewrite lookup_empty in Hk.
Qed.

End Values.

(** C8. [try_numeric] never answers through its [int] branch: a string that
    [int] accepts is accepted by [float] as well, so the result is either the
    float or, when both conversions fail, the string itself; hence no value
    of a mapping returned by [load_values] is an integer. *)
Theorem try_numeric_never_int :
  (forall s n, Py.int s = Some n -> is_Some (Py.float s))
  /\ (forall s,
        (exists x, Py.float s = Some x /\ try_numeric s = PyFloat x)
        \/ (Py.float s = None /\ Py.int s = None /\ try_numeric s = PyStr s))
  /\ (forall fs self section values key v,
        load_values fs self section = Ok values ->
        values !! key = Some v ->
        forall n, v <> PyInt n).
Proof.
  split; [exact int_accepted_by_float|].
  split; [exact try_numeric_cases|].
  intros fs self section values key v H Hk. exact (load_values_no_int _ _ _ _ H key v Hk).
Qed.

Lemma try_numeric_never_int_witness :
  is_Some (Py.float "12")
  /\ forall n, PyFloat (S754_finite false 6755399441055744 (-49)) <> PyInt n.
Proof.
  destruct try_numeric_never_int as (H1 & _ & H3). split.
  - apply (H1 "12" 12). reflexivity.
  - apply (H3 fs_count self_run "cosmo"
              {[ "n" := PyFloat (S754_finite false 6755399441055744 (-49)) ]} "n").
    + vm_compute. reflexivity.
    + vm_compute. reflexivity.
Defined.

Section LoadValues.

Lemma coerced_try_numeric (s : string) : coerced s (try_numeric s).
Proof.
  unfold coerced, try_numeric.
  destruct (Py.float s); [reflexivity|]. now destruct (Py.int s).
Qed.

Lemma count_split_two (line a b : string) :
  Str.split "=" line = [a; b] -> Str.count "=" a = 0%nat /\ Str.count "=" b = 0%nat.
Proof.
  intros H. pose proof (split_length "=" line) as L. rewrite H in L.
  apply split_two in H. subst line. rewrite count_app in L. simpl in L. lia.
Qed.

(** The loop inserts the entries of the lines in order. *)
Lemma load_values_lines_entries (lines : list string) :
  (forall line, line ∈ lines -> Str.strip line <> EmptyString ->
                Str.count "=" line = 1%nat) ->
  forall values,
  exists entries,
    Forall2 line_entry (filter (fun line => Str.strip line <> EmptyString) lines)
            entries
    /\ load_values_lines lines values
       = Ok (foldl (fun m kv => <[fst kv := snd kv]> m) values entries).
Proof.
  induction lines as [|line lines IH]; intros Hl values.
  - exists []. split; [constructor|reflexivity].
  - assert (Hl' : forall l, l ∈ lines -> Str.strip l <> EmptyString ->
                            Str.count "=" l = 1%nat)
      by (intros l Hin; apply Hl; now right).
    simpl load_values_lines. rewrite filter_cons.
    destruct (String.eqb_spec (Str.strip line) "") as [E|E].
    + rewrite decide_False by (intros N; now apply N). now apply IH.
    + rewrite decide_True by assumption.
      assert (C : Str.count "=" (Str.strip line) = 1%nat)
        by (rewrite count_strip; [apply Hl; [now left|assumption]|reflexivity]).
      pose proof (split_length "=" (Str.strip line)) as L. rewrite C in L.
      destruct (Str.split "=" (Str.strip line)) as [|a [|b [|? ?]]] eqn:S;
        try discriminate.
      destruct (IH Hl' (<[Str.strip a := try_numeric (Str.strip b)]> values))
        as (entries & HF & ->).
      exists ((Str.strip a, try_numeric (Str.strip b)) :: entries).
      split; [|reflexivity].
      constructor; [|assumption].
      exists a, b. destruct (count_split_two _ _ _ S) as [Ca Cb].
      repeat split; try assumption.
      * now apply split_two in S.
      * apply coerced_try_numeric.
Qed.

Lemma foldl_insert_list_to_map (entries : list (string * pyval)) :
  foldl (fun m kv => <[fst kv := snd kv]> m) (∅ : gmap string pyval) entries
  = list_to_map (rev entries).
Proof.
  induction entries as [|[k v] entries IH] using rev_ind; [reflexivity|].
  rewrite foldl_snoc, rev_unit, IH. reflexivity.
Qed.

(** A line that is not blank and has not exactly one [=] stops the loop. *)
Lemma load_values_lines_malformed (lines : list string) (line : string) :
  line ∈ lines -> Str.strip line <> EmptyString -> Str.count "=" line <> 1%nat ->
  forall values, exists msg, load_values_lines lines values = Raise (ValueError msg).
Proof.
  induction lines as [|l lines IH]; intros Hin Hb Hc values.
  - now apply elem_of_nil in Hin.
  - simpl. destruct (String.eqb_spec (Str.strip l) "") as [E|E].
    + apply elem_of_cons in Hin as [->|Hin]; [contradiction|now apply IH].
    + pose proof (split_length "=" (Str.strip l)) as L.
      destruct (Str.split "=" (Str.strip l)) as [|a [|b [|? ?]]] eqn:S;
        try (eexists; reflexivity).
      apply elem_of_cons in Hin as [->|Hin]; [|now apply IH].
      rewrite count_strip in L by reflexivity. simpl in L. lia.
Qed.

End LoadValues.

(** C3. [load_values] on a section whose [values.txt] exists takes every
    non-blank line apart at its [=], strips both parts and coerces the value
    (float, then int, else the text); a later line for the same key
    overrides an earlier one.  The file [H0 = 70.0 / omega_m=0.3] gives
    [{H0: 70.0, omega_m: 0.3}], both floats, and the line
    [name = some_text] gives [{name: "some_text"}]. *)
Theorem load_values_spec :
  (forall fs self section text,
     files fs !! values_path self section = Some text ->
     (forall line, line ∈ Str.readlines text -> Str.strip line <> EmptyString ->
                   Str.count "=" line = 1%nat) ->
     exists entries,
       Forall2 line_entry (nonblank_lines text) entries
       /\ load_values fs self section = Ok (list_to_map (rev entries)))
  /\ (forall fs self section,
        files fs !! values_path self section = Some text_H0 ->
        load_values fs self section
        = Ok {[ "H0" := PyFloat f64_70; "omega_m" := PyFloat f64_0_3 ]})
  /\ (forall fs self section,
        files fs !! values_path self section = Some "name = some_text" ->
        load_values fs self section = Ok {[ "name" := PyStr "some_text" ]}).
Proof.
  split; [|split].
  - intros fs self section text Hf Hl.
    destruct (load_values_lines_entries (Str.readlines text) Hl ∅)
      as (entries & HF & HL).
    exists entries. split; [exact HF|].
    unfold load_values, open_read. fold (values_path self section).
    rewrite Hf. simpl. rewrite HL. f_equal. apply foldl_insert_list_to_map.
  - intros fs self section Hf.
    unfold load_values, open_read. fold (values_path self section).
    rewrite Hf. vm_compute. reflexivity.
  - intros fs self section Hf.
    unfold load_values, open_read. fold (values_path self section).
    rewrite Hf. vm_compute. reflexivity.
Qed.

Lemma load_values_spec_witness :
  (exists entries,
     Forall2 line_entry (nonblank_lines text_H0) entries
     /\ load_values fs_H0 self_run "cosmo" = Ok (list_to_map (rev entries)))
  /\ load_values fs_H0 self_run "cosmo"
     = Ok {[ "H0" := PyFloat f64_70; "omega_m" := PyFloat f64_0_3 ]}.
Proof.
  destruct load_values_spec as (H1 & H2 & _). split.
  - apply (H1 fs_H0 self_run "cosmo" text_H0); [reflexivity|].
    intros line Hin _. vm_compute in Hin.
    apply list_elem_of_In in Hin. simpl in Hin.
    destruct Hin as [<-|[<-|[]]]; reflexivity.
  - apply (H2 fs_H0 self_run "cosmo"). reflexivity.
Defined.

(** ** The state monad and the plotting library *)

Section Monad.

Lemma bind_Ok {A B} (c : M A) (k : A -> M B) w a w' :
  c w = (Ok a, w') -> bind c k w = k a w'.
Proof. unfold bind. now intros ->. Qed.

Lemma bind_Raise {A B} (c : M A) (k : A -> M B) w e w' :
  c w = (Raise e, w') -> bind c k w = (Raise e, w').
Proof. unfold bind. now intros ->. Qed.

Lemma bind_inv_Ok {A B} (c : M A) (k : A -> M B) w b w' :
  bind c k w = (Ok b, w') ->
  exists a w1, c w = (Ok a, w1) /\ k a w1 = (Ok b, w').
Proof.
  unfold bind. destruct (c w) as [[a|e] w1]; [eauto|discriminate].
Qed.

Lemma bind_inv_Raise {A B} (c : M A) (k : A -> M B) w e w' :
  bind c k w = (Raise e, w') ->
  c w = (Raise e, w') \/ exists a w1, c w = (Ok a, w1) /\ k a w1 = (Raise e, w').
Proof.
  unfold bind. destruct (c w) as [[a|e0] w1]; [eauto|].
  intros [= -> ->]. now left.
Qed.

Lemma for_each_app {A} (l1 l2 : list A) (body : A -> M unit) w :
  for_each (l1 ++ l2) body w = bind (for_each l1 body) (fun _ => for_each l2 body) w.
Proof.
  revert w; induction l1 as [|x l1 IH]; intros w; simpl; [reflexivity|].
  unfold bind in *. destruct (body x w) as [[[]|e] w1]; [apply IH|reflexivity].
Qed.

Lemma draws_only_ret {A} (a : A) : draws_only (ret a).
Proof. now intros w. Qed.

Lemma draws_only_raise {A} (e : exn) : draws_only (@raise A e).
Proof. now intros w. Qed.

Lemma draws_only_lift {A} (r : result A) : draws_only (lift r).
Proof. now intros w. Qed.

Lemma draws_only_bind {A B} (c : M A) (k : A -> M B) :
  draws_only c -> (forall a, draws_only (k a)) -> draws_only (bind c k).
Proof.
  intros Hc Hk w. unfold bind. specialize (Hc w).
  destruct (c w) as [[a|e] w1]; simpl in *; [|assumption].
  destruct (Hk a w1) as (-> & -> & ->). assumption.
Qed.

Lemma draws_only_for_each {A} (l : list A) (body : A -> M unit) :
  (forall x, draws_only (body x)) -> draws_only (for_each l body).
Proof.
  intros Hb. induction l as [|x l IH]; simpl.
  - apply draws_only_ret.
  - apply draws_only_bind; [apply Hb|intros _; apply IH].
Qed.

Lemma draws_only_set_pylab (f : world -> pylab_state) :
  draws_only (modify (fun w => Pylab.set_pylab (f w) w)).
Proof. now intros w. Qed.

Lemma draws_only_figure_new : draws_only Pylab.figure_new.
Proof. now intros w. Qed.

Lemma draws_only_figure_num n : draws_only (Pylab.figure_num n).
Proof. now intros w. Qed.

Lemma draws_only_gcf : draws_only Pylab.gcf.
Proof. intros w. unfold Pylab.gcf. now destruct (cur (pylab w)). Qed.

Lemma draws_only_put_figure n f : draws_only (Pylab.put_figure n f).
Proof. now intros w. Qed.

Lemma draws_only_add_axes n r : draws_only (Pylab.add_axes n r).
Proof. intros w. unfold Pylab.add_axes. apply draws_only_put_figure. Qed.

Lemma draws_only_draw a : draws_only (Pylab.draw a).
Proof.
  unfold Pylab.draw. apply draws_only_bind; [apply draws_only_gcf|].
  intros n w. destruct (fig_axes (Pylab.get_figure (pylab w) n));
    apply draws_only_put_figure.
Qed.

End Monad.

Create HintDb draws discriminated.
#[export] Hint Resolve draws_only_ret draws_only_raise draws_only_lift
  draws_only_figure_new draws_only_figure_num draws_only_gcf
  draws_only_put_figure draws_only_add_axes draws_only_draw : draws.

(** Decompose a routine into the calls it is made of. *)
Ltac draws_only_step :=
  match goal with
  | |- draws_only (bind _ _) => apply draws_only_bind; [|intros ?]
  | |- draws_only (for_each _ _) => apply draws_only_for_each; intros ?
  | |- draws_only (if ?b then _ else _) => destruct b
  | |- draws_only (match ?x with _ => _ end) => destruct x
  | |- draws_only _ => solve [auto with draws]
  end.

Ltac draws_only_tac := repeat draws_only_step.

(** ** The plot routines only read and draw *)

Section Routines.

Variable fs : FS.

Lemma draws_only_bind_Ok {A B} (a : A) (k : A -> M B) :
  draws_only (k a) -> draws_only (bind (lift (Ok a)) k).
Proof. intros H w. exact (H w). Qed.

Lemma draws_only_Plot_plot self : draws_only (Plot_plot self).
Proof. apply draws_only_figure_num. Qed.

Lemma draws_only_panel_tick_params : draws_only panel_tick_params.
Proof. unfold panel_tick_params. draws_only_tac. Qed.

Hint Resolve draws_only_Plot_plot draws_only_panel_tick_params : draws.

Lemma draws_only_MatterPowerPlot_plot_section self section label p_name :
  draws_only (MatterPowerPlot_plot_section fs self section label p_name).
Proof. unfold MatterPowerPlot_plot_section. cbv zeta. draws_only_tac. Qed.

Lemma draws_only_ShearSpectrumPlot_plot_section self section :
  draws_only (ShearSpectrumPlot_plot_section fs self section).
Proof. unfold ShearSpectrumPlot_plot_section. cbv zeta. draws_only_tac. Qed.

Lemma draws_only_ShearCorrelation_plot section self :
  draws_only (ShearCorrelation_plot fs section self).
Proof. unfold ShearCorrelation_plot. cbv zeta. draws_only_tac. Qed.

Hint Resolve draws_only_MatterPowerPlot_plot_section
  draws_only_ShearSpectrumPlot_plot_section
  draws_only_ShearCorrelation_plot : draws.

Lemma draws_only_CMBSpectrumPlot_plot self :
  draws_only (CMBSpectrumPlot_plot fs self).
Proof. unfold CMBSpectrumPlot_plot. cbv zeta. draws_only_tac. Qed.

Hint Resolve draws_only_CMBSpectrumPlot_plot : draws.

Lemma draws_only_DistancePlot_plot self : draws_only (DistancePlot_plot fs self).
Proof. unfold DistancePlot_plot. cbv zeta. draws_only_tac. Qed.

Lemma draws_only_BBPlot_plot self : draws_only (BBPlot_plot fs self).
Proof. unfold BBPlot_plot. draws_only_tac. Qed.

Lemma draws_only_GrandPlot_plot self : draws_only (GrandPlot_plot fs self).
Proof. unfold GrandPlot_plot. draws_only_tac. Qed.

Lemma draws_only_MatterPowerPlot_plot self :
  draws_only (MatterPowerPlot_plot fs self).
Proof. unfold MatterPowerPlot_plot. cbv zeta. draws_only_tac. Qed.

Lemma draws_only_ShearSpectrumPlot_plot self :
  draws_only (ShearSpectrumPlot_plot fs self).
Proof. unfold ShearSpectrumPlot_plot. draws_only_tac. Qed.

Lemma draws_only_MatterPower2D_plot self :
  draws_only (MatterPower2D_plot fs self).
Proof. unfold MatterPower2D_plot. draws_only_tac. Qed.

Lemma draws_only_GrowthPlot_plot self : draws_only (GrowthPlot_plot fs self).
Proof. unfold GrowthPlot_plot. cbv zeta. draws_only_tac. Qed.

Lemma draws_only_LuminositySlopePlot_plot self :
  draws_only (LuminositySlopePlot_plot fs self).
Proof. unfold LuminositySlopePlot_plot. cbv zeta. draws_only_tac. Qed.

(** Every [plot] method of the module only reads and draws. *)
Lemma draws_only_own_plot c method self :
  own_plot fs c = Some method -> draws_only (method self).
Proof.
  destruct c; simpl; intros [= <-].
  - apply draws_only_Plot_plot.
  - apply draws_only_DistancePlot_plot.
  - apply draws_only_CMBSpectrumPlot_plot.
  - apply draws_only_BBPlot_plot.
  - apply draws_only_GrandPlot_plot.
  - apply draws_only_MatterPowerPlot_plot.
  - apply draws_only_ShearSpectrumPlot_plot.
  - apply draws_only_MatterPower2D_plot.
  - apply draws_only_ShearCorrelation_plot.
  - apply draws_only_ShearCorrelation_plot.
  - apply draws_only_GrowthPlot_plot.
  - apply draws_only_LuminositySlopePlot_plot.
Qed.

(** An attribute that is found was defined by some class. *)
Lemma getattr_Ok {A} (own : cls -> option A) attr c v :
  getattr own attr c = Ok v -> exists d, d ∈ mro c /\ own d = Some v.
Proof.
  unfold getattr. destruct (omap own (mro c)) as [|v0 l] eqn:E; [discriminate|].
  intros [= <-].
  assert (H : v0 ∈ omap own (mro c)) by (rewrite E; now left).
  apply list_elem_of_omap in H. exact H.
Qed.

(** Whatever the class of the object, [p.plot()] writes no image, prints
    nothing and makes no directory. *)
Lemma draws_only_plot self : draws_only (plot fs self).
Proof.
  unfold plot. destruct (getattr (own_plot fs) "plot" (self_class self)) as [m|e] eqn:E.
  - apply draws_only_bind_Ok. apply getattr_Ok in E as (d & _ & Hd).
    now apply (draws_only_own_plot d).
  - intros w. unfold bind, lift. simpl. auto.
Qed.

End Routines.

(** ** [Plot.__init__], [save] and [make] *)

Section Make.

Variable fs : FS.

Lemma draws_only_Plot_init c dirname outdir prefix suffix quiet figure :
  draws_only (Plot_init c dirname outdir prefix suffix quiet figure).
Proof. unfold Plot_init. cbv zeta. draws_only_tac. Qed.

Lemma Plot_init_Ok c dirname outdir prefix suffix quiet figure w p w1 :
  Plot_init c dirname outdir prefix suffix quiet figure w = (Ok p, w1) ->
  exists name,
    getattr own_filename "filename" c = Ok name
    /\ self_class p = c
    /\ self_dirname p = dirname
    /\ self_quiet p = quiet
    /\ self_outfile p = output_path outdir prefix name suffix.
Proof.
  unfold Plot_init. intros H.
  apply bind_inv_Ok in H as (n & w0 & _ & H).
  apply bind_inv_Ok in H as (name & w2 & Hn & H).
  unfold lift in Hn. injection Hn as Hn _. injection H as <- _.
  exists name. simpl. repeat split; try assumption.
  unfold output_path. destruct (String.eqb_spec prefix "") as [->|_]; [reflexivity|].
  now rewrite append_assoc.
Qed.

(** The only exception [Plot.__init__] can raise is an [AttributeError]. *)
Lemma Plot_init_Raise c dirname outdir prefix suffix quiet figure w e w1 :
  Plot_init c dirname outdir prefix suffix quiet figure w = (Raise e, w1) ->
  is_IOError e = false.
Proof.
  unfold Plot_init. intros H.
  apply bind_inv_Raise in H as [H|(n & w0 & _ & H)].
  - destruct figure; [discriminate|]. discriminate.
  - apply bind_inv_Raise in H as [H|(name & w2 & _ & H)]; [|discriminate].
    unfold lift, getattr in H. destruct (omap own_filename (mro c)); [|discriminate].
    now injection H as <- _.
Qed.

(** [save] never raises: it prints one line, the object not being quiet,
    and writes the figure to [self.outfile]. *)
Lemma save_spec (self : instance) (w : world) :
  exists w' fig,
    save self w = (Ok tt, w')
    /\ outputs w' = <[self_outfile self := fig]> (outputs w)
    /\ stdout w' = stdout w ++ (if self_quiet self then []
                                else ["Saving  " +:+ self_outfile self])
    /\ made_dirs w' = made_dirs w.
Proof.
  unfold save, bind, Pylab.figure_num, modify, print, Pylab.savefig, Pylab.gcf, ret.
  destruct (self_quiet self); simpl; eexists _, _;
    (split; [reflexivity|]); simpl; repeat split.
  now rewrite app_nil_r.
Qed.

Lemma make_with_Ok plot_method c dirname outdir prefix suffix w name w' :
  make_with plot_method c dirname outdir prefix suffix w = (Ok name, w') ->
  exists p w1 w2,
    Plot_init c dirname outdir prefix suffix false None w = (Ok p, w1)
    /\ plot_method p w1 = (Ok tt, w2)
    /\ save p w2 = (Ok tt, w')
    /\ getattr own_filename "filename" c = Ok name.
Proof.
  unfold make_with. intros H.
  apply bind_inv_Ok in H as (p & w1 & Hi & H).
  apply bind_inv_Ok in H as ([] & w2 & Hp & H).
  apply bind_inv_Ok in H as ([] & w3 & Hs & H).
  destruct (Plot_init_Ok _ _ _ _ _ _ _ _ _ _ Hi) as (nm & _ & Hc & _).
  unfold lift in H. rewrite Hc in H. injection H as H <-.
  exists p, w1, w2. auto.
Qed.

Lemma make_with_Raise plot_method c dirname outdir prefix suffix w e w' :
  make_with plot_method c dirname outdir prefix suffix w = (Raise e, w') ->
  (Plot_init c dirname outdir prefix suffix false None w = (Raise e, w')
   /\ is_IOError e = false)
  \/ exists p w1,
       Plot_init c dirname outdir prefix suffix false None w = (Ok p, w1)
       /\ plot_method p w1 = (Raise e, w').
Proof.
  unfold make_with. intros H.
  apply bind_inv_Raise in H as [H|(p & w1 & Hi & H)].
  - left. split; [assumption|]. eapply Plot_init_Raise, H.
  - right. exists p, w1. split; [assumption|].
    apply bind_inv_Raise in H as [H|([] & w2 & Hp & H)]; [assumption|].
    exfalso.
    destruct (save_spec p w2) as (w3 & fig & Hs & _).
    apply bind_inv_Raise in H as [H|([] & w4 & Hs' & H)]; [congruence|].
    destruct (Plot_init_Ok _ _ _ _ _ _ _ _ _ _ Hi) as (nm & Hn & Hc & _).
    unfold lift in H. rewrite Hc, Hn in H. discriminate.
Qed.

End Make.

(** ** The driver *)

Section Driver.

Variable fs : FS.

Lemma make_Raise_draws_only c dirname outdir prefix suffix w e w' :
  make fs c dirname outdir prefix suffix w = (Raise e, w') ->
  outputs w' = outputs w /\ stdout w' = stdout w.
Proof.
  intros H. apply make_with_Raise in H as [[H _]|(p & w1 & Hi & Hp)].
  - destruct (draws_only_Plot_init c dirname outdir prefix suffix false None w)
      as (Ho & Hs & _). rewrite H in Ho, Hs. now split.
  - destruct (draws_only_Plot_init c dirname outdir prefix suffix false None w)
      as (Ho & Hs & _). rewrite Hi in Ho, Hs. simpl in Ho, Hs.
    destruct (draws_only_plot fs p w1) as (Ho' & Hs' & _).
    rewrite Hp in Ho', Hs'. simpl in Ho', Hs'. split; congruence.
Qed.

(** What [attempt] raises was not an [IOError]. *)
Lemma attempt_Raise plot_method a c w e w' :
  attempt plot_method a c w = (Raise e, w') -> is_IOError e = false.
Proof.
  unfold attempt, try_except_IOError.
  destruct (bind _ _ w) as [[[]|e0] w1]; [discriminate|].
  destruct (is_IOError e0) eqn:E; [discriminate|]. now intros [= <- _].
Qed.

Lemma attempt_of_make_Ok plot_method a c w name w' :
  make_with plot_method c (arg_dirname a) (arg_output_dir a) (arg_prefix a)
            (arg_type a) w = (Ok name, w') ->
  attempt plot_method a c w = (Ok tt, w').
Proof.
  intros H. unfold attempt, try_except_IOError.
  now rewrite (bind_Ok _ _ _ _ _ H).
Qed.

Lemma attempt_of_make_Raise plot_method a c w e w' :
  make_with plot_method c (arg_dirname a) (arg_output_dir a) (arg_prefix a)
            (arg_type a) w = (Raise e, w') ->
  attempt plot_method a c w
  = if is_IOError e then print (exn_str e) w' else (Raise e, w').
Proof.
  intros H. unfold attempt, try_except_IOError.
  now rewrite (bind_Raise _ _ _ _ _ H).
Qed.

(** The loop stops at the first class whose attempt raises. *)
Lemma for_each_attempt_raises plot_method a (order : list cls) (c : cls) :
  c ∈ order ->
  (forall w, exists e w', attempt plot_method a c w = (Raise e, w')) ->
  forall w, exists e w',
    for_each order (attempt plot_method a) w = (Raise e, w')
    /\ is_IOError e = false.
Proof.
  intros Hin Hc. induction order as [|x order IH]; intros w.
  - now apply elem_of_nil in Hin.
  - simpl. unfold bind.
    destruct (attempt plot_method a x w) as [[[]|e] w1] eqn:E.
    + apply elem_of_cons in Hin as [<-|Hin].
      * destruct (Hc w) as (e & w' & He). congruence.
      * now apply IH.
    + exists e, w1. split; [reflexivity|]. eapply attempt_Raise, E.
Qed.

(** The loop completes when every failure of [make] is an [IOError]. *)
Lemma for_each_attempt_completes plot_method a (order : list cls) :
  (forall c w e w', c ∈ order ->
     make_with plot_method c (arg_dirname a) (arg_output_dir a) (arg_prefix a)
               (arg_type a) w = (Raise e, w') -> is_IOError e = true) ->
  forall w, exists w', for_each order (attempt plot_method a) w = (Ok tt, w').
Proof.
  induction order as [|x order IH]; intros H w; [now exists w|].
  simpl. unfold bind.
  destruct (make_with plot_method x (arg_dirname a) (arg_output_dir a)
              (arg_prefix a) (arg_type a) w) as [[name|e] w1] eqn:E.
  - rewrite (attempt_of_make_Ok _ _ _ _ _ _ E).
    apply IH. intros c w0 e w' Hin. apply H. now right.
  - rewrite (attempt_of_make_Raise _ _ _ _ _ _ E).
    rewrite (H x w e w1 ltac:(now left) E). unfold print, modify.
    apply IH. intros c w0 e0 w' Hin. apply H. now right.
Qed.

End Driver.

(** C5. A descriptor rendered successfully produces exactly one output
    file: [make] returns the base file name of the class and its only
    effect on the written files is the one at
    [output_dir/prefix_base.type], with no underscore when the prefix is
    empty. *)
Theorem make_writes_one_file fs c dirname outdir prefix suffix w name w' :
  make fs c dirname outdir prefix suffix w = (Ok name, w') ->
  getattr own_filename "filename" c = Ok name
  /\ exists fig,
       outputs w' = <[output_path outdir prefix name suffix := fig]> (outputs w).
Proof.
  intros H. apply make_with_Ok in H as (p & w1 & w2 & Hi & Hp & Hs & Hn).
  split; [assumption|].
  destruct (Plot_init_Ok _ _ _ _ _ _ _ _ _ _ Hi) as (nm & Hn' & _ & _ & _ & Ho).
  assert (nm = name) as -> by congruence.
  destruct (save_spec p w2) as (w3 & fig & Hs' & Hout & _).
  assert (w3 = w') as -> by congruence.
  exists fig. rewrite Hout, Ho. f_equal.
  destruct (draws_only_Plot_init c dirname outdir prefix suffix false None w)
    as (Ho1 & _). rewrite Hi in Ho1. simpl in Ho1.
  destruct (draws_only_plot fs p w1) as (Ho2 & _). rewrite Hp in Ho2. simpl in Ho2.
  congruence.
Qed.

Lemma make_writes_one_file_witness :
  exists fig,
    outputs (snd (make fs_distances AngularDiameterDistancePlot "run" "out" "pre"
                       "png" world0))
    = {[ "out/pre_angular_distance.png" := fig ]}.
Proof.
  destruct (make_writes_one_file fs_distances AngularDiameterDistancePlot
              "run" "out" "pre" "png" world0 "angular_distance"
              (snd (make fs_distances AngularDiameterDistancePlot "run" "out" "pre"
                         "png" world0)))
    as (_ & fig & H).
  - vm_compute. reflexivity.
  - exists fig. exact H.
Defined.

(** C6. When the plot routine of a class raises an [IOError], the driver
    prints its message and goes on: the attempt ends normally with the
    message as the one new line and no file written, and a run in which
    every failure is an [IOError] completes however many plots were
    skipped.  An exception that is not an [IOError] leaves the driver: the
    run ends with it at that class and the classes after it are not
    attempted. *)
Theorem driver_skips_IOError_only fs (a : args) :
  (forall c w e w1,
     make fs c (arg_dirname a) (arg_output_dir a) (arg_prefix a) (arg_type a) w
     = (Raise e, w1) ->
     is_IOError e = true ->
     exists w2,
       attempt (plot fs) a c w = (Ok tt, w2)
       /\ stdout w2 = stdout w ++ [exn_str e]
       /\ outputs w2 = outputs w)
  /\ (forall order w,
        (forall c w0 e w1, c ∈ order ->
           make fs c (arg_dirname a) (arg_output_dir a) (arg_prefix a) (arg_type a) w0
           = (Raise e, w1) ->
           is_IOError e = true) ->
        exists w', main fs order a w = (Ok tt, w'))
  /\ (forall before c after w w1 e w2,
        main fs before a w = (Ok tt, w1) ->
        make fs c (arg_dirname a) (arg_output_dir a) (arg_prefix a) (arg_type a) w1
        = (Raise e, w2) ->
        is_IOError e = false ->
        main fs (before ++ c :: after) a w = (Raise e, w2)).
Proof.
  split; [|split].
  - intros c w e w1 H He.
    destruct (make_Raise_draws_only _ _ _ _ _ _ _ _ _ H) as [Ho Hs].
    unfold make in H. rewrite (attempt_of_make_Raise _ _ _ _ _ _ H), He.
    eexists. split; [reflexivity|]. simpl. split; congruence.
  - intros order w H. unfold main, main_with, bind, utils_mkdir, modify.
    apply for_each_attempt_completes. exact H.
  - intros before c after w w1 e w2 Hb Hm He.
    unfold main, main_with in *.
    apply bind_inv_Ok in Hb as ([] & w0 & Hd & Hb).
    rewrite (bind_Ok _ _ _ _ _ Hd), for_each_app, (bind_Ok _ _ _ _ _ Hb).
    simpl. unfold make in Hm.
    now rewrite (bind_Raise _ _ _ _ _ (eq_trans (attempt_of_make_Raise _ _ _ _ _ _ Hm)
                                         ltac:(now rewrite He))).
Qed.

Lemma driver_skips_IOError_only_witness :
  (exists w2,
     attempt (plot fs_empty) args_run TTPlot world0 = (Ok tt, w2)
     /\ stdout w2 = ["Not making plot: TT (no data in this sample)"]
     /\ outputs w2 = ∅)
  /\ (exists w', main fs_empty [TTPlot; GrowthPlot] args_run world0 = (Ok tt, w'))
  /\ fst (main fs_table [MatterPower2D; TTPlot] args_run world0)
     = Raise (ValueError
         "The truth value of an array with more than one element is ambiguous. Use a.any() or a.all()").
Proof.
  destruct (driver_skips_IOError_only fs_empty args_run) as (H1 & H2 & _).
  destruct (driver_skips_IOError_only fs_table args_run) as (_ & _ & H3).
  split; [|split].
  - apply (H1 TTPlot world0 (IOError "Not making plot: TT (no data in this sample)")
              (snd (make fs_empty TTPlot "run" "out" "pre" "png" world0))).
    + vm_compute. reflexivity.
    + reflexivity.
  - apply (H2 [TTPlot; GrowthPlot] world0).
    intros c w0 e w1 Hin Hm.
    apply list_elem_of_In in Hin. simpl in Hin.
    destruct Hin as [<-|[<-|[]]]; vm_compute in Hm; injection Hm as <- _; reflexivity.
  - change [MatterPower2D; TTPlot] with ([] ++ MatterPower2D :: [TTPlot]).
    rewrite (H3 [] MatterPower2D [TTPlot] world0
               (snd (main fs_table [] args_run world0))
               (ValueError
                  "The truth value of an array with more than one element is ambiguous. Use a.any() or a.all()")
               (snd (make fs_table MatterPower2D "run" "out" "pre" "png"
                          (snd (main fs_table [] args_run world0))))).
    + reflexivity.
    + vm_compute. reflexivity.
    + vm_compute. reflexivity.
    + reflexivity.
Defined.

(** ** Loading tables *)

Section Loading.

Lemma rmapM_Raise {A B} (f : A -> result B) (l : list A) (x : A) (e : exn) :
  x ∈ l -> f x = Raise e -> exists e', rmapM f l = Raise e'.
Proof.
  intros Hin Hx. induction l as [|y l IH]; [now apply elem_of_nil in Hin|].
  simpl. destruct (f y) as [b|e0] eqn:Ey; simpl; [|eauto].
  apply elem_of_cons in Hin as [<-|Hin]; [congruence|].
  destruct (IH Hin) as (e' & ->). simpl. eauto.
Qed.

(** A field that [float] rejects makes the whole table unreadable. *)
Lemma parse_rows_bad_field (lines : list string) (line w : string) :
  line ∈ lines -> field_of line w -> Py.float w = None ->
  exists e, Np.parse_rows lines = Raise e.
Proof.
  intros Hin Hw Hf. induction lines as [|l lines IH]; [now apply elem_of_nil in Hin|].
  simpl. destruct (Np.parse_row l) as [row|e0] eqn:El; simpl; [|eauto].
  apply elem_of_cons in Hin as [<-|Hin].
  - unfold Np.parse_row in El.
    match type of El with
    | rmapM ?f ?l = _ =>
        destruct (rmapM_Raise f l w
                    (ValueError ("could not convert string to float: '" +:+ w +:+ "'"))
                    Hw) as (e' & He')
    end.
    + unfold Np.field. rewrite Hf. now destruct (_ =? _)%nat.
    + congruence.
  - destruct (IH Hin) as (e & ->). simpl. eauto.
Qed.

Lemma load_file_Raise fs self section name e :
  Np.loadtxt fs (file_path self section name) = Raise e ->
  load_file fs self section name = Raise (IOError (not_making_plot (self_class self))).
Proof. unfold load_file. now intros ->. Qed.

End Loading.

(** C7. [load_file] raises an [IOError] whenever the table
    [<dirname>/<section>/<name>.txt] is missing or cannot be read as numbers
    (whatever makes [np.loadtxt] fail, in particular a field that is not a
    number); that error is of the kind the driver catches and turns into a
    printed line.  [load_values] raises a [FileNotFoundError] when
    [<dirname>/<section>/values.txt] is absent. *)
Theorem load_failures fs self section name :
  (files fs !! file_path self section name = None
   \/ (exists text e,
         files fs !! file_path self section name = Some text
         /\ Np.parse_rows (Str.readlines text) = Raise e)
   \/ (exists text line w,
         files fs !! file_path self section name = Some text
         /\ line ∈ Str.readlines text /\ field_of line w /\ Py.float w = None) ->
   exists err,
     load_file fs self section name = Raise err
     /\ err = IOError (not_making_plot (self_class self))
     /\ is_IOError err = true
     /\ forall plot_method a c w w1,
          make_with plot_method c (arg_dirname a) (arg_output_dir a)
                    (arg_prefix a) (arg_type a) w = (Raise err, w1) ->
          attempt plot_method a c w = print (exn_str err) w1)
  /\ (path_exists fs (values_path self section) = false ->
      load_values fs self section = Raise (FileNotFoundError (values_path self section))).
Proof.
  split.
  - intros H. exists (IOError (not_making_plot (self_class self))).
    split; [|split; [reflexivity|split; [reflexivity|]]].
    + destruct H as [H|[(text & e & Hf & Hp)|(text & line & w & Hf & Hl & Hw & Hn)]].
      * unfold load_file, Np.loadtxt, open_read. rewrite H.
        now destruct (bool_decide _).
      * apply (load_file_Raise _ _ _ _ e).
        unfold Np.loadtxt, open_read. rewrite Hf. simpl. now rewrite Hp.
      * destruct (parse_rows_bad_field _ _ _ Hl Hw Hn) as (e & Hp).
        apply (load_file_Raise _ _ _ _ e).
        unfold Np.loadtxt, open_read. rewrite Hf. simpl. now rewrite Hp.
    + intros plot_method a c w w1 Hm.
      now rewrite (attempt_of_make_Raise _ _ _ _ _ _ Hm).
  - unfold path_exists, load_values, open_read. fold (values_path self section).
    intros H. apply orb_false_elim in H as [H1 H2].
    apply bool_decide_eq_false in H1. rewrite H2.
    destruct (files fs !! values_path self section); [|reflexivity].
    exfalso. apply H1. eauto.
Qed.

Lemma load_failures_witness :
  load_file fs_garbled self_run "cmb_cl" "tt" = Raise (IOError "Not making plot: TT (no data in this sample)")
  /\ load_file fs_garbled self_run "cmb_cl" "ell" = Raise (IOError "Not making plot: TT (no data in this sample)")
  /\ load_values fs_garbled self_run "cmb_cl" = Raise (FileNotFoundError "run/cmb_cl/values.txt").
Proof.
  split; [|split].
  - destruct (load_failures fs_garbled self_run "cmb_cl" "tt") as [H _].
    destruct H as (err & H & -> & _); [|exact H].
    left. reflexivity.
  - destruct (load_failures fs_garbled self_run "cmb_cl" "ell") as [H _].
    destruct H as (err & H & -> & _); [|exact H].
    right. right. exists ("2" +:+ nl +:+ "3 # third" +:+ nl +:+ "four" +:+ nl), ("four" +:+ nl), "four".
    split; [reflexivity|]. split; [vm_compute; right; right; left|].
    split; [vm_compute; left|reflexivity].
  - destruct (load_failures fs_garbled self_run "cmb_cl" "tt") as [_ H].
    apply H. reflexivity.
Defined.

(** ** The missing [raise] of the correlation plots *)

(** C1 (the code departs from it).  With the shared [theta] table present
    and no [bin_i_j] table at all, [ShearCorrelationPlusPlot] is not
    skipped: [make] ends normally, the driver completes, prints the
    [Saving] line and the image [out/pre_shear_xi_plus.png] is written. *)
Theorem xi_plus_saved_without_bins :
  (forall i j,
     path_exists fs_theta_only
       ("run/shear_xi_plus/" +:+ bin_name i j +:+ ".txt") = false)
  /\ fst (make fs_theta_only ShearCorrelationPlusPlot "run" "out" "pre" "png" world0)
     = Ok "shear_xi_plus"
  /\ exists w',
       main fs_theta_only (elements registry) args_run world0 = (Ok tt, w')
       /\ "Saving  out/pre_shear_xi_plus.png" ∈ stdout w'
       /\ outputs w' !! "out/pre_shear_xi_plus.png" = Some {| fig_axes := [] |}.
Proof.
  split; [|split].
  - intros i j. unfold path_exists. apply orb_false_intro.
    + apply bool_decide_eq_false. intros [text H].
      unfold fs_theta_only, files in H.
      apply lookup_singleton_Some in H as [H _].
      cbv [String.append bin_name] in H. discriminate H.
    + apply bool_decide_eq_false. intros H.
      unfold fs_theta_only, dirs in H.
      apply elem_of_union in H as [H|H]; apply elem_of_singleton in H;
        cbv [String.append bin_name] in H; discriminate H.
  - vm_compute. reflexivity.
  - eexists. split; [vm_compute; reflexivity|]. split.
    + vm_compute. repeat (first [left | right]).
    + vm_compute. reflexivity.
Qed.

(** ** The sign rules of the power spectra *)

Section SignFlip.

Lemma digits_shift52 (m : positive) :
  Zpos (digits2_pos (Pos.mul 4503599627370496 m)) = Zpos (digits2_pos m) + 52.
Proof. cbv [Pos.mul digits2_pos]. fold digits2_pos. lia. Qed.

Lemma shr_52 (m : positive) :
  SpecFloat.iter_pos shr_1 52
    {| shr_m := Z.pos (4503599627370496 * m); shr_r := false; shr_s := false |}
  = {| shr_m := Z.pos m; shr_r := false; shr_s := false |}.
Proof. cbv [Pos.mul]. reflexivity. Qed.

(** Multiplying a binary64 number by [-1] is exact: it flips the sign. *)
Lemma mul_neg1 (x : spec_float) :
  valid_binary F64.prec F64.emax x = true ->
  F64.mul x (F64.of_Z (-1)) = SFopp x.
Proof.
  change (F64.of_Z (-1)) with (S754_finite true 4503599627370496 (-52)).
  unfold F64.mul, F64.prec, F64.emax.
  destruct x as [s|s| |s m e]; intros V.
  - now destruct s.
  - now destruct s.
  - reflexivity.
  - cbn [valid_binary] in V. unfold bounded, canonical_mantissa in V.
    apply andb_prop in V as [C B]. apply Z.eqb_eq in C. apply Z.leb_le in B.
    unfold fexp, emin in C.
    cbn [SFmul SFopp].
    rewrite Pos.mul_comm.
    unfold binary_round_aux, shr_fexp.
    cbn [Zdigits2]. rewrite digits_shift52.
    assert (E1 : fexp 53 1024 (Z.pos (digits2_pos m) + 52 + (e + -52)) - (e + -52) = 52)
      by (unfold fexp, emin; lia).
    rewrite E1. cbn [shr_record_of_loc shr]. rewrite shr_52.
    cbn [shr_m loc_of_shr_record round_nearest_even Zdigits2].
    assert (E2 : fexp 53 1024 (Z.pos (digits2_pos m) + (e + -52 + 52)) - (e + -52 + 52) = 0)
      by (unfold fexp, emin; lia).
    rewrite E2. cbn [shr shr_record_of_loc shr_m].
    replace (e + -52 + 52) with e by lia.
    replace (e <=? 1024 - 53) with true by (symmetry; apply Z.leb_le; lia).
    now destruct s.
Qed.

Lemma opp_negative_positive (x : spec_float) :
  F64.ltb x F64.zero = true -> F64.ltb F64.zero (SFopp x) = true.
Proof.
  unfold F64.ltb, F64.zero.
  destruct x as [s|s| |s m e]; try destruct s; cbn; intros H;
    try discriminate H; reflexivity.
Qed.

Lemma negative_nonpositive (x : spec_float) :
  F64.ltb x F64.zero = true -> F64.leb x F64.zero = true.
Proof.
  unfold F64.ltb, F64.leb, SFltb, SFleb.
  now destruct (SFcompare x F64.zero) as [[]|].
Qed.

Lemma flipped_positive (xs : list spec_float) :
  Forall (fun x => valid_binary F64.prec F64.emax x = true) xs ->
  Forall (fun x => F64.ltb x F64.zero = true) xs ->
  Forall (fun x => F64.ltb F64.zero x = true)
         (map (fun x => F64.mul x (F64.of_Z (-1))) xs).
Proof.
  intros V N. apply Forall_map. 
  induction xs as [|x xs IH]; constructor.
  - rewrite mul_neg1 by now inversion V. apply opp_negative_positive. now inversion N.
  - apply IH; [now inversion V|now inversion N].
Qed.

Lemma flat_imul_neg1 (a : ndarray) :
  NpOps.flat (NpOps.imul_neg1 a)
  = map (fun x => F64.mul x (F64.of_Z (-1))) (NpOps.flat a).
Proof.
  destruct a as [x|xs|rows]; simpl; try reflexivity.
  induction rows as [|r rows IH]; simpl; [reflexivity|].
  now rewrite map_app, IH.
Qed.

Lemma all_lt0_spec (a : ndarray) : NpOps.all_lt0 a = true <-> all_negative a.
Proof.
  unfold NpOps.all_lt0, all_negative. rewrite forallb_forall, Forall_forall.
  split; intros H x Hx; apply H; now apply list_elem_of_In.
Qed.

End SignFlip.

(** C2, as the code has it.  [ShearSpectrumPlot.plot_section] negates a
    one-dimensional spectrum whose values are all non-positive.
    [MatterPowerPlot.plot_section] negates the spectrum when all its values
    are negative and leaves it as it is otherwise.  In both routines a
    spectrum whose values are all negative is all positive afterwards. *)
Theorem sign_flip_rules :
  (forall xs,
     all_nonpositive (Arr1 xs) ->
     ShearSpectrum_sign_flip (Arr1 xs) = Ok (NpOps.imul_neg1 (Arr1 xs)))
  /\ (forall p,
        all_negative p -> MatterPower_sign_flip p = NpOps.imul_neg1 p)
  /\ (forall p,
        ~ all_negative p -> MatterPower_sign_flip p = p)
  /\ (forall xs,
        valid_array (Arr1 xs) -> all_negative (Arr1 xs) ->
        exists cl, ShearSpectrum_sign_flip (Arr1 xs) = Ok cl /\ all_positive cl)
  /\ (forall p,
        valid_array p -> all_negative p ->
        all_positive (MatterPower_sign_flip p)).
Proof.
  assert (S1 : forall xs, all_nonpositive (Arr1 xs) ->
            ShearSpectrum_sign_flip (Arr1 xs) = Ok (NpOps.imul_neg1 (Arr1 xs))).
  { intros xs H. unfold ShearSpectrum_sign_flip. simpl.
    replace (forallb _ xs) with true; [reflexivity|].
    symmetry. apply forallb_forall. intros x Hx.
    unfold all_nonpositive in H. simpl in H. rewrite Forall_forall in H.
    apply H. now apply list_elem_of_In. }
  assert (M1 : forall p, all_negative p ->
            MatterPower_sign_flip p = NpOps.imul_neg1 p).
  { intros p H. unfold MatterPower_sign_flip.
    apply all_lt0_spec in H. now rewrite H. }
  split; [exact S1|]. split; [exact M1|]. split; [|split].
  - intros p H. unfold MatterPower_sign_flip.
    destruct (NpOps.all_lt0 p) eqn:E; [|reflexivity].
    apply all_lt0_spec in E. contradiction.
  - intros xs V N. eexists. split.
    + apply S1. unfold all_nonpositive. eapply Forall_impl; [exact N|].
      intros x. apply negative_nonpositive.
    + unfold all_positive. rewrite flat_imul_neg1. now apply flipped_positive.
  - intros p V N. rewrite (M1 p N).
    unfold all_positive. rewrite flat_imul_neg1. now apply flipped_positive.
Qed.

Lemma sign_flip_rules_witness :
  ShearSpectrum_sign_flip (Arr1 [f64_0; f64_m1]) = Ok (NpOps.imul_neg1 (Arr1 [f64_0; f64_m1]))
  /\ MatterPower_sign_flip (Arr2 [[f64_m1; f64_m1]; [f64_m1; f64_m1]])
     = NpOps.imul_neg1 (Arr2 [[f64_m1; f64_m1]; [f64_m1; f64_m1]])
  /\ MatterPower_sign_flip (Arr1 [f64_0; f64_m1]) = Arr1 [f64_0; f64_m1]
  /\ (exists cl, ShearSpectrum_sign_flip (Arr1 [f64_m1; f64_m1]) = Ok cl /\ all_positive cl)
  /\ all_positive (MatterPower_sign_flip (Arr1 [f64_m1; f64_m1])).
Proof.
  destruct sign_flip_rules as (H1 & H2 & H3 & H4 & H5).
  split; [|split; [|split; [|split]]].
  - apply H1. repeat constructor.
  - apply H2. repeat constructor.
  - apply H3. intros N. inversion N as [|x l Hx Hl]. discriminate Hx.
  - apply H4; repeat constructor.
  - apply H5; repeat constructor.
Defined.

(** C2, as it is worded, fails for [MatterPowerPlot.plot_section]: the
    spectrum [[0, -1]] has only non-positive values and is not negated. *)
Lemma matter_power_nonpositive_not_negated :
  ~ (forall p, all_nonpositive p ->
               MatterPower_sign_flip p = NpOps.imul_neg1 p).
Proof.
  intros H. specialize (H (Arr1 [f64_0; f64_m1])).
  assert (N : all_nonpositive (Arr1 [f64_0; f64_m1])) by (repeat constructor).
  specialize (H N). vm_compute in H. discriminate H.
Qed.

(** ** The registry *)

Section Registry.

(** The invariant of the class statements: what is in the registry so far
    are the classes made so far that none of them derives from. *)
Lemma registry_foldl (defs : list (cls * list cls)) :
  bases_defined_before defs ->
  forall (r : gset cls) (x : cls),
    x ∈ foldl (fun r d => RegisteredPlot.new r (fst d) (snd d)) r defs
    <-> (x ∈ r \/ x ∈ map fst defs) /\ forall d, d ∈ defs -> x ∉ snd d.
Proof.
  induction defs as [|[c bs] rest IH]; intros Hwf r x.
  - simpl. split.
    + intros H. split; [now left|]. intros d Hd. now apply elem_of_nil in Hd.
    + intros [[H|H] _]; [assumption|]. now apply elem_of_nil in H.
  - destruct Hwf as [Hb Hrest]. simpl in Hb.
    simpl foldl. rewrite (IH Hrest). unfold RegisteredPlot.new.
    rewrite elem_of_difference, elem_of_union, elem_of_singleton, elem_of_list_to_set.
    simpl map. split.
    + intros [[[[Hx|Hx] Hnb]|Hx] Hd].
      * split; [now left|]. intros d Hin.
        apply elem_of_cons in Hin as [->|Hin]; [assumption|now apply Hd].
      * split; [right; subst; now left|]. intros d Hin.
        apply elem_of_cons in Hin as [->|Hin]; [assumption|now apply Hd].
      * split; [right; now right|]. intros d Hin.
        apply elem_of_cons in Hin as [->|Hin]; [|now apply Hd].
        simpl. intros Hxb. apply (Hb x Hxb). now right.
    + intros [Hx Hd]. split.
      * assert (Hnb : x ∉ bs) by (apply (Hd (c, bs)); now left).
        destruct Hx as [Hx|Hx]; [left; split; [now left|assumption]|].
        apply elem_of_cons in Hx as [->|Hx]; [left; split; [now right|assumption]|].
        now right.
      * intros d Hin. apply Hd. now right.
Qed.

Lemma registry_after_leaves (defs : list (cls * list cls)) (x : cls) :
  bases_defined_before defs ->
  x ∈ RegisteredPlot.after defs
  <-> x ∈ map fst defs /\ forall d, d ∈ defs -> x ∉ snd d.
Proof.
  intros Hwf. unfold RegisteredPlot.after. rewrite (registry_foldl defs Hwf).
  split; [intros [[H|H] Hd]; [now apply elem_of_empty in H|now split]|].
  intros [H Hd]. split; [now right|assumption].
Qed.

Lemma class_statements_in_order :
  bases_defined_before (map (fun c => (c, bases c)) class_statements).
Proof.
  simpl. repeat split; intros b Hb;
    repeat (apply elem_of_cons in Hb as [->|Hb]); try (now apply elem_of_nil in Hb);
    intros Hin; repeat (apply elem_of_cons in Hin as [Hin|Hin]; [discriminate Hin|]);
    now apply elem_of_nil in Hin.
Qed.

Lemma registry_leaf (c : cls) : c ∈ registry <-> leaf c.
Proof.
  unfold registry, leaf.
  rewrite (registry_after_leaves _ c class_statements_in_order).
  rewrite map_map, map_id. split; intros [H1 H2]; (split; [assumption|]).
  - intros d Hd. apply (H2 (d, bases d)).
    apply list_elem_of_fmap. now exists d.
  - intros [d bs] Hd. apply list_elem_of_fmap in Hd as (d' & [= -> ->] & Hd').
    now apply H2.
Qed.

End Registry.

Section Attempts.

Variable fs : FS.

(** An attempt that ends normally has printed exactly one line: the
    [Saving] line of a plot that was made, or the message of one that was
    skipped. *)
Lemma attempt_one_line a c w w' :
  attempt (plot fs) a c w = (Ok tt, w') ->
  length (stdout w') = S (length (stdout w)).
Proof.
  destruct (make_with (plot fs) c (arg_dirname a) (arg_output_dir a)
              (arg_prefix a) (arg_type a) w) as [[name|e] w1] eqn:E.
  - rewrite (attempt_of_make_Ok _ _ _ _ _ _ E). intros [= <-].
    apply make_with_Ok in E as (p & w2 & w3 & Hi & Hp & Hs & _).
    destruct (Plot_init_Ok _ _ _ _ _ _ _ _ _ _ Hi) as (_ & _ & _ & _ & Hq & _).
    destruct (save_spec p w3) as (w4 & fig & Hs' & _ & Hout & _).
    assert (w4 = w1) as -> by congruence. rewrite Hout, Hq, length_app. simpl.
    destruct (draws_only_Plot_init c (arg_dirname a) (arg_output_dir a)
                (arg_prefix a) (arg_type a) false None w) as (_ & H1 & _).
    rewrite Hi in H1. simpl in H1.
    destruct (draws_only_plot fs p w2) as (_ & H2 & _). rewrite Hp in H2. simpl in H2.
    rewrite H2, H1. lia.
  - rewrite (attempt_of_make_Raise _ _ _ _ _ _ E).
    destruct (is_IOError e); [|discriminate]. intros [= <-]. simpl.
    destruct (make_Raise_draws_only _ _ _ _ _ _ _ _ _ E) as [_ Hs].
    rewrite length_app, Hs. simpl. lia.
Qed.

Lemma for_each_attempt_lines a (order : list cls) w w' :
  for_each order (attempt (plot fs) a) w = (Ok tt, w') ->
  length (stdout w') = (length (stdout w) + length order)%nat.
Proof.
  revert w. induction order as [|c order IH]; intros w H.
  - injection H as <-. simpl. lia.
  - simpl in H. apply bind_inv_Ok in H as ([] & w1 & Ha & H).
    rewrite (IH _ H), (attempt_one_line _ _ _ _ Ha). simpl. lia.
Qed.

End Attempts.

(** ** Runs that do not complete *)

Section Aborted.

Variable fs : FS.

(** A loop of attempts that raises ran the attempts of a prefix of the
    order, which ended normally, and then the one that raised. *)
Lemma for_each_attempt_inv_Raise a (order : list cls) w e w' :
  for_each order (attempt (plot fs) a) w = (Raise e, w') ->
  exists done c rest w1,
    order = done ++ c :: rest
    /\ for_each done (attempt (plot fs) a) w = (Ok tt, w1)
    /\ attempt (plot fs) a c w1 = (Raise e, w').
Proof.
  revert w. induction order as [|x order IH]; intros w H; [discriminate H|].
  simpl in H. apply bind_inv_Raise in H as [H|([] & w0 & Hx & H)].
  - exists [], x, order, w. auto.
  - destruct (IH _ H) as (done & c & rest & w1 & -> & Hd & Hc).
    exists (x :: done), c, rest, w1. split; [reflexivity|]. split; [|exact Hc].
    simpl. now rewrite (bind_Ok _ _ _ _ _ Hx).
Qed.

(** An attempt raises what [make] raised, in the state [make] left. *)
Lemma attempt_inv_Raise a c w e w' :
  attempt (plot fs) a c w = (Raise e, w') ->
  make fs c (arg_dirname a) (arg_output_dir a) (arg_prefix a) (arg_type a) w
  = (Raise e, w').
Proof.
  unfold make.
  destruct (make_with (plot fs) c (arg_dirname a) (arg_output_dir a)
              (arg_prefix a) (arg_type a) w) as [[name|e0] w0] eqn:E.
  - rewrite (attempt_of_make_Ok _ _ _ _ _ _ E). discriminate.
  - rewrite (attempt_of_make_Raise _ _ _ _ _ _ E).
    destruct (is_IOError e0); [discriminate|]. now intros [= <- <-].
Qed.

End Aborted.

(** C10, as the code has it.  Once the class statements have run, the
    registry holds exactly the leaf classes: the classes of the module that
    no class of the module derives from.  So an iteration of the registry,
    in whatever order, meets each of the sixteen leaf classes once and no
    class that has a subclass: not the bases [Plot], [DistancePlot] and
    [CMBSpectrumPlot], and not [ShearSpectrumPlot] either.  A run that
    completes has made one attempt for each leaf class, each leaving one
    printed line; a run that ends with an exception, which is then no
    [IOError], has made the attempts of the classes before the one whose
    [make] raised and of no class after it. *)
Theorem registry_is_leaves :
  (forall c, c ∈ registry <-> leaf c)
  /\ ((Plot ∉ registry) /\ (DistancePlot ∉ registry) /\ (CMBSpectrumPlot ∉ registry)
      /\ (ShearSpectrumPlot ∉ registry))
  /\ (forall order,
        iteration_order registry order ->
        NoDup order /\ (forall c, c ∈ order <-> leaf c) /\ length order = 16%nat)
  /\ (forall fs order a w w',
        iteration_order registry order ->
        main fs order a w = (Ok tt, w') ->
        length (stdout w') = (length (stdout w) + 16)%nat)
  /\ (forall fs order a w e w',
        main fs order a w = (Raise e, w') ->
        is_IOError e = false
        /\ exists done c rest w1,
             order = done ++ c :: rest
             /\ main fs done a w = (Ok tt, w1)
             /\ make fs c (arg_dirname a) (arg_output_dir a) (arg_prefix a)
                  (arg_type a) w1 = (Raise e, w')
             /\ length (stdout w') = (length (stdout w) + length done)%nat).
Proof.
  assert (P : forall order, iteration_order registry order ->
            NoDup order /\ (forall c, c ∈ order <-> leaf c) /\ length order = 16%nat).
  { intros order H. unfold iteration_order in H. split; [|split].
    - rewrite H. apply NoDup_elements.
    - intros c. rewrite H, elem_of_elements. apply registry_leaf.
    - rewrite H. vm_compute. reflexivity. }
  split; [exact registry_leaf|]. split; [|split; [exact P|split]].
  - repeat split; intros H; vm_compute in H; (discriminate H || contradiction).
  - intros fs order a w w' Ho H. unfold main, main_with in H.
    apply bind_inv_Ok in H as ([] & w1 & Hd & H).
    apply for_each_attempt_lines in H. injection Hd as <-. simpl in H.
    destruct (P order Ho) as (_ & _ & ->) in H. exact H.
  - intros fs order a w e w' H. unfold main, main_with in H.
    apply bind_inv_Raise in H as [H|([] & w0 & Hd & H)]; [discriminate H|].
    destruct (for_each_attempt_inv_Raise fs a order w0 e w' H)
      as (done & c & rest & w1 & -> & Hdone & Hc).
    split; [exact (attempt_Raise _ _ _ _ _ _ Hc)|].
    exists done, c, rest, w1. split; [reflexivity|].
    apply attempt_inv_Raise in Hc.
    split; [|split; [exact Hc|]].
    + unfold main, main_with. now rewrite (bind_Ok _ _ _ _ _ Hd).
    + destruct (make_Raise_draws_only _ _ _ _ _ _ _ _ _ Hc) as [_ ->].
      rewrite (for_each_attempt_lines fs a done w0 w1 Hdone).
      injection Hd as <-. reflexivity.
Qed.

Lemma registry_is_leaves_witness :
  (NoDup (elements registry)
   /\ (forall c, c ∈ elements registry <-> leaf c)
   /\ length (elements registry) = 16%nat)
  /\ length (stdout (snd (main fs_empty (elements registry) args_run world0)))
     = 16%nat
  /\ exists done c rest,
       elements registry = done ++ c :: rest /\ length done = 6%nat.
Proof.
  destruct registry_is_leaves as (_ & _ & H3 & H4 & H5). split; [|split].
  - apply H3. unfold iteration_order. reflexivity.
  - apply (H4 fs_empty (elements registry) args_run world0).
    + unfold iteration_order. reflexivity.
    + vm_compute. reflexivity.
  - destruct (H5 fs_table (elements registry) args_run world0
                (ValueError "The truth value of an array with more than one element is ambiguous. Use a.any() or a.all()")
                (snd (main fs_table (elements registry) args_run world0)))
      as (_ & done & c & rest & w1 & Ho & Hd & Hm & Hlen).
    + vm_compute. reflexivity.
    + exists done, c, rest. split; [exact Ho|].
      assert (E : length (stdout (snd (main fs_table (elements registry) args_run
                                          world0))) = 6%nat)
        by (vm_compute; reflexivity).
      rewrite E in Hlen. simpl in Hlen. congruence.
Defined.

(** C10 as it was claimed fails twice.  Not every class other than the
    three bases it names is in the registry: [ShearSpectrumPlot] is a
    concrete plot, with a file name and a [plot] of its own that [make]
    carries out, and it is never attempted, because [MatterPower2D] derives
    from it.  And a run that does not complete leaves leaf classes
    unattempted: on the sample with a two-dimensional [matter_cl] table the
    run over the registry ends with a [ValueError] and is the run over its
    first seven classes, [TTPlot] not among them. *)
Lemma concrete_plot_never_attempted :
  ~ (forall c, c ∈ class_statements ->
       c ∉ [Plot; DistancePlot; CMBSpectrumPlot] -> c ∈ registry)
  /\ (getattr own_filename "filename" ShearSpectrumPlot = Ok "shear_power"
      /\ fst (make fs_shear ShearSpectrumPlot "run" "out" "pre" "png" world0)
         = Ok "shear_power"
      /\ (ShearSpectrumPlot ∉ elements registry))
  /\ (main fs_table (elements registry) args_run world0
      = main fs_table (take 7 (elements registry)) args_run world0
      /\ (exists msg,
            fst (main fs_table (elements registry) args_run world0)
            = Raise (ValueError msg))
      /\ TTPlot ∈ elements registry
      /\ (TTPlot ∉ take 7 (elements registry))).
Proof.
  assert (N : ShearSpectrumPlot ∉ registry)
    by (intros H; vm_compute in H; (discriminate H || contradiction)).
  split; [|split].
  - intros H. apply N, H.
    + unfold class_statements. repeat (first [left | right]).
    + intros Hin. repeat (apply elem_of_cons in Hin as [Hin|Hin]; [discriminate Hin|]).
      now apply elem_of_nil in Hin.
  - split; [reflexivity|]. split; [vm_compute; reflexivity|].
    now rewrite elem_of_elements.
  - split; [vm_compute; reflexivity|]. split; [eexists; vm_compute; reflexivity|].
    split.
    + vm_compute. repeat (first [left | right]).
    + vm_compute. intros Hin.
      repeat (apply elem_of_cons in Hin as [Hin|Hin]; [discriminate Hin|]).
      now apply elem_of_nil in Hin.
Qed.

(** ** The triangular layout *)

Section Triangle.

Lemma tri_pairs_S (n : nat) :
  tri_pairs (S n) = tri_pairs n ++ map (fun j => (S n, j)) (seq 1 (S n)).
Proof.
  unfold tri_pairs. rewrite seq_S, flat_map_app.
  change (1 + n)%nat with (S n). cbn [flat_map]. rewrite app_nil_r.
  do 2 f_equal. now rewrite seq_S.
Qed.

Lemma tri_pairs_length2 (n : nat) : (2 * length (tri_pairs n) = n * (n + 1))%nat.
Proof.
  induction n as [|n IH]; [reflexivity|].
  rewrite tri_pairs_S, length_app, length_map, length_seq. lia.
Qed.

Lemma tri_pairs_length (n : nat) : length (tri_pairs n) = (n * (n + 1) / 2)%nat.
Proof.
  rewrite <- tri_pairs_length2, Nat.mul_comm, Nat.div_mul; [reflexivity|lia].
Qed.

Lemma tri_pairs_elem (n i j : nat) :
  (i, j) ∈ tri_pairs n <-> (1 <= j <= i /\ i <= n)%nat.
Proof.
  unfold tri_pairs. rewrite list_elem_of_In, in_flat_map. split.
  - intros (k & Hk & Hj). apply in_seq in Hk. apply in_map_iff in Hj as (j' & [= <- <-] & Hj).
    apply in_seq in Hj. lia.
  - intros H. exists i. split; [apply in_seq; lia|].
    apply in_map_iff. exists j. split; [reflexivity|apply in_seq; lia].
Qed.

Lemma tri_pairs_NoDup (n : nat) : NoDup (tri_pairs n).
Proof.
  induction n as [|n IH]; [constructor|].
  rewrite tri_pairs_S. apply NoDup_app. split; [assumption|]. split.
  - intros [i j] Hin Hin'. apply tri_pairs_elem in Hin.
    apply list_elem_of_In, in_map_iff in Hin' as (j' & [= <- <-] & _). lia.
  - apply NoDup_fmap_2; [intros j1 j2 [= ->]; reflexivity|apply NoDup_seq].
Qed.

End Triangle.

Section Panels.

Lemma bind_assoc {A B C} (c : M A) (f : A -> M B) (k : B -> M C) w :
  bind (bind c f) k w = bind c (fun x => bind (f x) k) w.
Proof. unfold bind. now destruct (c w) as [[a|e] w1]. Qed.

Lemma bind_lift_Ok {A B} (a : A) (k : A -> M B) w :
  bind (lift (Ok a)) k w = k a w.
Proof. reflexivity. Qed.

Lemma add_axes_drawing n r l w :
  drawing_on n l w ->
  exists w', Pylab.add_axes n r w = (Ok tt, w')
             /\ drawing_on n ({| ax_rect := Some r; ax_artists := [] |} :: l) w'.
Proof.
  intros [Hc Hl]. eexists. split; [reflexivity|].
  split; simpl; [assumption|].
  unfold Pylab.get_figure. simpl. rewrite lookup_insert_eq. simpl.
  now rewrite <- Hl.
Qed.

Lemma draw_drawing n a ax l w :
  drawing_on n (ax :: l) w ->
  exists w', Pylab.draw a w = (Ok tt, w')
             /\ drawing_on n ({| ax_rect := ax_rect ax;
                                 ax_artists := ax_artists ax ++ [a] |} :: l) w'.
Proof.
  intros [Hc Hl]. unfold Pylab.draw, bind, Pylab.gcf. rewrite Hc, Hl.
  eexists. split; [reflexivity|].
  split; simpl; [assumption|].
  unfold Pylab.get_figure. simpl. now rewrite lookup_insert_eq.
Qed.

(** On one-dimensional arrays of one length the operators do not fail. *)
Lemma broadcast_same_length f (xs ys : list spec_float) :
  length xs = length ys ->
  exists zs, NpOps.broadcast f (Arr1 xs) (Arr1 ys) = Ok (Arr1 zs)
             /\ length zs = length xs.
Proof.
  intros H. unfold NpOps.broadcast. simpl. rewrite <- H.
  unfold NpOps.bdim. simpl. rewrite Nat.eqb_refl. simpl.
  eexists. split; [reflexivity|]. now rewrite length_map, length_seq.
Qed.

Lemma shear_scaled_Ok (ell cl : list spec_float) :
  length cl = length ell ->
  exists y, shear_scaled (Arr1 ell) (Arr1 cl) = Ok y.
Proof.
  intros H. unfold shear_scaled. simpl NpOps.map1.
  destruct (broadcast_same_length F64.mul ell
              (map (fun x => F64.add x (Py.lit "1.")) ell)) as (a & -> & Ha);
    [now rewrite length_map|].
  simpl rbind.
  destruct (broadcast_same_length F64.mul a cl) as (b & -> & Hb); [congruence|].
  simpl. eauto.
Qed.

Lemma sign_flip_Arr1 (cl : list spec_float) :
  exists cl', ShearSpectrum_sign_flip (Arr1 cl) = Ok (Arr1 cl')
              /\ length cl' = length cl.
Proof.
  unfold ShearSpectrum_sign_flip. simpl.
  destruct (forallb _ cl); eexists; (split; [reflexivity|]);
    [apply length_map|reflexivity].
Qed.

Lemma amin_Ok (ell : list spec_float) :
  ell <> [] -> exists m, NpOps.amin (Arr1 ell) = Ok m.
Proof. destruct ell; [congruence|]. simpl. eauto. Qed.

Lemma ylim_Ok (c : cls) :
  c = ShearSpectrumPlot \/ c = MatterPower2D ->
  exists ylim, getattr own_ylim "ylim" c = Ok ylim.
Proof. intros [->| ->]; eexists; reflexivity. Qed.

End Panels.

(** One drawing call on the current axes. *)
Ltac draw_step :=
  rewrite ?bind_assoc;
  match goal with
  | D : drawing_on ?n (?ax :: ?l) ?w |- context [bind (Pylab.draw ?a) _ ?w] =>
      let w' := fresh "w" in
      let E := fresh "E" in
      let D' := fresh "D" in
      destruct (draw_drawing n a ax l w D) as (w' & E & D');
      rewrite (bind_Ok _ _ _ _ _ E); clear E D
  end.

Ltac settle_members :=
  repeat match goal with
         | |- _ /\ _ => split
         | |- exists _, _ => eexists
         | |- _ ∈ _ => cbn [app]; repeat (first [left | right])
         | |- forall _, _ ∈ _ -> _ =>
             let a := fresh "a" in
             let H := fresh "H" in
             intros a H; cbn [app] in H;
             repeat (apply elem_of_cons in H as [->|H]; [reflexivity|]);
             now apply elem_of_nil in H
         end.

Section PanelSpec.

Variable fs : FS.

Lemma shear_panel_spec self section nbin ell i j l w :
  drawing_on (self_figure self) l w ->
  (self_class self = ShearSpectrumPlot \/ self_class self = MatterPower2D) ->
  ell <> [] ->
  (exists cl, load_file fs self section (bin_name i j) = Ok (Arr1 cl)
              /\ length cl = length ell) ->
  exists w' ax,
    shear_panel fs self section nbin (Arr1 ell) i j w = (Ok tt, w')
    /\ drawing_on (self_figure self) (ax :: l) w'
    /\ panel_of nbin ax (i, j).
Proof.
  intros D Hc He (cl & Hcl & Hlen).
  destruct (sign_flip_Arr1 cl) as (cl' & Hflip & Hlen').
  destruct (shear_scaled_Ok ell cl') as (y & Hy); [congruence|].
  destruct (ylim_Ok _ Hc) as (ylim & Hylim).
  destruct (amin_Ok ell He) as (m & Hm).
  unfold shear_panel, panel_of, panel_tick_params. cbn [fst snd].
  destruct (add_axes_drawing _ (panel_rect nbin i j) _ _ D) as (w1 & E1 & D1).
  rewrite (bind_Ok _ _ _ _ _ E1). clear E1 D.
  rewrite Hcl, bind_lift_Ok, Hflip, bind_lift_Ok, Hy, bind_lift_Ok.
  draw_step. rewrite Hylim, bind_lift_Ok. draw_step.
  destruct ((i =? 1)%nat && (j =? 1)%nat);
    destruct (String.eqb section "shear_cl");
    repeat draw_step; rewrite ?Hm, ?bind_lift_Ok; repeat draw_step.
  all: match goal with
       | D : drawing_on ?n (?ax :: ?l) ?w |- context [Pylab.draw ?a ?w] =>
           destruct (draw_drawing n a ax l w D) as (w' & E & D');
           exists w'; eexists; split; [exact E|]; split; [exact D'|]
       | D : drawing_on ?n (?ax :: ?l) ?w |- context [ret tt ?w] =>
           exists w; eexists; split; [reflexivity|]; split; [exact D|]
       end.
  all: cbn [ax_rect ax_artists]; split; [reflexivity|].
  all: unfold labelled, unlabelled; cbn [ax_artists]; settle_members.
Qed.

End PanelSpec.

Section Layout.

Variable fs : FS.

(** A loop whose every round pushes axes on the current figure pushes the
    axes of all its rounds, in order. *)
Lemma for_each_collect {A} (n : nat) (body : A -> M unit)
    (Q : A -> list axes -> Prop) (todo : list A) :
  (forall x l w, x ∈ todo -> drawing_on n l w ->
     exists w' new, body x w = (Ok tt, w')
                    /\ drawing_on n (rev new ++ l) w' /\ Q x new) ->
  forall l w, drawing_on n l w ->
    exists w' news, for_each todo body w = (Ok tt, w')
                    /\ drawing_on n (rev (concat news) ++ l) w'
                    /\ Forall2 Q todo news.
Proof.
  induction todo as [|x todo IH]; intros Hb l w D.
  - exists w, []. split; [reflexivity|]. split; [exact D|constructor].
  - destruct (Hb x l w ltac:(now left) D) as (w1 & new & E & D1 & HQ).
    destruct (IH (fun y l0 w0 Hy => Hb y l0 w0 ltac:(now right)) _ _ D1)
      as (w2 & news & E2 & D2 & HF).
    exists w2, (new :: news). split; [|split].
    + simpl. now rewrite (bind_Ok _ _ _ _ _ E).
    + simpl. now rewrite rev_app_distr, <- app_assoc.
    + now constructor.
Qed.

Lemma Forall2_concat_flat_map {A B C} (P : B -> C -> Prop) (f : A -> list C)
    (l : list A) (bss : list (list B)) :
  Forall2 (fun x bs => Forall2 P bs (f x)) l bss ->
  Forall2 P (concat bss) (flat_map f l).
Proof.
  induction 1 as [|x bs l bss H _ IH]; simpl; [constructor|].
  now apply Forall2_app.
Qed.

Lemma plot_section_panels self section :
  ShearSpectrumPlot_plot_section fs self section
  = (let nbin := detect_nbin fs self section in
     do ell <- lift (load_file fs self section "ell");
     for_each (seq 1 nbin) (fun i =>
       for_each (seq 1 i) (fun j => shear_panel fs self section nbin ell i j))).
Proof. reflexivity. Qed.

End Layout.

(** * Further properties of the code *)

(** ** Counting the tomographic bins *)

Section CountBins.

Lemma count_bins_spec (present : nat -> bool) (len s acc : nat) :
  exists m,
    count_bins present (seq s len) acc = (acc + m)%nat
    /\ (m <= len)%nat
    /\ (forall k, (s <= k < s + m)%nat -> present k = true)
    /\ ((m < len)%nat -> present (s + m)%nat = false).
Proof.
  revert s acc. induction len as [|len IH]; intros s acc.
  - exists 0%nat. simpl.
    split; [lia|]. split; [lia|]. split; [intros k Hk; lia|intros H; lia].
  - simpl. destruct (present s) eqn:Hs.
    + destruct (IH (S s) (S acc)) as (m & E & Hm & Hall & Hstop).
      exists (S m). rewrite E.
      split; [lia|]. split; [lia|]. split.
      * intros k Hk. destruct (Nat.eq_dec k s) as [->|Hne]; [assumption|].
        apply Hall. lia.
      * intros Hlt. replace (s + S m)%nat with (S s + m)%nat by lia.
        apply Hstop. lia.
    + exists 0%nat.
      split; [lia|]. split; [lia|]. split; [intros k Hk; lia|].
      intros _. now rewrite Nat.add_0_r.
Qed.

End CountBins.

(** X1. The bin count of a section is the length of the unbroken run of
    diagonal tables [bin_1_1, bin_2_2, ...] that exist: it is at most 99,
    every diagonal table up to it exists, and the next one does not exist
    unless the count stopped at 99. *)
Theorem detect_nbin_run fs self section :
  (detect_nbin fs self section <= 99)%nat
  /\ (forall k, (1 <= k <= detect_nbin fs self section)%nat ->
        path_exists fs (file_path self section (bin_name k k)) = true)
  /\ ((detect_nbin fs self section < 99)%nat ->
      path_exists fs
        (file_path self section
           (bin_name (S (detect_nbin fs self section))
                     (S (detect_nbin fs self section)))) = false).
Proof.
  unfold detect_nbin.
  destruct (count_bins_spec
              (fun i => path_exists fs (file_path self section (bin_name i i)))
              99 1 0) as (m & -> & Hm & Hall & Hstop).
  simpl Nat.add. split; [exact Hm|]. split.
  - intros k Hk. apply Hall. lia.
  - intros Hlt. apply (Hstop Hlt).
Qed.

Lemma detect_nbin_run_witness :
  path_exists fs_shear (file_path self_shear "shear_cl" (bin_name 2 2)) = true
  /\ path_exists fs_shear (file_path self_shear "shear_cl" (bin_name 3 3)) = false.
Proof.
  destruct (detect_nbin_run fs_shear self_shear "shear_cl") as (_ & H2 & H3).
  split.
  - apply H2. vm_compute. split; apply Nat.leb_le; reflexivity.
  - apply H3. vm_compute. apply Nat.leb_le. reflexivity.
Defined.

(** ** The keys of [values.txt] *)

Section Keys.

Lemma lstrip_head (s : string) :
  Str.lstrip s = EmptyString
  \/ exists c t, Str.lstrip s = String c t /\ Str.is_space c = false.
Proof.
  induction s as [|c s IH]; [now left|]. simpl.
  destruct (Str.is_space c) eqn:E; [exact IH|right; eauto].
Qed.

Lemma rstrip_cons (c : ascii) (t : string) :
  Str.is_space c = false -> Str.rstrip (String c t) = String c (Str.rstrip t).
Proof. intros H. simpl. rewrite H. now destruct (Str.rstrip t). Qed.

Lemma rstrip_idem (s : string) : Str.rstrip (Str.rstrip s) = Str.rstrip s.
Proof.
  induction s as [|c s IH]; [reflexivity|]. simpl.
  destruct (Str.rstrip s) as [|d t] eqn:E.
  - destruct (Str.is_space c) eqn:Hc; [reflexivity|]. simpl. now rewrite Hc.
  - change (Str.rstrip (String c (String d t))) with
      (match Str.rstrip (String d t) with
       | EmptyString => if Str.is_space c then EmptyString else String c EmptyString
       | t' => String c t'
       end).
    now rewrite IH.
Qed.

Lemma strip_idem (s : string) : Str.strip (Str.strip s) = Str.strip s.
Proof.
  unfold Str.strip. destruct (lstrip_head s) as [->|(c & t & -> & Hc)];
    [reflexivity|].
  rewrite (rstrip_cons c t Hc). simpl Str.lstrip. rewrite Hc.
  rewrite <- (rstrip_cons c t Hc). apply rstrip_idem.
Qed.

Lemma load_values_lines_clean_keys (lines : list string) :
  forall values out,
    clean_keys values -> load_values_lines lines values = Ok out -> clean_keys out.
Proof.
  induction lines as [|line lines IH]; simpl; intros values out Hv H.
  - now injection H as <-.
  - destruct (String.eqb (Str.strip line) ""); [now apply (IH values)|].
    destruct (Str.split "=" (Str.strip line)) as [|a [|b [|? ?]]] eqn:S;
      try discriminate.
    apply (IH _ _) in H; [assumption|].
    intros key Hk. apply lookup_insert_is_Some in Hk as [<-|[_ Hk]].
    + split; [apply strip_idem|].
      rewrite count_strip by reflexivity. now apply count_split_two in S.
    + now apply Hv.
Qed.

Lemma load_values_lines_blank (lines : list string) (values : gmap string pyval) :
  (forall line, line ∈ lines -> Str.strip line = EmptyString) ->
  load_values_lines lines values = Ok values.
Proof.
  induction lines as [|line lines IH]; intros H; [reflexivity|].
  simpl. rewrite (H line) by now left. simpl. apply IH.
  intros l Hl. apply H. now right.
Qed.

End Keys.

(** X2. Every key of a mapping returned by [load_values] is stripped of
    surrounding whitespace and holds no [=]. *)
Theorem load_values_clean_keys fs self section values :
  load_values fs self section = Ok values -> clean_keys values.
Proof.
  unfold load_values. destruct (open_read fs _) as [text|e]; simpl; [|discriminate].
  apply load_values_lines_clean_keys. intros key [v Hk].
  now rewrite lookup_empty in Hk.
Qed.

Lemma load_values_clean_keys_witness :
  clean_keys {[ "H0" := PyFloat f64_70; "omega_m" := PyFloat f64_0_3 ]}.
Proof.
  apply (load_values_clean_keys fs_H0 self_run "cosmo"). vm_compute. reflexivity.
Defined.

(** X3. A [values.txt] that exists and holds only blank lines, or nothing,
    gives the empty mapping. *)
Theorem load_values_blank fs self section text :
  files fs !! values_path self section = Some text ->
  (forall line, line ∈ Str.readlines text -> Str.strip line = EmptyString) ->
  load_values fs self section = Ok ∅.
Proof.
  intros Hf Hb. unfold load_values, open_read. fold (values_path self section).
  rewrite Hf. simpl. now apply load_values_lines_blank.
Qed.

Lemma load_values_blank_witness :
  load_values fs_blank self_run "cosmo" = Ok ∅.
Proof.
  apply (load_values_blank fs_blank self_run "cosmo" (nl +:+ "   " +:+ nl +:+ " ")).
  - reflexivity.
  - intros line Hin. vm_compute in Hin.
    apply list_elem_of_In in Hin. simpl in Hin.
    destruct Hin as [<-|[<-|[<-|[]]]]; reflexivity.
Defined.

(** ** The curve of the matter power spectrum *)

Section FirstRow.

Lemma draw_on_figure n a l w :
  drawing_on n l w ->
  exists w', Pylab.draw a w = (Ok tt, w')
             /\ drawing_on n (axes_after_draw a l) w'.
Proof.
  intros [Hc Hl]. unfold Pylab.draw, bind, Pylab.gcf. rewrite Hc, Hl.
  destruct l as [|ax l]; (eexists; split; [reflexivity|]);
    (split; simpl; [assumption|]);
    unfold Pylab.get_figure; simpl; now rewrite lookup_insert_eq.
Qed.

Lemma heads_of_transposed (r : list spec_float) :
  forall rows,
    map (hd S754_nan) (NpOps.transpose_rows (length r) (r :: rows)) = r.
Proof.
  induction r as [|x r IH]; intros rows; [reflexivity|].
  simpl. f_equal. apply IH.
Qed.

(** The first column of the transposed table is the first row of the table. *)
Lemma column0_transpose (r : list spec_float) (rows : list (list spec_float)) :
  r <> [] ->
  NpOps.column0 (NpOps.transpose (Arr2 (r :: rows))) = Ok (Arr1 r).
Proof.
  intros Hr. destruct r as [|x r]; [congruence|].
  unfold NpOps.transpose, NpOps.column0, NpOps.shape2.
  cbn [snd hd length NpOps.transpose_rows map Nat.eqb].
  f_equal. f_equal. f_equal. apply (heads_of_transposed r).
Qed.

End FirstRow.

(** X4. When the power table has one row for every redshift and one column
    for every wave number, [MatterPowerPlot.plot_section] draws against
    [k_h] the first row of the table after the sign rule: the spectrum at
    the first redshift. *)
Theorem matter_power_draws_first_row
    fs self section label p_name kh z p r rows l w :
  load_file fs self section "k_h" = Ok kh ->
  load_file fs self section "z" = Ok z ->
  load_file fs self section p_name = Ok p ->
  NpOps.to2d (MatterPower_sign_flip p) = r :: rows ->
  r <> [] ->
  NpOps.len (NpOps.atleast_1d kh) = Ok (length r) ->
  NpOps.len (NpOps.atleast_1d z) = Ok (S (length rows)) ->
  drawing_on (self_figure self) l w ->
  exists w',
    MatterPowerPlot_plot_section fs self section label p_name w = (Ok tt, w')
    /\ drawing_on (self_figure self)
         (axes_after_draw (Line LogLog (NpOps.atleast_1d kh) (Arr1 r) (Some label)) l)
         w'.
Proof.
  intros Hk Hz Hp H2d Hr Hnk Hnz D.
  unfold MatterPowerPlot_plot_section.
  rewrite Hk, bind_lift_Ok, Hz, bind_lift_Ok, Hp, bind_lift_Ok. cbv zeta.
  rewrite Hnk, bind_lift_Ok, Hnz, bind_lift_Ok.
  assert (Hs : NpOps.shape2 (NpOps.to2d (NpOps.atleast_2d (MatterPower_sign_flip p)))
               = (S (length rows), length r))
    by (unfold NpOps.atleast_2d; cbn [NpOps.to2d]; now rewrite H2d).
  rewrite (bool_decide_eq_true_2 _ Hs).
  unfold NpOps.atleast_2d. rewrite H2d, (column0_transpose r rows Hr), bind_lift_Ok.
  apply draw_on_figure, D.
Qed.

Lemma matter_power_draws_first_row_witness :
  exists w',
    MatterPowerPlot_plot_section fs_power self_power "matter_power_lin" "Linear" "p_k"
      world1 = (Ok tt, w')
    /\ drawing_on 1
         [ {| ax_rect := None;
              ax_artists :=
                [ Line LogLog
                    (Arr1 [Py.lit "0.1"; Py.lit "0.2"; Py.lit "0.3"])
                    (Arr1 [F64.of_Z 10; F64.of_Z 20; F64.of_Z 30])
                    (Some "Linear") ] |} ]
         w'.
Proof.
  apply (matter_power_draws_first_row fs_power self_power "matter_power_lin"
           "Linear" "p_k"
           (Arr1 [Py.lit "0.1"; Py.lit "0.2"; Py.lit "0.3"])
           (Arr1 [F64.of_Z 0; F64.of_Z 1])
           (Arr2 [[F64.of_Z (-10); F64.of_Z (-20); F64.of_Z (-30)];
                  [F64.of_Z (-1); F64.of_Z (-2); F64.of_Z (-3)]])
           [F64.of_Z 10; F64.of_Z 20; F64.of_Z 30]
           [[F64.of_Z 1; F64.of_Z 2; F64.of_Z 3]] [] world1).
  - vm_compute. reflexivity.
  - vm_compute. reflexivity.
  - vm_compute. reflexivity.
  - vm_compute. reflexivity.
  - discriminate.
  - reflexivity.
  - reflexivity.
  - split; reflexivity.
Defined.

(** ** Plots skipped for want of a table *)

Section Skipped.

Variable fs : FS.

Lemma bind_modify {B} (f : world -> world) (k : unit -> M B) w :
  bind (modify f) k w = k tt (f w).
Proof. reflexivity. Qed.

Lemma load_file_fails self section name :
  is_Ok (Np.loadtxt fs (table_path (self_dirname self) section name)) = false ->
  load_file fs self section name
  = Raise (IOError (not_making_plot (self_class self))).
Proof.
  intros H.
  destruct (Np.loadtxt fs (table_path (self_dirname self) section name))
    as [a|e] eqn:E; [discriminate H|].
  exact (load_file_Raise fs self section name e E).
Qed.

(** A load either hands its table on or raises the [IOError] of the
    class. *)
Lemma load_then {B} self section name (k : ndarray -> M B) w :
  (forall a, k a w = (Raise (IOError (not_making_plot (self_class self))), w)) ->
  bind (lift (load_file fs self section name)) k w
  = (Raise (IOError (not_making_plot (self_class self))), w).
Proof.
  intros H. unfold bind, lift, load_file.
  destruct (Np.loadtxt fs _); [apply H|reflexivity].
Qed.

Lemma load_fail {B} self section name (k : ndarray -> M B) w :
  load_file fs self section name
  = Raise (IOError (not_making_plot (self_class self))) ->
  bind (lift (load_file fs self section name)) k w
  = (Raise (IOError (not_making_plot (self_class self))), w).
Proof. intros H. unfold bind, lift. now rewrite H. Qed.

End Skipped.

(** Resolve [p.plot()] for an object of a known class. *)
Ltac dispatch_plot :=
  unfold plot;
  cbv beta iota zeta
      delta [self_class getattr mro mro_from bases flat_map app omap list_omap
             own_plot];
  rewrite bind_lift_Ok.

(** Open the [plot] method of a known class up to its first load. *)
Ltac open_method :=
  cbv beta iota zeta
      delta [DistancePlot_plot CMBSpectrumPlot_plot BBPlot_plot GrandPlot_plot
             ShearSpectrumPlot_plot ShearSpectrumPlot_plot_section
             MatterPower2D_plot ShearCorrelationPlusPlot_plot
             ShearCorrelationMinusPlot_plot ShearCorrelation_plot
             GrowthPlot_plot LuminositySlopePlot_plot Plot_plot
             Pylab.figure_num self_class self_figure for_each
             getattr mro mro_from bases flat_map app omap list_omap
             own_distance own_name];
  rewrite ?bind_assoc, bind_modify.

Section FirstTables.

Variable fs : FS.

(** A table of [first_tables] that fails to load makes [p.plot()] raise
    the [IOError] of the class, with nothing done but selecting the
    figure of the object. *)
Lemma plot_first_table self section name w :
  (section, name) ∈ first_tables (self_class self) ->
  load_file fs self section name
  = Raise (IOError (not_making_plot (self_class self))) ->
  plot fs self w
  = (Raise (IOError (not_making_plot (self_class self))),
     snd (Pylab.figure_num (self_figure self) w)).
Proof.
  intros Hin Hl. destruct self as [c n out dir q]. cbn [self_class self_figure] in *.
  destruct c; cbn [first_tables] in Hin;
    repeat (apply elem_of_cons in Hin as [Hin|Hin]; [injection Hin as -> ->|]);
    try (now apply elem_of_nil in Hin).
  all: dispatch_plot; open_method.
  all: repeat first [ exact (load_fail fs _ _ _ _ _ Hl)
                    | apply (load_then fs); intros ?
                    | rewrite bind_lift_Ok
                    | rewrite bind_assoc ].
Qed.

Lemma first_tables_filename c :
  first_tables c <> [] -> exists name, getattr own_filename "filename" c = Ok name.
Proof. destruct c; intros H; try (now contradiction H); eexists; reflexivity. Qed.

Lemma Plot_init_new c dirname outdir prefix suffix quiet name w :
  getattr own_filename "filename" c = Ok name ->
  exists p,
    Plot_init c dirname outdir prefix suffix quiet None w
    = (Ok p, snd (Pylab.figure_new w))
    /\ self_class p = c /\ self_dirname p = dirname
    /\ self_figure p = Pylab.next_num (pylab w).
Proof.
  intros H. unfold Plot_init, bind, lift. rewrite H.
  eexists. split; [reflexivity|]. now split.
Qed.

(** The new figure is already the current one when [Plot.plot] selects
    it. *)
Lemma figure_num_after_new w :
  snd (Pylab.figure_num (Pylab.next_num (pylab w)) (snd (Pylab.figure_new w)))
  = snd (Pylab.figure_new w).
Proof.
  unfold Pylab.figure_num, Pylab.figure_new, modify, Pylab.set_pylab.
  cbn [snd pylab figs cur outputs stdout made_dirs].
  now rewrite lookup_insert_eq.
Qed.

End FirstTables.

(** X5. A plot is skipped for want of a table: when one of the tables the
    [plot] method of a class loads before its first drawing call cannot
    be loaded, [make] raises the [IOError] "Not making plot: <class name
    without Plot> (no data in this sample)", which the driver catches.
    The state is then the one [Plot.__init__] left by opening the figure
    of the object: nothing is drawn, written or printed, and the empty
    figure stays open. *)
Theorem missing_table_skips fs c dirname outdir prefix suffix section name w :
  (section, name) ∈ first_tables c ->
  is_Ok (Np.loadtxt fs (table_path dirname section name)) = false ->
  make fs c dirname outdir prefix suffix w
  = (Raise (IOError (not_making_plot c)), snd (Pylab.figure_new w)).
Proof.
  intros Hin Hl.
  destruct (first_tables_filename c) as (fname & Hf);
    [intros E; rewrite E in Hin; now apply elem_of_nil in Hin|].
  destruct (Plot_init_new c dirname outdir prefix suffix false fname w Hf)
    as (p & Hi & Hc & Hd & Hn).
  unfold make, make_with. rewrite (bind_Ok _ _ _ _ _ Hi).
  apply bind_Raise.
  rewrite (plot_first_table fs p section name).
  - now rewrite Hc, Hn, figure_num_after_new.
  - now rewrite Hc.
  - apply load_file_fails. now rewrite Hd.
Qed.

Lemma missing_table_skips_witness :
  make fs_garbled TTPlot "run" "out" "pre" "png" world0
  = (Raise (IOError "Not making plot: TT (no data in this sample)"),
     snd (Pylab.figure_new world0)).
Proof.
  apply (missing_table_skips fs_garbled TTPlot "run" "out" "pre" "png"
           "cmb_cl" "tt").
  - right. left.
  - vm_compute. reflexivity.
Defined.

(** ** The images of a run *)

Section Images.

Lemma append_cancel_r (s1 s2 t : string) : s1 +:+ t = s2 +:+ t -> s1 = s2.
Proof.
  revert s2. induction s1 as [|c s1 IH]; intros [|d s2] H.
  - reflexivity.
  - apply (f_equal String.length) in H.
    change (String d s2 +:+ t) with (String d (s2 +:+ t)) in H.
    simpl in H. rewrite !length_append in H. simpl in H. lia.
  - apply (f_equal String.length) in H.
    change (String c s1 +:+ t) with (String c (s1 +:+ t)) in H.
    simpl in H. rewrite !length_append in H. simpl in H. lia.
  - change (String c (s1 +:+ t) = String d (s2 +:+ t)) in H.
    injection H as -> H. f_equal. now apply IH.
Qed.

Lemma append_cancel_l (s t1 t2 : string) : s +:+ t1 = s +:+ t2 -> t1 = t2.
Proof.
  induction s as [|c s IH]; intros H; [exact H|].
  change (String c (s +:+ t1) = String c (s +:+ t2)) in H.
  injection H as H. now apply IH.
Qed.

(** The image path determines the base file name. *)
Lemma output_path_inj (outdir prefix suffix name1 name2 : string) :
  output_path outdir prefix name1 suffix = output_path outdir prefix name2 suffix ->
  name1 = name2.
Proof.
  unfold output_path. destruct (String.eqb prefix ""); intros H.
  - do 2 apply append_cancel_l in H. now apply append_cancel_r in H.
  - do 4 apply append_cancel_l in H. now apply append_cancel_r in H.
Qed.

Variable fs : FS.

Lemma attempt_outputs a c w path :
  (forall name, getattr own_filename "filename" c = Ok name ->
     path <> output_path (arg_output_dir a) (arg_prefix a) name (arg_type a)) ->
  outputs (snd (attempt (plot fs) a c w)) !! path = outputs w !! path.
Proof.
  intros Hp.
  destruct (make_with (plot fs) c (arg_dirname a) (arg_output_dir a)
              (arg_prefix a) (arg_type a) w) as [[name|e] w1] eqn:E.
  - rewrite (attempt_of_make_Ok _ _ _ _ _ _ E). simpl.
    apply make_with_Ok in E as (p & w2 & w3 & Hi & Hpl & Hs & Hn).
    destruct (Plot_init_Ok _ _ _ _ _ _ _ _ _ _ Hi) as (nm & Hn' & _ & _ & _ & Ho).
    assert (nm = name) as -> by congruence.
    destruct (save_spec p w3) as (w4 & fig & Hs' & Hout & _).
    assert (w4 = w1) as -> by congruence.
    rewrite Hout, Ho, lookup_insert_ne by (intros Heq; now apply (Hp name Hn)).
    destruct (draws_only_Plot_init c (arg_dirname a) (arg_output_dir a)
                (arg_prefix a) (arg_type a) false None w) as (H1 & _).
    rewrite Hi in H1. simpl in H1.
    destruct (draws_only_plot fs p w2) as (H2 & _). rewrite Hpl in H2. simpl in H2.
    now rewrite H2, H1.
  - rewrite (attempt_of_make_Raise _ _ _ _ _ _ E).
    destruct (make_Raise_draws_only fs _ _ _ _ _ _ _ _ E) as [Ho _].
    destruct (is_IOError e); simpl; now rewrite Ho.
Qed.

Lemma for_each_attempt_outputs a (order : list cls) path :
  (forall c name, c ∈ order -> getattr own_filename "filename" c = Ok name ->
     path <> output_path (arg_output_dir a) (arg_prefix a) name (arg_type a)) ->
  forall w,
    outputs (snd (for_each order (attempt (plot fs) a) w)) !! path
    = outputs w !! path.
Proof.
  induction order as [|c order IH]; intros Hp w; [reflexivity|].
  simpl. unfold bind.
  pose proof (attempt_outputs a c w path
                (fun name => Hp c name ltac:(now left))) as Hc.
  destruct (attempt (plot fs) a c w) as [[[]|e] w1]; simpl in Hc.
  - rewrite IH; [exact Hc|]. intros d name Hd. apply Hp. now right.
  - exact Hc.
Qed.

End Images.

(** X6. A run of the driver leaves every path alone that is not the image
    path of one of the classes it iterates over, whether it completes or
    not.  In particular no iteration of the registry ever writes the image
    of [ShearSpectrumPlot], [shear_power]: that class is a base of
    [MatterPower2D] and is no longer registered. *)
Theorem main_writes_only_images fs a :
  (forall order w path,
     (forall c name, c ∈ order -> getattr own_filename "filename" c = Ok name ->
        path <> output_path (arg_output_dir a) (arg_prefix a) name (arg_type a)) ->
     outputs (snd (main fs order a w)) !! path = outputs w !! path)
  /\ (forall order w,
        iteration_order registry order ->
        outputs (snd (main fs order a w))
          !! output_path (arg_output_dir a) (arg_prefix a) "shear_power" (arg_type a)
        = outputs w
          !! output_path (arg_output_dir a) (arg_prefix a) "shear_power" (arg_type a)).
Proof.
  assert (H1 : forall order w path,
     (forall c name, c ∈ order -> getattr own_filename "filename" c = Ok name ->
        path <> output_path (arg_output_dir a) (arg_prefix a) name (arg_type a)) ->
     outputs (snd (main fs order a w)) !! path = outputs w !! path).
  { intros order w path Hp. unfold main, main_with, bind, utils_mkdir, modify.
    now rewrite for_each_attempt_outputs. }
  split; [exact H1|].
  intros order w Ho. apply H1. intros c name Hc Hn Heq.
  apply output_path_inj in Heq. subst name.
  unfold iteration_order in Ho. rewrite Ho in Hc.
  apply elem_of_elements in Hc.
  destruct c; vm_compute in Hn; try discriminate Hn.
  apply registry_leaf in Hc as [_ Hc].
  apply (Hc MatterPower2D); [unfold class_statements; do 15 right|]; left.
Qed.

Lemma main_writes_only_images_witness :
  outputs (snd (main fs_distances (elements registry) args_run world0))
    !! "out/pre_shear_power.png" = None
  /\ outputs (snd (main fs_distances [AngularDiameterDistancePlot] args_run world0))
       !! "out/pre_tt.png" = None.
Proof.
  destruct (main_writes_only_images fs_distances args_run) as [H1 H2]. split.
  - apply (H2 (elements registry) world0). unfold iteration_order. reflexivity.
  - apply (H1 [AngularDiameterDistancePlot] world0 "out/pre_tt.png").
    intros c name Hc Hn. apply elem_of_cons in Hc as [->|Hc];
      [|now apply elem_of_nil in Hc].
    vm_compute in Hn. injection Hn as <-. discriminate.
Defined.

(** X7. Two different registered classes never share an image path: within
    one run no plot overwrites the image of another. *)
Theorem registered_images_distinct c d name_c name_d outdir prefix suffix :
  c ∈ registry -> d ∈ registry -> c <> d ->
  getattr own_filename "filename" c = Ok name_c ->
  getattr own_filename "filename" d = Ok name_d ->
  output_path outdir prefix name_c suffix <> output_path outdir prefix name_d suffix.
Proof.
  intros Hc Hd Hne Hnc Hnd Heq. apply output_path_inj in Heq. subst name_d.
  apply elem_of_elements in Hc, Hd.
  assert (E : elements registry
              = [MatterPowerPlot; ShearCorrelationMinusPlot; EEPlot; HubblePlot;
                 LuminositySlopePlot; BBPlot; MatterPower2D; LuminosityDistancePlot;
                 GrandPlot; ShearCorrelationPlusPlot; TTPlot; ComovingDistancePlot;
                 GrowthPlot; TEPlot; DistanceModulusPlot;
                 AngularDiameterDistancePlot]) by (vm_compute; reflexivity).
  rewrite E in Hc, Hd.
  repeat (apply elem_of_cons in Hc as [->|Hc]);
    try (now apply elem_of_nil in Hc);
    vm_compute in Hnc; injection Hnc as <-;
    repeat (apply elem_of_cons in Hd as [->|Hd]);
    try (now apply elem_of_nil in Hd);
    try (now apply Hne);
    vm_compute in Hnd; discriminate Hnd.
Qed.

Lemma registered_images_distinct_witness :
  output_path "out" "pre" "tt" "png" <> output_path "out" "pre" "ee" "png".
Proof.
  apply (registered_images_distinct TTPlot EEPlot).
  - apply registry_leaf. split; [unfold class_statements; do 8 right; left|].
    intros d Hd. unfold class_statements in Hd.
    repeat (apply elem_of_cons in Hd as [->|Hd]);
      try (now apply elem_of_nil in Hd);
      intros Hb; repeat (apply elem_of_cons in Hb as [Hb|Hb]; [discriminate Hb|]);
      now apply elem_of_nil in Hb.
  - apply registry_leaf. split; [unfold class_statements; do 9 right; left|].
    intros d Hd. unfold class_statements in Hd.
    repeat (apply elem_of_cons in Hd as [->|Hd]);
      try (now apply elem_of_nil in Hd);
      intros Hb; repeat (apply elem_of_cons in Hb as [Hb|Hb]; [discriminate Hb|]);
      now apply elem_of_nil in Hb.
  - discriminate.
  - reflexivity.
  - reflexivity.
Defined.

(** ** The matter power plot without data *)

(** X8. When none of the five power-spectrum sections has all three of
    [k_h.txt], [z.txt] and [p_k.txt], [MatterPowerPlot.plot] draws nothing
    and raises the [IOError] "Not making plot", so that the driver skips
    it; a figure left without axes stays without axes. *)
Theorem matter_power_without_sections fs self w :
  (forall name, name ∈ power_sections -> power_files_exist fs self name = false) ->
  exists w',
    MatterPowerPlot_plot fs self w
    = (Raise (IOError (not_making_plot (self_class self))), w')
    /\ Pylab.get_figure (pylab w') (self_figure self)
       = Pylab.get_figure (pylab w) (self_figure self)
    /\ outputs w' = outputs w /\ stdout w' = stdout w.
Proof.
  intros H. unfold MatterPowerPlot_plot, power_sections in *.
  rewrite !(H _) by (repeat (first [left | right])).
  eexists. split; [reflexivity|]. simpl. split; [|split; reflexivity].
  unfold Pylab.get_figure. simpl.
  destruct (figs (pylab w) !! self_figure self) eqn:E;
    rewrite ?lookup_insert_eq, ?E; reflexivity.
Qed.

Lemma matter_power_without_sections_witness :
  exists w',
    MatterPowerPlot_plot fs_distances self_power world0
    = (Raise (IOError "Not making plot: MatterPower (no data in this sample)"), w')
    /\ Pylab.get_figure (pylab w') 1 = Pylab.get_figure (pylab world0) 1
    /\ outputs w' = outputs world0 /\ stdout w' = stdout world0.
Proof.
  apply (matter_power_without_sections fs_distances self_power world0).
  intros name Hn. unfold power_sections in Hn.
  repeat (apply elem_of_cons in Hn as [->|Hn]); try (now apply elem_of_nil in Hn);
    vm_compute; reflexivity.
Defined.

(** ** The tables of the tomographic pairs *)

Section AllPairs.

Variable fs : FS.

Lemma for_each_Ok_elem {A} (l : list A) (body : A -> M unit) (x : A) :
  x ∈ l -> forall w w', for_each l body w = (Ok tt, w') ->
  exists w1 w2, body x w1 = (Ok tt, w2).
Proof.
  induction l as [|y l IH]; intros Hx w w' H; [now apply elem_of_nil in Hx|].
  simpl in H. apply bind_inv_Ok in H as ([] & w1 & Hb & H).
  apply elem_of_cons in Hx as [->|Hx]; [eauto|]. exact (IH Hx _ _ H).
Qed.

Lemma lift_inv_Ok {A} (r : result A) w a w' : lift r w = (Ok a, w') -> r = Ok a.
Proof. unfold lift. now intros [= -> _]. Qed.

Lemma correlation_plot_panels section self :
  ShearCorrelation_plot fs section self
  = (run Plot_plot self;
     let nbin := detect_nbin fs self section in
     do theta <- lift (load_file fs self section "theta");
     for_each (seq 1 nbin) (fun i =>
       for_each (seq 1 i) (fun j => xi_panel fs self section nbin theta i j))).
Proof. reflexivity. Qed.

Lemma pair_in_loops (n i j : nat) :
  (1 <= j <= i)%nat -> (i <= n)%nat -> i ∈ seq 1 n /\ j ∈ seq 1 i.
Proof. intros Hj Hi. split; apply list_elem_of_In, in_seq; lia. Qed.

End AllPairs.

(** X9. The bin count looks at the diagonal tables only, but the panel
    loops load the table of every pair: a run of
    [ShearSpectrumPlot.plot_section] or of the [plot] of a correlation
    plot that ends normally has loaded the table [bin_i_j] of every pair
    with [1 <= j <= i <= nbin].  So a missing or unreadable off-diagonal
    table makes the routine fail although the count did not see it. *)
Theorem tomographic_plot_loads_all_pairs fs self section w w' :
  ShearSpectrumPlot_plot_section fs self section w = (Ok tt, w')
  \/ ShearCorrelation_plot fs section self w = (Ok tt, w') ->
  forall i j, (1 <= j <= i)%nat -> (i <= detect_nbin fs self section)%nat ->
    is_Ok (load_file fs self section (bin_name i j)) = true.
Proof.
  intros H i j Hj Hi.
  destruct (pair_in_loops _ i j Hj Hi) as [Hin_i Hin_j].
  destruct H as [H|H].
  - rewrite plot_section_panels in H. cbv zeta in H.
    apply bind_inv_Ok in H as (ell & w1 & _ & H).
    destruct (for_each_Ok_elem _ _ i Hin_i _ _ H) as (w2 & w3 & H2).
    destruct (for_each_Ok_elem _ _ j Hin_j _ _ H2) as (w4 & w5 & H4).
    unfold shear_panel in H4.
    apply bind_inv_Ok in H4 as ([] & w6 & _ & H4).
    apply bind_inv_Ok in H4 as (cl & w7 & Hl & _).
    apply lift_inv_Ok in Hl. now rewrite Hl.
  - rewrite correlation_plot_panels in H.
    apply bind_inv_Ok in H as ([] & w0 & _ & H). cbv zeta in H.
    apply bind_inv_Ok in H as (theta & w1 & _ & H).
    destruct (for_each_Ok_elem _ _ i Hin_i _ _ H) as (w2 & w3 & H2).
    destruct (for_each_Ok_elem _ _ j Hin_j _ _ H2) as (w4 & w5 & H4).
    unfold xi_panel in H4.
    apply bind_inv_Ok in H4 as ([] & w6 & _ & H4).
    apply bind_inv_Ok in H4 as (xi & w7 & Hl & _).
    apply lift_inv_Ok in Hl. now rewrite Hl.
Qed.

Lemma tomographic_plot_loads_all_pairs_witness :
  is_Ok (load_file fs_xi self_xi "shear_xi_minus" (bin_name 2 1)) = true.
Proof.
  apply (tomographic_plot_loads_all_pairs fs_xi self_xi "shear_xi_minus" world0
           (snd (ShearCorrelation_plot fs_xi "shear_xi_minus" self_xi world0))).
  - right. vm_compute. reflexivity.
  - lia.
  - vm_compute. apply Nat.leb_le. reflexivity.
Defined.

(** ** The panels of the correlation plots *)

Section XiPanels.

Variable fs : FS.

(** [Plot.plot] makes the figure of the object current and leaves its axes
    as they are. *)
Lemma Plot_plot_drawing self w :
  exists w', Plot_plot self w = (Ok tt, w')
             /\ drawing_on (self_figure self)
                  (fig_axes (Pylab.get_figure (pylab w) (self_figure self))) w'.
Proof.
  eexists. split; [reflexivity|]. split; [reflexivity|].
  unfold Pylab.get_figure. cbn.
  destruct (figs (pylab w) !! self_figure self) as [f|] eqn:E.
  - now rewrite E.
  - now rewrite lookup_insert_eq.
Qed.

Lemma xi_panel_spec self section nbin theta xi i j l w :
  drawing_on (self_figure self) l w ->
  load_file fs self section (bin_name i j) = Ok (xi i j) ->
  exists w' ax,
    xi_panel fs self section nbin theta i j w = (Ok tt, w')
    /\ drawing_on (self_figure self) (ax :: l) w'
    /\ xi_panel_of nbin theta xi ax (i, j).
Proof.
  intros D Hxi.
  unfold xi_panel, xi_panel_of, panel_of, panel_tick_params. cbn [fst snd].
  destruct (add_axes_drawing _ (panel_rect nbin i j) _ _ D) as (w1 & E1 & D1).
  rewrite (bind_Ok _ _ _ _ _ E1). clear E1 D.
  rewrite Hxi, bind_lift_Ok.
  do 3 draw_step.
  destruct ((i =? 1)%nat && (j =? 1)%nat) eqn:Eij; repeat draw_step.
  all: match goal with
       | D : drawing_on ?n (?ax :: ?l) ?w |- context [Pylab.draw ?a ?w] =>
           destruct (draw_drawing n a ax l w D) as (w' & E & D');
           exists w'; eexists; split; [exact E|]; split; [exact D'|]
       end.
  all: cbn [ax_rect ax_artists app]; split; [split; [reflexivity | ] | ].
  all: try (split; [reflexivity | ]; split; [repeat (first [left | right]) | ]).
  - unfold labelled; cbn [ax_artists]; settle_members.
  - intros _. repeat (first [left | right]).
  - unfold unlabelled; cbn [ax_artists]; settle_members.
  - intros [= -> ->]. discriminate Eij.
Qed.

Lemma correlation_panels_layout self section N theta xi w :
  detect_nbin fs self section = N ->
  load_file fs self section "theta" = Ok theta ->
  (forall i j, (1 <= j <= i /\ i <= N)%nat ->
     load_file fs self section (bin_name i j) = Ok (xi i j)) ->
  exists w' panels,
    ShearCorrelation_plot fs section self w = (Ok tt, w')
    /\ fig_axes (Pylab.get_figure (pylab w') (self_figure self))
       = rev panels ++ fig_axes (Pylab.get_figure (pylab w) (self_figure self))
    /\ Forall2 (xi_panel_of N theta xi) panels (tri_pairs N).
Proof.
  intros HN Ht Hbins.
  rewrite correlation_plot_panels.
  destruct (Plot_plot_drawing self w) as (w0 & E0 & D0).
  rewrite (bind_Ok _ _ _ _ _ E0). cbv zeta. rewrite HN, Ht, bind_lift_Ok.
  destruct (for_each_collect (self_figure self)
              (fun i => for_each (seq 1 i)
                 (fun j => xi_panel fs self section N theta i j))
              (fun i new => Forall2 (xi_panel_of N theta xi) new
                              (map (fun j => (i, j)) (seq 1 i)))
              (seq 1 N)) with (l := fig_axes (Pylab.get_figure (pylab w) (self_figure self)))
                              (w := w0)
    as (w' & news & E & [_ D] & HF).
  - intros i l0 w1 Hi D1. apply list_elem_of_In, in_seq in Hi.
    destruct (for_each_collect (self_figure self)
                (fun j => xi_panel fs self section N theta i j)
                (fun j new => exists ax, new = [ax] /\ xi_panel_of N theta xi ax (i, j))
                (seq 1 i)) with (l := l0) (w := w1)
      as (w2 & news & E & D2 & HF).
    + intros j l2 w2 Hj D2. apply list_elem_of_In, in_seq in Hj.
      destruct (xi_panel_spec self section N theta xi i j l2 w2 D2)
        as (w3 & ax & E & D3 & HP); [apply Hbins; lia|].
      exists w3, [ax]. split; [exact E|]. split; [exact D3|]. eauto.
    + exact D1.
    + exists w2, (concat news). split; [exact E|]. split; [exact D2|].
      clear -HF. induction HF as [|j new js news (ax & -> & HP) _ IH]; simpl;
        [constructor|now constructor].
  - exact D0.
  - exists w', (concat news). split; [exact E|]. split; [exact D|].
    apply Forall2_concat_flat_map. exact HF.
Qed.

End XiPanels.

(** X10. With [N] bins detected, the shared [theta] table and the table of
    every pair loaded (one-dimensional, as long as [theta]), the [plot]
    of [ShearCorrelationPlusPlot] and of [ShearCorrelationMinusPlot] ends
    normally and adds exactly [N*(N+1)/2] panels to the figure of the
    object, one for each pair in the order of the loops.  The panel of a
    pair has the rectangle of the pair, starts with the curve of its table
    against [theta] and carries the pair in red; the panel of [(1, 1)]
    alone has its axes labelled, and its vertical label reads xi-plus in
    the minus plot as well. *)
Theorem correlation_panels fs self section N theta xi w :
  detect_nbin fs self section = N ->
  load_file fs self section "theta" = Ok (Arr1 theta) ->
  (forall i j, (1 <= j <= i /\ i <= N)%nat ->
     exists y, xi i j = Arr1 y /\ length y = length theta
               /\ load_file fs self section (bin_name i j) = Ok (xi i j)) ->
  exists w' panels,
    ShearCorrelation_plot fs section self w = (Ok tt, w')
    /\ fig_axes (Pylab.get_figure (pylab w') (self_figure self))
       = rev panels ++ fig_axes (Pylab.get_figure (pylab w) (self_figure self))
    /\ length panels = (N * (N + 1) / 2)%nat
    /\ Forall2 (xi_panel_of N (Arr1 theta) xi) panels (tri_pairs N).
Proof.
  intros HN Ht Hbins.
  destruct (correlation_panels_layout fs self section N (Arr1 theta) xi w HN Ht)
    as (w' & panels & E & Hax & HP).
  - intros i j Hij. destruct (Hbins i j Hij) as (y & _ & _ & H). exact H.
  - exists w', panels. split; [exact E|]. split; [exact Hax|]. split; [|exact HP].
    rewrite (Forall2_length _ _ _ HP). apply tri_pairs_length.
Qed.

Lemma correlation_panels_witness :
  exists w' panels,
    ShearCorrelation_plot fs_xi "shear_xi_minus" self_xi world0 = (Ok tt, w')
    /\ fig_axes (Pylab.get_figure (pylab w') 1) = rev panels ++ []
    /\ length panels = 3%nat
    /\ Forall2 (xi_panel_of 2 (Arr1 [Py.lit "0.001"; Py.lit "0.01"]) xi_sample)
         panels [(1, 1); (2, 1); (2, 2)]%nat.
Proof.
  destruct (correlation_panels fs_xi self_xi "shear_xi_minus" 2
              [Py.lit "0.001"; Py.lit "0.01"] xi_sample world0)
    as (w' & panels & E & Hax & Hlen & HP).
  - vm_compute. reflexivity.
  - vm_compute. reflexivity.
  - intros i j H.
    assert (Hij : ((i = 1 /\ j = 1) \/ (i = 2 /\ j = 1) \/ (i = 2 /\ j = 2))%nat)
      by lia.
    destruct Hij as [[-> ->]|[[-> ->]|[-> ->]]];
      eexists; (split; [reflexivity|split; [reflexivity|vm_compute; reflexivity]]).
  - exists w', panels. split; [exact E|]. split; [exact Hax|].
    split; [exact Hlen|exact HP].
Defined.

(** ** The curve of a distance plot *)

Section Scaling.

Variable fs : FS.

(** Multiplying a binary64 number by [1.0] is exact. *)
Lemma mul_1 (x : spec_float) :
  valid_binary F64.prec F64.emax x = true ->
  F64.mul x f64_1 = x.
Proof.
  unfold f64_1, F64.mul, F64.prec, F64.emax.
  destruct x as [s|s| |s m e]; intros V.
  - now destruct s.
  - now destruct s.
  - reflexivity.
  - cbn [valid_binary] in V. unfold bounded, canonical_mantissa in V.
    apply andb_prop in V as [C B]. apply Z.eqb_eq in C. apply Z.leb_le in B.
    unfold fexp, emin in C.
    cbn [SFmul].
    rewrite Pos.mul_comm.
    unfold binary_round_aux, shr_fexp.
    cbn [Zdigits2]. rewrite digits_shift52.
    assert (E1 : fexp 53 1024 (Z.pos (digits2_pos m) + 52 + (e + -52)) - (e + -52) = 52)
      by (unfold fexp, emin; lia).
    rewrite E1. cbn [shr_record_of_loc shr]. rewrite shr_52.
    cbn [shr_m loc_of_shr_record round_nearest_even Zdigits2].
    assert (E2 : fexp 53 1024 (Z.pos (digits2_pos m) + (e + -52 + 52)) - (e + -52 + 52) = 0)
      by (unfold fexp, emin; lia).
    rewrite E2. cbn [shr shr_record_of_loc shr_m].
    replace (e + -52 + 52) with e by lia.
    replace (e <=? 1024 - 53) with true by (symmetry; apply Z.leb_le; lia).
    now destruct s.
Qed.

Lemma map_mul_1 (xs : list spec_float) :
  Forall (fun x => valid_binary F64.prec F64.emax x = true) xs ->
  map (fun x => F64.mul x f64_1) xs = xs.
Proof.
  induction 1 as [|x xs V _ IH]; [reflexivity|].
  simpl. now rewrite (mul_1 x V), IH.
Qed.

End Scaling.

(** One drawing call on the current figure. *)
Ltac draw_call :=
  rewrite ?bind_assoc;
  match goal with
  | D : drawing_on ?n ?l ?w |- context [bind (Pylab.draw ?a) _ ?w] =>
      let w' := fresh "w" in
      let E := fresh "E" in
      let D' := fresh "D" in
      destruct (draw_on_figure n a l w D) as (w' & E & D');
      rewrite (bind_Ok _ _ _ _ _ E); clear E D
  end.

(** X11. A distance plot whose two tables load as one-dimensional arrays
    of one length ends normally and draws, in this order, the curve, the
    grid, the label [Redshift z] and the name of the class as the vertical
    label.  The curve is the table itself for the four classes that keep
    the scaling [1.0] of [DistancePlot] (the product with [1.0] changes no
    binary64 value) and the table times [2.99792458e+05] for
    [HubblePlot]. *)
Theorem distance_plot_curve fs self distance zs ds w :
  getattr own_distance "distance" (self_class self) = Ok distance ->
  load_file fs self "distances" "z" = Ok (Arr1 zs) ->
  load_file fs self "distances" distance = Ok (Arr1 ds) ->
  length ds = length zs ->
  valid_array (Arr1 ds) ->
  exists w' name,
    DistancePlot_plot fs self w = (Ok tt, w')
    /\ getattr own_name "name" (self_class self) = Ok name
    /\ fig_axes (Pylab.get_figure (pylab w') (self_figure self))
       = axes_after_draws
           [ Line Linear (Arr1 zs)
               (Arr1 (if bool_decide (self_class self = HubblePlot)
                      then map (fun x => F64.mul x (Py.lit "2.99792458e+05")) ds
                      else ds)) None;
             Grid; XLabel "Redshift z"; YLabel name ]
           (fig_axes (Pylab.get_figure (pylab w) (self_figure self))).
Proof.
  intros Hdist Hz Hd _ V.
  destruct (Plot_plot_drawing self w) as (w0 & E0 & D).
  unfold DistancePlot_plot. cbv zeta.
  rewrite (bind_Ok _ _ _ _ _ E0), Hz, bind_lift_Ok, Hdist, bind_lift_Ok, Hd, bind_lift_Ok.
  clear E0 Hz Hd.
  destruct self as [c n out dir q]. cbn [self_class self_figure] in *.
  destruct c; vm_compute in Hdist; try discriminate Hdist; clear Hdist.
  all: match goal with
       | |- context [getattr own_scaling ?a ?c] =>
           let v := eval vm_compute in (getattr own_scaling a c) in
           change (getattr own_scaling a c) with v
       end.
  all: match goal with
       | |- context [getattr own_name ?a ?c] =>
           let v := eval vm_compute in (getattr own_name a c) in
           change (getattr own_name a c) with v
       end.
  all: rewrite !bind_lift_Ok; cbn [NpOps.map1].
  all: try (change (S754_finite false 4503599627370496 (-52)) with f64_1;
            rewrite (map_mul_1 ds V)).
  all: do 3 draw_call; rewrite bind_lift_Ok.
  all: match goal with
       | D : drawing_on ?n ?l ?w |- context [Pylab.draw ?a ?w] =>
           destruct (draw_on_figure n a l w D) as (w' & E & [_ D']);
           exists w'; eexists; split; [exact E|]; split; [reflexivity|];
           rewrite D'
       end.
  all: reflexivity.
Qed.

Lemma distance_plot_curve_witness :
  exists w',
    DistancePlot_plot fs_distances self_distance world0 = (Ok tt, w')
    /\ fig_axes (Pylab.get_figure (pylab w') 1)
       = [ {| ax_rect := None;
              ax_artists :=
                [ Line Linear
                    (Arr1 [Py.lit "0.0"; Py.lit "0.5"; Py.lit "1.0"])
                    (Arr1 [Py.lit "0.0"; Py.lit "1250.5"; Py.lit "1650.25"]) None;
                  Grid; XLabel "Redshift z";
                  YLabel "Angular Diameter Distance $D_A / Mpc$" ] |} ].
Proof.
  destruct (distance_plot_curve fs_distances self_distance "d_a"
              [Py.lit "0.0"; Py.lit "0.5"; Py.lit "1.0"]
              [Py.lit "0.0"; Py.lit "1250.5"; Py.lit "1650.25"] world0)
    as (w' & name & E & Hn & Hax).
  - reflexivity.
  - vm_compute. reflexivity.
  - vm_compute. reflexivity.
  - reflexivity.
  - repeat constructor.
  - exists w'. split; [exact E|].
    injection Hn as <-. exact Hax.
Defined.

(** ** What a successful [make] leaves *)

Section Saving.

Variable fs : FS.

(** [save] selects the figure of the object before writing it: the file
    holds that figure, whichever figure was current. *)
Lemma save_own_figure (self : instance) (w : world) :
  exists w',
    save self w = (Ok tt, w')
    /\ outputs w' = <[self_outfile self :=
                        Pylab.get_figure (pylab w') (self_figure self)]> (outputs w)
    /\ cur (pylab w') = Some (self_figure self).
Proof.
  unfold save, bind, Pylab.figure_num, modify, print, Pylab.savefig, Pylab.gcf, ret.
  destruct (self_quiet self); cbn; eexists; (split; [reflexivity|]); cbn; now split.
Qed.

End Saving.

(** X12. A [make] that ends normally has printed exactly one line,
    [Saving] followed by two blanks and the path of the image, and the
    image holds the figure that [Plot.__init__] opened for this object,
    as [plot] left it; that figure is the current one afterwards. *)
Theorem make_saves_own_figure fs c dirname outdir prefix suffix w name w' :
  make fs c dirname outdir prefix suffix w = (Ok name, w') ->
  stdout w' = stdout w ++ ["Saving  " +:+ output_path outdir prefix name suffix]
  /\ outputs w' !! output_path outdir prefix name suffix
     = Some (Pylab.get_figure (pylab w') (Pylab.next_num (pylab w)))
  /\ cur (pylab w') = Some (Pylab.next_num (pylab w)).
Proof.
  intros H. apply make_with_Ok in H as (p & w1 & w2 & Hi & Hp & Hs & Hn).
  destruct (Plot_init_Ok _ _ _ _ _ _ _ _ _ _ Hi) as (nm & Hn' & _ & _ & Hq & Ho).
  assert (nm = name) as -> by congruence.
  destruct (Plot_init_new c dirname outdir prefix suffix false name w Hn)
    as (p' & Hi' & _ & _ & Hf).
  assert (p' = p) as -> by congruence.
  destruct (save_spec p w2) as (w3 & fig & Hs' & _ & Hout & _).
  assert (w3 = w') as -> by congruence.
  destruct (save_own_figure p w2) as (w4 & Hs'' & Hfile & Hcur).
  assert (w4 = w') as -> by congruence.
  split; [|split].
  - rewrite Hout, Hq, Ho. f_equal.
    destruct (draws_only_Plot_init c dirname outdir prefix suffix false None w)
      as (_ & H1 & _). rewrite Hi in H1. simpl in H1.
    destruct (draws_only_plot fs p w1) as (_ & H2 & _). rewrite Hp in H2. simpl in H2.
    congruence.
  - rewrite Hfile, <- Ho, <- Hf. apply lookup_insert_eq.
  - now rewrite Hcur, Hf.
Qed.

Lemma make_saves_own_figure_witness :
  stdout (snd (make fs_distances AngularDiameterDistancePlot "run" "out" "pre"
                    "png" world0))
  = ["Saving  out/pre_angular_distance.png"].
Proof.
  destruct (make_saves_own_figure fs_distances AngularDiameterDistancePlot
              "run" "out" "pre" "png" world0 "angular_distance"
              (snd (make fs_distances AngularDiameterDistancePlot "run" "out" "pre"
                         "png" world0)))
    as (H & _).
  - vm_compute. reflexivity.
  - exact H.
Defined.

(** * The layout of the tomographic panels *)

(** In every layout of at most 99 bins the edges [k*sz] are pairwise
    different binary64 numbers. *)
Lemma panel_edges_distinct :
  forallb (fun nbin => bool_decide (NoDup (panel_edges nbin))) (seq 0 100) = true.
Proof. vm_compute. reflexivity. Qed.

Section Rectangles.

Lemma panel_edges_lookup (nbin k : nat) :
  (1 <= k <= nbin)%nat ->
  panel_edges nbin !! (k - 1)%nat
  = Some (F64.mul (F64.of_Z (Z.of_nat k)) (panel_size nbin)).
Proof.
  intros Hk. unfold panel_edges. rewrite list_lookup_fmap.
  rewrite (lookup_seq_lt 1 nbin (k - 1)) by lia.
  replace (1 + (k - 1))%nat with k by lia. reflexivity.
Qed.

(** In a layout of at most 99 bins different pairs have different
    rectangles. *)
Lemma panel_rect_inj (nbin i j i' j' : nat) :
  (nbin <= 99)%nat ->
  (1 <= i <= nbin)%nat -> (1 <= j <= nbin)%nat ->
  (1 <= i' <= nbin)%nat -> (1 <= j' <= nbin)%nat ->
  panel_rect nbin i j = panel_rect nbin i' j' -> i = i' /\ j = j'.
Proof.
  intros Hn Hi Hj Hi' Hj' H.
  assert (ND : NoDup (panel_edges nbin)).
  { pose proof panel_edges_distinct as Hall.
    rewrite forallb_forall in Hall.
    assert (Hin : In nbin (seq 0 100)) by (apply in_seq; lia).
    exact (bool_decide_eq_true_1 _ (Hall nbin Hin)). }
  unfold panel_rect in H. cbv zeta in H. injection H as Hx Hy.
  split.
  - assert (E : (i - 1 = i' - 1)%nat); [|lia].
    apply (NoDup_lookup _ _ _ _ ND (panel_edges_lookup nbin i Hi)).
    rewrite Hx. now apply panel_edges_lookup.
  - assert (E : (j - 1 = j' - 1)%nat); [|lia].
    apply (NoDup_lookup _ _ _ _ ND (panel_edges_lookup nbin j Hj)).
    rewrite Hy. now apply panel_edges_lookup.
Qed.

Lemma panel_of_placed (nbin : nat) (ax : axes) (ij : nat * nat) :
  panel_of nbin ax ij -> placed nbin ax ij.
Proof. intros [H _]. exact H. Qed.

End Rectangles.

Section Bound.

Lemma detect_nbin_le fs self section : (detect_nbin fs self section <= 99)%nat.
Proof.
  unfold detect_nbin.
  destruct (count_bins_spec
              (fun i => path_exists fs (file_path self section (bin_name i i)))
              99 1 0) as (m & -> & Hm & _).
  simpl. exact Hm.
Qed.

Lemma panels_rects_distinct (N : nat) (panels : list axes) :
  (N <= 99)%nat ->
  Forall2 (panel_of N) panels (tri_pairs N) ->
  NoDup (map ax_rect panels).
Proof.
  intros HN HP.
  assert (E : map ax_rect panels
              = map (fun ij => Some (panel_rect N (fst ij) (snd ij))) (tri_pairs N)).
  { clear HN. induction HP as [|ax ij panels pairs [H _] _ IH]; [reflexivity|].
    simpl. now rewrite H, IH. }
  rewrite E. apply NoDup_fmap_2_strong; [|apply tri_pairs_NoDup].
  intros [i j] [i' j'] Hin Hin' H. cbn [fst snd] in H.
  assert (Hr : panel_rect N i j = panel_rect N i' j') by congruence.
  apply tri_pairs_elem in Hin, Hin'.
  destruct (panel_rect_inj N i j i' j') as [-> ->]; (lia || assumption || reflexivity).
Qed.

End Bound.

(** C4, as the code has it.  With [N] bins detected and [ell] and the
    table of every pair loading as one-dimensional arrays of one length,
    not zero, the triangular layout of [ShearSpectrumPlot.plot_section]
    ends normally and adds exactly [N*(N+1)/2] panels to the figure, one
    for each pair [(i, j)] with [1 <= j <= i <= N] and in the order of the
    loops.  The panel of [(i, j)] lies at the rectangle
    [(i*sz, j*sz, sz, sz)] with [sz = 1.0/(N+2)], and no two panels have
    the same rectangle; the panel of [(1, 1)] alone has its axes labelled
    and every other panel has the tick labels of both axes removed. *)
Theorem tomographic_panels fs self section N ell w :
  detect_nbin fs self section = N ->
  (self_class self = ShearSpectrumPlot \/ self_class self = MatterPower2D) ->
  cur (pylab w) = Some (self_figure self) ->
  load_file fs self section "ell" = Ok (Arr1 ell) ->
  ell <> [] ->
  (forall i j, (1 <= j <= i /\ i <= N)%nat ->
     exists cl, load_file fs self section (bin_name i j) = Ok (Arr1 cl)
                /\ length cl = length ell) ->
  exists w' panels,
    ShearSpectrumPlot_plot_section fs self section w = (Ok tt, w')
    /\ fig_axes (Pylab.get_figure (pylab w') (self_figure self))
       = rev panels ++ fig_axes (Pylab.get_figure (pylab w) (self_figure self))
    /\ length panels = (N * (N + 1) / 2)%nat
    /\ Forall2 (panel_of N) panels (tri_pairs N)
    /\ NoDup (tri_pairs N)
    /\ (forall i j, (i, j) ∈ tri_pairs N <-> (1 <= j <= i /\ i <= N)%nat)
    /\ Forall2 (placed N) panels (tri_pairs N)
    /\ NoDup (map ax_rect panels).
Proof.
  intros HN Hc Hcur Hell He Hbins.
  assert (H99 : (N <= 99)%nat) by (rewrite <- HN; apply detect_nbin_le).
  rewrite plot_section_panels. cbv zeta. rewrite HN, Hell, bind_lift_Ok.
  destruct (for_each_collect (self_figure self)
              (fun i => for_each (seq 1 i)
                 (fun j => shear_panel fs self section N (Arr1 ell) i j))
              (fun i new => Forall2 (panel_of N) new (map (fun j => (i, j)) (seq 1 i)))
              (seq 1 N)) with (l := fig_axes (Pylab.get_figure (pylab w) (self_figure self)))
                              (w := w)
    as (w' & news & E & [_ D] & HF).
  - intros i l0 w0 Hi D0. apply list_elem_of_In, in_seq in Hi.
    destruct (for_each_collect (self_figure self)
                (fun j => shear_panel fs self section N (Arr1 ell) i j)
                (fun j new => exists ax, new = [ax] /\ panel_of N ax (i, j))
                (seq 1 i)) with (l := l0) (w := w0)
      as (w1 & news & E & D1 & HF).
    + intros j l1 w1 Hj D1. apply list_elem_of_In, in_seq in Hj.
      destruct (shear_panel_spec fs self section N ell i j l1 w1 D1 Hc He)
        as (w2 & ax & E & D2 & HP); [apply Hbins; lia|].
      exists w2, [ax]. split; [exact E|]. split; [exact D2|]. eauto.
    + exact D0.
    + exists w1, (concat news). split; [exact E|]. split; [exact D1|].
      clear -HF. induction HF as [|j new js news (ax & -> & HP) _ IH]; simpl;
        [constructor|now constructor].
  - now split.
  - exists w', (concat news). split; [exact E|]. split; [exact D|].
    assert (HP : Forall2 (panel_of N) (concat news) (tri_pairs N))
      by (apply Forall2_concat_flat_map; exact HF).
    split; [|split; [exact HP|split; [apply tri_pairs_NoDup|split; [|split]]]].
    + rewrite (Forall2_length _ _ _ HP). apply tri_pairs_length.
    + intros i j. apply tri_pairs_elem.
    + eapply Forall2_impl; [exact HP|]. intros ax ij. apply panel_of_placed.
    + exact (panels_rects_distinct N _ H99 HP).
Qed.

Lemma tomographic_panels_witness :
  exists w' panels,
    ShearSpectrumPlot_plot_section fs_shear self_shear "shear_cl" world1 = (Ok tt, w')
    /\ fig_axes (Pylab.get_figure (pylab w') 1) = rev panels ++ []
    /\ length panels = 3%nat
    /\ Forall2 (panel_of 2) panels [(1, 1); (2, 1); (2, 2)]%nat
    /\ Forall2 (placed 2) panels [(1, 1); (2, 1); (2, 2)]%nat
    /\ NoDup (map ax_rect panels).
Proof.
  destruct (tomographic_panels fs_shear self_shear "shear_cl" 2
              [F64.of_Z 10; F64.of_Z 100] world1)
    as (w' & panels & E & Hax & Hlen & HP & _ & _ & Hpl & Hnd).
  - vm_compute. reflexivity.
  - left. reflexivity.
  - reflexivity.
  - vm_compute. reflexivity.
  - discriminate.
  - intros i j H.
    assert (Hij : ((i = 1 /\ j = 1) \/ (i = 2 /\ j = 1) \/ (i = 2 /\ j = 2))%nat)
      by lia.
    destruct Hij as [[-> ->]|[[-> ->]|[-> ->]]];
      eexists; (split; [vm_compute; reflexivity|reflexivity]).
  - exists w', panels. split; [exact E|]. split; [exact Hax|].
    split; [exact Hlen|]. split; [exact HP|]. split; [exact Hpl|exact Hnd].
Defined.

(** C4 as it was claimed fails: the bins detected and all the files of the
    pairs present do not suffice for the [N*(N+1)/2] panels.  With one
    number in each file two bins are detected and the three tables exist,
    but a table of one number is an array without axes: [all(cl<=0)] raises
    a [TypeError] at the first pair, when one panel has been added, not
    three. *)
Lemma one_number_tables_abort :
  (exists msg w',
     ShearSpectrumPlot_plot_section fs_scalar self_shear "shear_cl" world1
     = (Raise (TypeError msg), w'))
  /\ ~ (forall fs self section w,
       self_class self = ShearSpectrumPlot ->
       cur (pylab w) = Some (self_figure self) ->
       is_Some (files fs !! file_path self section "ell") ->
       (forall i j, (1 <= j <= i /\ i <= detect_nbin fs self section)%nat ->
          is_Some (files fs !! file_path self section (bin_name i j))) ->
       length (fig_axes (Pylab.get_figure
                 (pylab (snd (ShearSpectrumPlot_plot_section fs self section w)))
                 (self_figure self)))
       = (length (fig_axes (Pylab.get_figure (pylab w) (self_figure self)))
          + detect_nbin fs self section * (detect_nbin fs self section + 1) / 2)%nat).
Proof.
  split; [eexists _, _; vm_compute; reflexivity|].
  intros H.
  specialize (H fs_scalar self_shear "shear_cl" world1 eq_refl eq_refl).
  assert (E : detect_nbin fs_scalar self_shear "shear_cl" = 2%nat)
    by (vm_compute; reflexivity).
  rewrite E in H.
  assert (Hell : is_Some (files fs_scalar !! file_path self_shear "shear_cl" "ell"))
    by (vm_compute; eexists; reflexivity).
  assert (Hbins : forall i j, (1 <= j <= i /\ i <= 2)%nat ->
            is_Some (files fs_scalar !! file_path self_shear "shear_cl" (bin_name i j))).
  { intros i j Hij.
    assert (Hc : ((i = 1 /\ j = 1) \/ (i = 2 /\ j = 1) \/ (i = 2 /\ j = 2))%nat)
      by lia.
    destruct Hc as [[-> ->]|[[-> ->]|[-> ->]]]; vm_compute; eexists; reflexivity. }
  specialize (H Hell Hbins). vm_compute in H. discriminate H.
Qed.

(** * Runs and the values files *)

Section Paths.

Lemma append_suffix_inj (a b t u : string) :
  String.length t = String.length u -> a +:+ t = b +:+ u -> t = u.
Proof.
  intros Hl H.
  assert (Hab : String.length a = String.length b).
  { apply (f_equal String.length) in H. rewrite !length_append in H. lia. }
  revert b H Hab. induction a as [|c a IH]; intros [|d b] H Hab;
    try discriminate Hab.
  - exact H.
  - simpl in H. injection H as _ H. apply (IH b H). now injection Hab.
Qed.

(** A path whose last character before [.txt] is not [s] names no
    [values.txt]. *)
Lemma not_values_txt (a : string) (c : ascii) :
  c <> "s"%char -> ~ is_values_path (a +:+ String c ".txt").
Proof.
  intros Hc [dir H].
  change (dir +:+ "/values.txt") with (dir +:+ ("/value" +:+ String "s" ".txt")) in H.
  rewrite <- append_assoc in H.
  apply append_suffix_inj in H; [|reflexivity]. injection H as H. contradiction.
Qed.

(** A path that does not end in [t] names no [values.txt]. *)
Lemma not_values_last (a : string) (c : ascii) :
  c <> "t"%char -> ~ is_values_path (a +:+ String c "").
Proof.
  intros Hc [dir H].
  change (dir +:+ "/values.txt") with (dir +:+ ("/values.tx" +:+ String "t" "")) in H.
  rewrite <- append_assoc in H.
  apply append_suffix_inj in H; [|reflexivity]. injection H as H. contradiction.
Qed.

Lemma last_char_split (s : string) (c : ascii) :
  last_char s = Some c -> exists s0, s = s0 +:+ String c "".
Proof.
  revert c. induction s as [|d s IH]; intros c H; [discriminate H|].
  simpl in H. destruct (last_char s) as [e|] eqn:E.
  - injection H as ->. destruct (IH c eq_refl) as (s0 & ->).
    exists (String d s0). reflexivity.
  - injection H as ->. destruct s; [exists ""; reflexivity|].
    simpl in E. destruct (last_char s); discriminate E.
Qed.

Lemma last_char_append (a b : string) :
  last_char (a +:+ b) = match last_char b with
                        | Some c => Some c
                        | None => last_char a
                        end.
Proof.
  induction a as [|d a IH].
  - change ("" +:+ b) with b. now destruct (last_char b).
  - change (String d a +:+ b) with (String d (a +:+ b)).
    cbn [last_char]. rewrite IH. now destruct (last_char b).
Qed.

Lemma last_char_of_uint (d : Decimal.uint) (c : ascii) :
  last_char (NilEmpty.string_of_uint d) = Some c -> Str.is_digit c = true.
Proof.
  induction d; simpl; intros H; try discriminate H;
    (destruct (last_char (NilEmpty.string_of_uint d)) as [e|];
     [apply IHd; exact H | injection H as <-; reflexivity]).
Qed.

Lemma last_char_bin_name (i j : nat) :
  exists c, last_char (bin_name i j) = Some c /\ c <> "s"%char.
Proof.
  unfold bin_name. rewrite !last_char_append.
  destruct (last_char (Str.of_nat j)) as [c|] eqn:E.
  - exists c. split; [reflexivity|]. intros ->.
    apply last_char_of_uint in E. discriminate E.
  - simpl. eexists. split; [reflexivity|]. discriminate.
Qed.

End Paths.

Section Independent.

Variables fs fs' : FS.
Hypothesis Hsame : same_tables fs fs'.

Lemma open_read_same path :
  ~ is_values_path path -> open_read fs path = open_read fs' path.
Proof.
  intros H. unfold open_read. destruct Hsame as [Hd Hf].
  now rewrite (Hf path H), Hd.
Qed.

Lemma path_exists_same path :
  ~ is_values_path path -> path_exists fs path = path_exists fs' path.
Proof.
  intros H. unfold path_exists. destruct Hsame as [Hd Hf].
  now rewrite (Hf path H), Hd.
Qed.

Lemma file_path_not_values self section name c :
  last_char name = Some c -> c <> "s"%char ->
  ~ is_values_path (file_path self section name).
Proof.
  intros H Hc. destruct (last_char_split name c H) as (n0 & ->).
  unfold file_path.
  replace (self_dirname self +:+ "/" +:+ section +:+ "/" +:+ (n0 +:+ String c "") +:+ ".txt")
    with ((self_dirname self +:+ "/" +:+ section +:+ "/" +:+ n0) +:+ String c ".txt")
    by (rewrite !append_assoc; reflexivity).
  now apply not_values_txt.
Qed.

Lemma load_file_same self section name c :
  last_char name = Some c -> c <> "s"%char ->
  load_file fs self section name = load_file fs' self section name.
Proof.
  intros H Hc. unfold load_file, Np.loadtxt.
  now rewrite (open_read_same _ (file_path_not_values self section name c H Hc)).
Qed.

Lemma count_bins_ext (p q : nat -> bool) (todo : list nat) (n : nat) :
  (forall i, p i = q i) -> count_bins p todo n = count_bins q todo n.
Proof.
  intros H. revert n. induction todo as [|i todo IH]; intros n; [reflexivity|].
  simpl. rewrite (H i). destruct (q i); [apply IH|reflexivity].
Qed.

Lemma detect_nbin_same self section :
  detect_nbin fs self section = detect_nbin fs' self section.
Proof.
  unfold detect_nbin. apply count_bins_ext. intros i.
  destruct (last_char_bin_name i i) as (c & Hl & Hc).
  apply path_exists_same, (file_path_not_values self section _ c Hl Hc).
Qed.

Lemma path_join_suffix (a b : string) : exists x, path_join a b = x +:+ b.
Proof.
  unfold path_join.
  repeat case_match;
    first [ now exists "" | now exists a
          | exists (a +:+ "/"); now rewrite append_assoc ].
Qed.

Lemma power_files_exist_same self name :
  power_files_exist fs self name = power_files_exist fs' self name.
Proof.
  unfold power_files_exist. cbn [forallb].
  assert (H : forall a b c, c <> "s"%char ->
            path_exists fs (path_join a (b +:+ String c ".txt"))
            = path_exists fs' (path_join a (b +:+ String c ".txt"))).
  { intros a b c Hc. destruct (path_join_suffix a (b +:+ String c ".txt")) as (x & ->).
    rewrite <- append_assoc. now apply path_exists_same, not_values_txt. }
  rewrite (H _ "k_" "h"%char), (H _ "" "z"%char), (H _ "p_" "k"%char);
    [reflexivity|discriminate..].
Qed.

Lemma section_dir_same (dir : string) (b : string) (c : ascii) :
  c <> "t"%char ->
  path_exists fs (dir +:+ b +:+ String c "")
  = path_exists fs' (dir +:+ b +:+ String c "").
Proof.
  intros Hc. rewrite <- append_assoc. now apply path_exists_same, not_values_last.
Qed.

End Independent.

Section SameMonad.

Lemma bind_cong {A B} (c c' : M A) (k k' : A -> M B) :
  (forall w, c w = c' w) -> (forall a w, k a w = k' a w) ->
  forall w, bind c k w = bind c' k' w.
Proof.
  intros Hc Hk w. unfold bind. rewrite Hc.
  destruct (c' w) as [[a|e] w1]; [apply Hk|reflexivity].
Qed.

Lemma for_each_ext {A} (l : list A) (f g : A -> M unit) :
  (forall x w, f x w = g x w) -> forall w, for_each l f w = for_each l g w.
Proof.
  intros H. induction l as [|x l IH]; intros w; [reflexivity|].
  simpl. apply bind_cong; [apply H|intros _; apply IH].
Qed.

End SameMonad.

(** Replace the loads of the tables of [fs] by the loads of [fs']. *)
Ltac same_loads fs fs' Hsame :=
  repeat (erewrite (load_file_same fs fs' Hsame); [|reflexivity|discriminate]).

Section SamePlots.

Variables fs fs' : FS.
Hypothesis Hsame : same_tables fs fs'.

Lemma plot_section_same self section w :
  ShearSpectrumPlot_plot_section fs self section w
  = ShearSpectrumPlot_plot_section fs' self section w.
Proof.
  rewrite !plot_section_panels. cbv zeta.
  rewrite (detect_nbin_same fs fs' Hsame). same_loads fs fs' Hsame.
  revert w. apply bind_cong; [reflexivity|]. intros ell.
  apply for_each_ext. intros i. apply for_each_ext. intros j w.
  unfold shear_panel.
  destruct (last_char_bin_name i j) as (c & Hl & Hc).
  now rewrite (load_file_same fs fs' Hsame self section _ c Hl Hc).
Qed.

Lemma correlation_plot_same section self w :
  ShearCorrelation_plot fs section self w = ShearCorrelation_plot fs' section self w.
Proof.
  rewrite !correlation_plot_panels. cbv zeta.
  rewrite (detect_nbin_same fs fs' Hsame). same_loads fs fs' Hsame.
  revert w. apply bind_cong; [reflexivity|]. intros _.
  apply bind_cong; [reflexivity|]. intros theta.
  apply for_each_ext. intros i. apply for_each_ext. intros j w.
  unfold xi_panel.
  destruct (last_char_bin_name i j) as (c & Hl & Hc).
  now rewrite (load_file_same fs fs' Hsame self section _ c Hl Hc).
Qed.

Lemma shear_spectrum_plot_same self w :
  ShearSpectrumPlot_plot fs self w = ShearSpectrumPlot_plot fs' self w.
Proof.
  unfold ShearSpectrumPlot_plot.
  assert (Hgg : path_exists fs (self_dirname self +:+ "/shear_cl_gg")
                = path_exists fs' (self_dirname self +:+ "/shear_cl_gg"))
    by exact (section_dir_same fs fs' Hsame _ "/shear_cl_g" "g" ltac:(discriminate)).
  assert (Hgi : path_exists fs (self_dirname self +:+ "/shear_cl_gi")
                = path_exists fs' (self_dirname self +:+ "/shear_cl_gi"))
    by exact (section_dir_same fs fs' Hsame _ "/shear_cl_g" "i" ltac:(discriminate)).
  assert (Hii : path_exists fs (self_dirname self +:+ "/shear_cl_ii")
                = path_exists fs' (self_dirname self +:+ "/shear_cl_ii"))
    by exact (section_dir_same fs fs' Hsame _ "/shear_cl_i" "i" ltac:(discriminate)).
  rewrite Hgg, Hgi, Hii.
  revert w.
  repeat (apply bind_cong; [|intros _]);
    try reflexivity; try (intros w; apply plot_section_same);
    match goal with
    | |- context [if ?b then _ else _] =>
        destruct b; [intros w; apply plot_section_same|reflexivity]
    end.
Qed.

Lemma plot_same self w : plot fs self w = plot fs' self w.
Proof.
  destruct self as [c n out dir q]. unfold plot.
  destruct c;
    cbv beta iota zeta
        delta [self_class getattr mro mro_from bases flat_map app omap list_omap
               own_plot];
    try reflexivity; rewrite !bind_lift_Ok.
  all: try apply shear_spectrum_plot_same.
  all: try apply correlation_plot_same.
  all: try (unfold MatterPower2D_plot; revert w; apply bind_cong; [reflexivity|];
            intros _ w; apply plot_section_same).
  all: cbv beta iota zeta
           delta [DistancePlot_plot CMBSpectrumPlot_plot BBPlot_plot GrandPlot_plot
                  MatterPowerPlot_plot MatterPowerPlot_plot_section
                  GrowthPlot_plot LuminositySlopePlot_plot Plot_plot
                  self_class self_figure for_each bind lift
                  getattr mro mro_from bases flat_map app omap list_omap
                  own_distance own_name].
  all: rewrite ?(power_files_exist_same fs fs' Hsame).
  all: same_loads fs fs' Hsame.
  all: reflexivity.
Qed.

End SamePlots.

Section SameRun.

Variables fs fs' : FS.
Hypothesis Hsame : same_tables fs fs'.

Lemma main_same order a w : main fs order a w = main fs' order a w.
Proof.
  unfold main, main_with. revert w. apply bind_cong; [reflexivity|]. intros _.
  apply for_each_ext. intros c w. unfold attempt, try_except_IOError.
  assert (E : bind (make_with (plot fs) c (arg_dirname a) (arg_output_dir a)
                      (arg_prefix a) (arg_type a)) (fun _ => ret tt) w
              = bind (make_with (plot fs') c (arg_dirname a) (arg_output_dir a)
                        (arg_prefix a) (arg_type a)) (fun _ => ret tt) w).
  { revert w. apply bind_cong; [|reflexivity]. unfold make_with.
    apply bind_cong; [reflexivity|]. intros p.
    apply bind_cong; [apply (plot_same fs fs' Hsame)|reflexivity]. }
  now rewrite E.
Qed.

End SameRun.

(** C9, as the code has it.  A [values.txt] that exists and has a
    non-blank line without exactly one [=] makes [load_values] raise a
    [ValueError], which is not an [IOError].  But no plot routine calls
    [load_values], so the driver never meets this error: a run of the
    driver is the same on two sample directories that differ only in
    their [values.txt] files, whatever these hold. *)
Theorem load_values_malformed_unreached fs self section text line :
  files fs !! values_path self section = Some text ->
  line ∈ Str.readlines text ->
  Str.strip line <> EmptyString ->
  Str.count "=" line <> 1%nat ->
  (exists msg,
     load_values fs self section = Raise (ValueError msg)
     /\ is_IOError (ValueError msg) = false)
  /\ forall fs' order a w,
       same_tables fs fs' -> main fs order a w = main fs' order a w.
Proof.
  intros Hf Hin Hb Hc. split.
  - destruct (load_values_lines_malformed _ _ Hin Hb Hc ∅) as (msg & Hm).
    exists msg. split; [|reflexivity].
    unfold load_values, open_read. fold (values_path self section).
    now rewrite Hf.
  - intros fs' order a w Hsame. now apply main_same.
Qed.

Lemma load_values_malformed_unreached_witness :
  (exists msg, load_values fs_malformed_run self_run "cosmo" = Raise (ValueError msg))
  /\ main fs_malformed_run (elements registry) args_run world0
     = main fs_repaired_run (elements registry) args_run world0.
Proof.
  destruct (load_values_malformed_unreached fs_malformed_run self_run "cosmo"
              ("H0 = 70.0" +:+ nl +:+ "oops" +:+ nl) ("oops" +:+ nl))
    as ((msg & Hm & _) & Hrun).
  - reflexivity.
  - vm_compute. right. left.
  - vm_compute. discriminate.
  - vm_compute. discriminate.
  - split; [now exists msg|]. apply Hrun. split; [reflexivity|].
    intros path Hp. unfold fs_repaired_run. cbn [files].
    apply eq_sym, lookup_insert_ne. intros <-. apply Hp. now exists "run/cosmo".
Defined.

(** C9 as it was claimed fails: a malformed [values.txt] does not abort the
    batch.  On a sample with such a file, on which [load_values] raises, the
    run over the registry completes, with one line for each of the sixteen
    classes and the image of the angular diameter distance written. *)
Lemma malformed_values_batch_completes :
  (exists w',
     main fs_malformed_run (elements registry) args_run world0 = (Ok tt, w')
     /\ length (stdout w') = 16%nat
     /\ is_Some (outputs w' !! "out/pre_angular_distance.png"))
  /\ ~ (forall fs self section text line order a w,
       files fs !! values_path self section = Some text ->
       line ∈ Str.readlines text ->
       Str.strip line <> EmptyString ->
       Str.count "=" line <> 1%nat ->
       self_dirname self = arg_dirname a ->
       iteration_order registry order ->
       exists e w', main fs order a w = (Raise e, w')).
Proof.
  split.
  { eexists. split; [vm_compute; reflexivity|]. split; [vm_compute; reflexivity|].
    vm_compute. eexists. reflexivity. }
  intros H.
  destruct (H fs_malformed_run self_run "cosmo"
              ("H0 = 70.0" +:+ nl +:+ "oops" +:+ nl) ("oops" +:+ nl)
              (elements registry) args_run world0) as (e & w' & Hr).
  - reflexivity.
  - vm_compute. right. left.
  - vm_compute. discriminate.
  - vm_compute. discriminate.
  - reflexivity.
  - unfold iteration_order. reflexivity.
  - vm_compute in Hr. discriminate Hr.
Qed.
